(** * mnemomind: ingestion scripts and read API of a small RAG document store

    A shallow embedding of
    - [Elastic Cloud HQ/index-in-elastic-cloud-old.py] (module [IndexOld]),
    - [Elastic Cloud HQ/delete_index.py] (module [DeleteIndex]),
    - [api/main.py] (module [Api]),
    with the services they call (file system, PDF and DOCX readers, the
    embedding model, the text splitter, the Elasticsearch client) taken as
    the fields of a record [World]: what each call answers.  Scripts are
    state passing functions over [state]: the batch buffer, the counters,
    the log and the trace of the calls that left the process. *)

From Stdlib Require Import Ascii String Floats DecimalString DecimalNat.
From Equations Require Import Equations.
From stdpp Require Import gmap strings list fin_maps.

#[local] Set Warnings "-clear-no-such-hyp".

(** ** Python values, exceptions and strings *)

Module Py.

#[local] Set Warnings "-register-all".

(** The values the scripts put in dictionaries and JSON bodies. *)
Inductive value :=
| VNone
| VStr (s : string)
| VBool (b : bool)
| VInt (n : nat)
| VVec (v : list float)
| VList (l : list value)
| VDict (d : list (string * value)).

(** A Python [dict] written as a literal: keys in insertion order. *)
Abbreviation dict := (list (string * value)).

(** [d.get(k)]: the first binding of [k]. *)
Fixpoint get (k : string) (d : dict) : option value :=
  match d with
  | [] => None
  | (k', v) :: d' => if String.eqb k k' then Some v else get k d'
  end.

(** [d.get(k, default)]. *)
Definition get_default (k : string) (default : value) (d : dict) : value :=
  match get k d with
  | Some v => v
  | None => default
  end.

Definition keys (d : dict) : list string := d.*1.

(** Exceptions, as far as the handlers tell them apart; [str_exn] is [str(e)].
    A [KeyError] holds the missing key, and its [str] is the [repr] of the
    key: the key between single quotes, for the keys the code looks up
    (letters and underscores). *)
Inductive exn :=
| FileNotFoundError (msg : string)
| BulkIndexError (msg : string) (errors : list string)
| NotFoundError (msg : string)
| KeyError (key : string)
| Exception (msg : string).

Definition str_exn (e : exn) : string :=
  match e with
  | FileNotFoundError msg => msg
  | BulkIndexError msg _ => msg
  | NotFoundError msg => msg
  | KeyError key => "'" +:+ key +:+ "'"
  | Exception msg => msg
  end.

(** The outcome of a call that may raise. *)
Inductive result (A : Type) :=
| Ok (a : A)
| Raise (e : exn).
Arguments Ok {A} a.
Arguments Raise {A} e.

Definition is_ok {A} (r : result A) : bool :=
  match r with
  | Ok _ => true
  | Raise _ => false
  end.

(** Sequencing of calls that may raise: the first exception ends the block. *)
#[global] Instance result_ret : MRet result := @Ok.
#[global] Instance result_bind : MBind result :=
  fun A B f r => match r with Ok a => f a | Raise e => Raise e end.

(** Using a value as a [dict] or as a [list]; a [TypeError] otherwise. *)
Definition as_dict (v : value) : result dict :=
  match v with
  | VDict d => Ok d
  | _ => Raise (Exception "TypeError: not a dict")
  end.

Definition as_list (v : value) : result (list value) :=
  match v with
  | VList l => Ok l
  | _ => Raise (Exception "TypeError: not a list")
  end.

(** [d[k]]: raises [KeyError] on a missing key. *)
Definition getitem (k : string) (d : dict) : result value :=
  match get k d with
  | Some v => Ok v
  | None => Raise (KeyError k)
  end.

Definition nl : string := String (ascii_of_nat 10) EmptyString.

(** [str(n)] for a non-negative [int]. *)
Definition str_nat (n : nat) : string := NilEmpty.string_of_uint (Nat.to_uint n).

(** Truth value of a string: [not s] is [negb (truthy s)]. *)
Definition truthy (s : string) : bool := negb (String.eqb s EmptyString).

(** [c.isspace()] on the code points below 256. *)
Definition is_space_char (c : ascii) : bool :=
  let n := nat_of_ascii c in
  ((9 <=? n) && (n <=? 13)) || ((28 <=? n) && (n <=? 32)) || (n =? 133) || (n =? 160).

Fixpoint all_space (s : string) : bool :=
  match s with
  | EmptyString => true
  | String c r => is_space_char c && all_space r
  end.

(** [s.isspace()]: at least one character, and all of them white space. *)
Definition isspace (s : string) : bool := truthy s && all_space s.

(** The test [not s or s.isspace()] both scripts use. *)
Definition blank (s : string) : bool := negb (truthy s) || isspace s.

(** [s.lower()] on ASCII letters. *)
Definition lower_char (c : ascii) : ascii :=
  let n := nat_of_ascii c in
  if (65 <=? n) && (n <=? 90) then ascii_of_nat (n + 32) else c.

Fixpoint lower (s : string) : string :=
  match s with
  | EmptyString => EmptyString
  | String c r => String (lower_char c) (lower r)
  end.

(** [sep.join(parts)]. *)
Fixpoint join (sep : string) (parts : list string) : string :=
  match parts with
  | [] => EmptyString
  | [p] => p
  | p :: ps => p +:+ sep +:+ join sep ps
  end.

(** The tail of [s] from its last dot on, when it has one. *)
Fixpoint last_dot (s : string) : option string :=
  match s with
  | EmptyString => None
  | String c r =>
      match last_dot r with
      | Some t => Some t
      | None => if Ascii.eqb c "." then Some (String c r) else None
      end
  end.

(** [PurePath.suffix] of a file name: [name[i:]] for [i = name.rfind('.')]
    when [0 < i < len(name) - 1], else the empty string. *)
Definition suffix (name : string) : string :=
  match name with
  | EmptyString => EmptyString
  | String _ r =>
      match last_dot r with
      | Some t => if String.length t =? 1 then EmptyString else t
      | None => EmptyString
      end
  end.

(** [enumerate(l)], counting from [i]. *)
Fixpoint enumerate_from {A} (i : nat) (l : list A) : list (nat * A) :=
  match l with
  | [] => []
  | x :: l' => (i, x) :: enumerate_from (S i) l'
  end.

Definition enumerate {A} (l : list A) : list (nat * A) := enumerate_from 0 l.

End Py.
Export Py.

(** ** Logging *)

Inductive level := INFO | WARNING | ERROR.

Definition log_record : Type := level * string.

(** ** The world outside the process *)

(** What [PyPDF2.PdfReader] shows of a document: each page is the outcome
    of [page.extract_text()]. *)
Record PdfReader := {
  is_encrypted : bool;
  decrypt : result unit;
  pages : result (list (result string));
}.

(** An entry [docs_path.rglob('*')] yields, with what reading it answers. *)
Record File := {
  name : string;
  parent : list string;
  is_file : bool;
  st_mtime : float;
  open_rb : result string;
  open_r : result string;
  docx_paragraphs : result (list string);
}.

(** Calls that leave the process, in the order they are made. *)
Inductive call :=
| EsPing
| EsIndicesExists (index : string)
| EsIndicesCreate (index : string) (mappings : dict)
| EsIndicesDelete (index : string)
| EsBulk (timeout : nat) (actions : list dict)
| EsDelete (index id : string)
| EsDeleteByQuery (index : string) (body : dict)
| LoadModel (model_name : string)
| SplitText (text : string)
| Encode (chunk : string).

(** The answers of the environment.  [bulk n actions] is the answer to the
    bulk request made after [n] earlier ones, so that a request may fail
    and the same one succeed later. *)
Record World := {
  ELASTIC_CLOUD_ID : option string;
  ELASTIC_API_KEY : option string;
  ELASTIC_INDEX : option string;
  PRELOAD_USER_ID : option string;
  docs_is_dir : bool;
  rglob : list File;
  Elasticsearch : result unit;
  ping : result bool;
  SentenceTransformer : result unit;
  encode : string -> result (list float);
  split_text : string -> result (list string);
  pdf_reader : string -> result PdfReader;
  b64encode : string -> string;
  str_float : float -> string;
  strftime_gmtime : string;
  total_time : string;
  indices_exists : result bool;
  indices_create : result unit;
  bulk : nat -> list dict -> result (nat * list value);
}.

(** [os.getenv(k, default)]. *)
Definition getenv_default (v : option string) (default : string) : string :=
  match v with
  | Some s => s
  | None => default
  end.

(** Truth value of [os.getenv(k)]: set and not empty. *)
Definition env_truthy (v : option string) : bool :=
  match v with
  | Some s => truthy s
  | None => false
  end.

(** ** The state of a script run *)

Record state := {
  all_actions : list dict;
  file_count : nat;
  total_chunks : nat;
  log : list log_record;
  trace : list call;
}.

Definition initial : state :=
  {| all_actions := []; file_count := 0; total_chunks := 0; log := []; trace := [] |}.

Definition logging (l : level) (msg : string) (s : state) : state :=
  {| all_actions := all_actions s; file_count := file_count s;
     total_chunks := total_chunks s; log := log s ++ [(l, msg)]; trace := trace s |}.

Definition calling (c : call) (s : state) : state :=
  {| all_actions := all_actions s; file_count := file_count s;
     total_chunks := total_chunks s; log := log s; trace := trace s ++ [c] |}.

Definition set_all_actions (acts : list dict) (s : state) : state :=
  {| all_actions := acts; file_count := file_count s;
     total_chunks := total_chunks s; log := log s; trace := trace s |}.

Definition append_action (a : dict) (s : state) : state :=
  set_all_actions (all_actions s ++ [a]) s.

Definition incr_file_count (s : state) : state :=
  {| all_actions := all_actions s; file_count := S (file_count s);
     total_chunks := total_chunks s; log := log s; trace := trace s |}.

Definition add_total_chunks (n : nat) (s : state) : state :=
  {| all_actions := all_actions s; file_count := file_count s;
     total_chunks := total_chunks s + n; log := log s; trace := trace s |}.

Definition is_bulk (c : call) : bool :=
  match c with
  | EsBulk _ _ => true
  | _ => false
  end.

(** The bulk requests made so far. *)
Definition bulk_requests (tr : list call) : list (list dict) :=
  omap (fun c => match c with EsBulk _ acts => Some acts | _ => None end) tr.

(** [str(relative_path)] for the parent directory relative to the documents
    folder: ["."] at its top. *)
Definition str_parent (f : File) : string :=
  match parent f with
  | [] => "."
  | ds => join "/" ds
  end.

(** [str(relative_path / file_name)]. *)
Definition str_relative (f : File) : string := join "/" (parent f ++ [name f]).

(** [str(file_path)] for an entry under [Path("./fixed_documents")]. *)
Definition str_file_path (f : File) : string :=
  join "/" ("fixed_documents" :: parent f ++ [name f]).

(** [text += line + "\n"] over the lines, from the empty string. *)
Fixpoint concat_lines (lines : list string) : string :=
  match lines with
  | [] => EmptyString
  | l :: ls => l +:+ nl +:+ concat_lines ls
  end.

(** The page loop [for page in reader.pages: page_text = page.extract_text();
    if page_text: text += page_text + "\n"]: the text gathered, and the
    exception that ended the loop when a page raised. *)
Fixpoint read_pages (ps : list (result string)) (text : string) : string * option exn :=
  match ps with
  | [] => (text, None)
  | Ok page_text :: rest =>
      read_pages rest (if truthy page_text then text +:+ page_text +:+ nl else text)
  | Raise e :: _ => (text, Some e)
  end.

(** ** index-in-elastic-cloud-old.py *)

Module IndexOld.

Definition ES_INDEX_NAME (w : World) : string :=
  getenv_default (ELASTIC_INDEX w) "rag_documents".
Definition EMBEDDING_MODEL_NAME : string := "sentence-transformers/all-MiniLM-L6-v2".
Definition EMBEDDING_DIM : nat := 384.
Definition DOCS_FOLDER : string := "./fixed_documents".
Definition CHUNK_SIZE : nat := 1000.
Definition CHUNK_OVERLAP : nat := 150.

(** The [separators] the text splitter is constructed with. *)
Definition separators : list string :=
  [nl +:+ nl; nl; " "; EmptyString; "."; ","; ";"; ":"; "("; ")"; "["; "]"; "{"; "}"].

(** What a file's reading gives: [bytes] for a PDF, [str] otherwise. *)
Inductive content :=
| Bytes (b : string)
| Text (t : string).

Definition raw (c : content) : string :=
  match c with
  | Bytes b => b
  | Text t => t
  end.

Definition text_suffixes : list string :=
  [".txt"; ".md"; ".py"; ".js"; ".ts"; ".html"; ".css"; ".json"; ".yaml"; ".yml"].

(** The two handlers of [get_file_content_and_type]. *)
Definition read_error (file_path : File) (e : exn) (s : state) : state :=
  match e with
  | FileNotFoundError _ => logging ERROR ("File not found: " +:+ str_file_path file_path) s
  | _ => logging ERROR ("Error reading " +:+ name file_path +:+ ": " +:+ str_exn e) s
  end.

Definition get_file_content_and_type (file_path : File) (s : state)
  : option content * option string * state :=
  let suffix := lower (suffix (name file_path)) in
  if String.eqb suffix ".pdf" then
    match open_rb file_path with
    | Ok b => (Some (Bytes b), Some "pdf_base64", s)
    | Raise e => (None, None, read_error file_path e s)
    end
  else if String.eqb suffix ".docx" then
    match docx_paragraphs file_path with
    | Ok paras => (Some (Text (concat_lines paras)), Some "text", s)
    | Raise e => (None, None, read_error file_path e s)
    end
  else if existsb (String.eqb suffix) text_suffixes then
    match open_r file_path with
    | Ok t => (Some (Text t), Some "text", s)
    | Raise e => (None, None, read_error file_path e s)
    end
  else
    (None, None, logging WARNING ("Skipping unsupported file type: " +:+ name file_path) s).

Definition extract_text_from_pdf (w : World) (file_bytes : string) (file_path : File)
    (s : state) : string * state :=
  let failed e :=
    logging ERROR ("Error extracting text from PDF " +:+ name file_path +:+ ": " +:+ str_exn e) in
  match pdf_reader w file_bytes with
  | Raise e => (EmptyString, failed e s)
  | Ok reader =>
      match (if is_encrypted reader then decrypt reader else Ok ()) with
      | Raise decrypt_error =>
          (EmptyString,
           logging WARNING ("Skipping encrypted PDF (password needed): "
                            +:+ str_file_path file_path +:+ " - " +:+ str_exn decrypt_error) s)
      | Ok _ =>
          match pages reader with
          | Raise e => (EmptyString, failed e s)
          | Ok ps =>
              match read_pages ps EmptyString with
              | (text, None) => (text, s)
              | (text, Some e) => (text, failed e s)
              end
          end
      end
  end.

Definition index_mapping : dict :=
  [("properties", VDict
      [("file_name", VDict [("type", VStr "keyword")]);
       ("path", VDict [("type", VStr "keyword")]);
       ("content", VDict [("type", VStr "text"); ("index", VBool false)]);
       ("content_type", VDict [("type", VStr "keyword")]);
       ("chunk_text", VDict [("type", VStr "text")]);
       ("chunk_vector", VDict [("type", VStr "dense_vector"); ("dims", VInt EMBEDDING_DIM);
                               ("index", VBool true); ("similarity", VStr "cosine")]);
       ("timestamp", VDict [("type", VStr "date")])])].

(** [f"file-{relative_path / file_name}-{file_path.stat().st_mtime}"]. *)
Definition doc_id (w : World) (file_path : File) : string :=
  "file-" +:+ str_relative file_path +:+ "-" +:+ str_float w (st_mtime file_path).

(** [f"chunk-{relative_path / file_name}-{file_path.stat().st_mtime}-{i}"]. *)
Definition chunk_id (w : World) (file_path : File) (i : nat) : string :=
  "chunk-" +:+ str_relative file_path +:+ "-" +:+ str_float w (st_mtime file_path)
  +:+ "-" +:+ str_nat i.

(** The action of the branch for a file with no text to chunk. *)
Definition metadata_action (w : World) (file_path : File)
    (full_content_for_es content_type : string) : dict :=
  [("_index", VStr (ES_INDEX_NAME w));
   ("_id", VStr (doc_id w file_path));
   ("_source", VDict
      [("file_name", VStr (name file_path));
       ("path", VStr (str_parent file_path));
       ("content", VStr full_content_for_es);
       ("content_type", VStr content_type);
       ("timestamp", VStr (strftime_gmtime w));
       ("chunk_text", VNone);
       ("chunk_vector", VNone)])].

(** The action of chunk [i] of a file. *)
Definition chunk_action (w : World) (file_path : File)
    (full_content_for_es content_type : string)
    (i : nat) (chunk : string) (vector : list float) : dict :=
  [("_index", VStr (ES_INDEX_NAME w));
   ("_id", VStr (chunk_id w file_path i));
   ("_source", VDict
      [("file_name", VStr (name file_path));
       ("path", VStr (str_parent file_path));
       ("content", VStr full_content_for_es);
       ("content_type", VStr content_type);
       ("chunk_text", VStr chunk);
       ("chunk_vector", VVec vector);
       ("timestamp", VStr (strftime_gmtime w))])].

(** The loop [for i, chunk in enumerate(chunks)], with its counter
    [chunks_embedded_count]. *)
Fixpoint embed_chunks (w : World) (file_path : File)
    (full_content_for_es content_type : string)
    (ichunks : list (nat * string)) (chunks_embedded_count : nat) (s : state)
  : nat * state :=
  match ichunks with
  | [] => (chunks_embedded_count, s)
  | (i, chunk) :: rest =>
      if blank chunk then
        embed_chunks w file_path full_content_for_es content_type rest chunks_embedded_count
          (logging WARNING ("  Skipping empty chunk " +:+ str_nat (i + 1) +:+ " for "
                            +:+ name file_path +:+ ".") s)
      else
        let s := calling (Encode chunk) s in
        match encode w chunk with
        | Ok vector =>
            embed_chunks w file_path full_content_for_es content_type rest
              (chunks_embedded_count + 1)
              (append_action
                 (chunk_action w file_path full_content_for_es content_type i chunk vector) s)
        | Raise e_embed =>
            embed_chunks w file_path full_content_for_es content_type rest
              chunks_embedded_count
              (logging ERROR ("  Error embedding chunk " +:+ str_nat (i + 1) +:+ " of "
                              +:+ name file_path +:+ ": " +:+ str_exn e_embed
                              +:+ ". Skipping chunk.") s)
        end
  end.

(** The log lines after a bulk call that returned. *)
Definition bulk_returned (label : string) (success : nat) (failed : list value)
    (s : state) : state :=
  let s := logging INFO ("  " +:+ label +:+ "Batch Indexing: " +:+ str_nat success
                         +:+ " succeeded.") s in
  match failed with
  | [] => s
  | _ => logging ERROR ("  " +:+ label +:+ "Batch Indexing Failed Docs: "
                        +:+ str_nat (length failed)) s
  end.

Definition first_error (errors : list string) : string :=
  match errors with
  | e :: _ => e
  | [] => "N/A"
  end.

(** The bulk call of a batch inside the file loop, entered when
    [len(all_actions) >= 500]: every handler clears the batch. *)
Definition index_batch (w : World) (s : state) : state :=
  let s := logging INFO ("Indexing batch of " +:+ str_nat (length (all_actions s))
                         +:+ " actions...") s in
  let answer := bulk w (length (bulk_requests (trace s))) (all_actions s) in
  let s := calling (EsBulk 120 (all_actions s)) s in
  match answer with
  | Ok (success, failed) => set_all_actions [] (bulk_returned "" success failed s)
  | Raise (BulkIndexError _ errors) =>
      set_all_actions []
        (logging ERROR ("BULK INDEXING ERROR (stopping batch): Processed: "
                        +:+ str_nat (length errors) +:+ " docs, Failed: "
                        +:+ str_nat (length errors) +:+ ". First error: "
                        +:+ first_error errors) s)
  | Raise e_bulk_other =>
      set_all_actions []
        (logging ERROR ("Unexpected error during bulk indexing batch: "
                        +:+ str_exn e_bulk_other) s)
  end.

(** Step 7, [if all_actions:] the bulk call of what is left at the end. *)
Definition index_final_batch (w : World) (s : state) : state :=
  match all_actions s with
  | [] => s
  | _ =>
      let s := logging INFO ("Indexing final batch of " +:+ str_nat (length (all_actions s))
                             +:+ " actions...") s in
      let answer := bulk w (length (bulk_requests (trace s))) (all_actions s) in
      let s := calling (EsBulk 120 (all_actions s)) s in
      match answer with
      | Ok (success, failed) => bulk_returned "Final " success failed s
      | Raise (BulkIndexError _ errors) =>
          logging ERROR ("FINAL BULK INDEXING ERROR: Processed: "
                         +:+ str_nat (length errors) +:+ " docs, Failed: "
                         +:+ str_nat (length errors) +:+ ". First error: "
                         +:+ first_error errors) s
      | Raise e_bulk_other =>
          logging ERROR ("Unexpected error during final bulk indexing: "
                         +:+ str_exn e_bulk_other) s
      end
  end.

(** The part of the loop body after the text for chunking is known. *)
Definition chunk_and_index (w : World) (file_path : File)
    (full_content_for_es content_type text_for_chunking : string) (s : state) : state :=
  let file_name := name file_path in
  if blank text_for_chunking then
    let s := logging WARNING ("  No text available for chunking in " +:+ file_name
                              +:+ ". Indexing document without chunks.") s in
    append_action (metadata_action w file_path full_content_for_es content_type) s
  else
    let s := calling (SplitText text_for_chunking) s in
    match split_text w text_for_chunking with
    | Raise e_split =>
        logging ERROR ("  Error splitting text for " +:+ file_name +:+ ": "
                       +:+ str_exn e_split +:+ ". Skipping file.") s
    | Ok [] =>
        logging WARNING ("  Text splitting resulted in zero chunks for " +:+ file_name
                         +:+ ". Skipping chunk generation.") s
    | Ok chunks =>
        let s := logging INFO ("  Split into " +:+ str_nat (length chunks) +:+ " chunks.") s in
        let '(chunks_embedded_count, s) :=
          embed_chunks w file_path full_content_for_es content_type (enumerate chunks) 0 s in
        let s := add_total_chunks chunks_embedded_count s in
        if 500 <=? length (all_actions s) then index_batch w s else s
    end.

(** The body of [for file_path in docs_path.rglob('*')]. *)
Definition process_file (w : World) (s : state) (file_path : File) : state :=
  if negb (is_file file_path) then s else
  let file_name := name file_path in
  let s := logging INFO ("Processing: " +:+ str_relative file_path) s in
  let s := incr_file_count s in
  let '(full_content_raw, content_type, s) := get_file_content_and_type file_path s in
  match full_content_raw, content_type with
  | Some c, Some ct =>
      if negb (truthy (raw c)) || negb (truthy ct) then
        logging WARNING ("  Skipping " +:+ file_name
                         +:+ " due to read error or unsupported type.") s
      else if String.eqb ct "pdf_base64" then
        let '(text_for_chunking, s) := extract_text_from_pdf w (raw c) file_path s in
        chunk_and_index w file_path (b64encode w (raw c)) ct text_for_chunking s
      else if String.eqb ct "text" then
        chunk_and_index w file_path (raw c) ct (raw c) s
      else
        logging WARNING ("  Internal error: Unexpected content_type '" +:+ ct +:+ "' for "
                         +:+ file_name +:+ ". Skipping.") s
  | _, _ =>
      logging WARNING ("  Skipping " +:+ file_name
                       +:+ " due to read error or unsupported type.") s
  end.

(** Step 6: the loop over the folder. *)
Definition process_files (w : World) (files : list File) (s : state) : state :=
  foldl (process_file w) s files.

(** Steps 6 and 7 and the closing log lines. *)
Definition ingest (w : World) (s : state) : state :=
  let s := logging INFO ("Scanning documents in '" +:+ DOCS_FOLDER
                         +:+ "' (including subdirectories)...") s in
  let s := process_files w (rglob w) s in
  let s := index_final_batch w s in
  let s := logging INFO "--- Document Indexing Script Finished ---" s in
  let s := logging INFO ("Processed " +:+ str_nat (file_count s) +:+ " files found in '"
                         +:+ DOCS_FOLDER +:+ "'.") s in
  let s := logging INFO ("Generated and attempted to index " +:+ str_nat (total_chunks s)
                         +:+ " chunks.") s in
  logging INFO ("Total time: " +:+ total_time w +:+ " seconds.") s.

(** Step 5: create the index when it does not exist; [false] is [exit(1)]. *)
Definition prepare_index (w : World) (s : state) : state * bool :=
  let failed e :=
    logging ERROR ("Error creating/checking index '" +:+ ES_INDEX_NAME w +:+ "': "
                   +:+ str_exn e) in
  let s := calling (EsIndicesExists (ES_INDEX_NAME w)) s in
  match indices_exists w with
  | Raise e => (failed e s, false)
  | Ok true =>
      (logging INFO ("Index '" +:+ ES_INDEX_NAME w +:+ "' already exists.") s, true)
  | Ok false =>
      let s := logging INFO ("Creating index '" +:+ ES_INDEX_NAME w
                             +:+ "' with mapping...") s in
      let s := calling (EsIndicesCreate (ES_INDEX_NAME w) index_mapping) s in
      match indices_create w with
      | Raise e => (failed e s, false)
      | Ok _ => (s, true)
      end
  end.

(** The script: the final state and the exit status. *)
Definition main (w : World) : state * nat :=
  let s := logging INFO "--- Starting Document Indexing Script ---" initial in
  if negb (env_truthy (ELASTIC_CLOUD_ID w)) || negb (env_truthy (ELASTIC_API_KEY w)) then
    (logging ERROR "Elastic Cloud ID or API Key not found. Check .env or environment variables. Exiting." s, 1)
  else if negb (docs_is_dir w) then
    (logging ERROR ("Documents folder '" +:+ DOCS_FOLDER +:+ "' not found. Exiting.") s, 1)
  else
    let s := logging INFO "Connecting to Elasticsearch..." s in
    let connect_failed e :=
      logging ERROR ("Failed to connect to Elasticsearch: " +:+ str_exn e) in
    match Elasticsearch w with
    | Raise e => (connect_failed e s, 1)
    | Ok _ =>
        let s := calling EsPing s in
        match ping w with
        | Raise e => (connect_failed e s, 1)
        | Ok false => (connect_failed (Exception "Ping failed.") s, 1)
        | Ok true =>
            let s := logging INFO "Connected to Elasticsearch successfully." s in
            let s := logging INFO ("Loading embedding model: " +:+ EMBEDDING_MODEL_NAME
                                   +:+ "...") s in
            let s := calling (LoadModel EMBEDDING_MODEL_NAME) s in
            match SentenceTransformer w with
            | Raise e =>
                (logging ERROR ("Failed to load embedding model: " +:+ str_exn e) s, 1)
            | Ok _ =>
                let s := logging INFO "Embedding model loaded." s in
                match prepare_index w s with
                | (s, false) => (s, 1)
                | (s, true) => (ingest w s, 0)
                end
            end
        end
    end.

End IndexOld.

(** ** delete_index.py *)

Module DeleteIndex.

Definition ES_INDEX_NAME : string := "rag_documents".
Definition EMBEDDING_MODEL_NAME : string := "sentence-transformers/all-MiniLM-L6-v2".
Definition EMBEDDING_DIM : nat := 384.
Definition DOCS_FOLDER : string := "./fixed_documents".
Definition TARGET_USER_ID (w : World) : string :=
  getenv_default (PRELOAD_USER_ID w) "preloaded_general_docs".

(** The sizes the text splitter is constructed with. *)
Definition chunk_size : nat := 1000.
Definition chunk_overlap : nat := 150.

(** A run of the file loop: still going, or ended by an exception that no
    handler of the script catches. *)
Inductive run :=
| Running (s : state)
| Uncaught (s : state) (e : exn).

Definition state_of (r : run) : state :=
  match r with
  | Running s => s
  | Uncaught s _ => s
  end.

Definition parse_pdf (w : World) (file_path : File) (s : state) : string * state :=
  let failed e :=
    logging ERROR ("Error parsing PDF " +:+ name file_path +:+ ": " +:+ str_exn e) in
  match open_rb file_path with
  | Raise e => (EmptyString, failed e s)
  | Ok f =>
      match pdf_reader w f with
      | Raise e => (EmptyString, failed e s)
      | Ok reader =>
          match (if is_encrypted reader then decrypt reader else Ok ()) with
          | Raise _ =>
              (EmptyString,
               logging WARNING ("Skipping encrypted PDF (password needed): "
                                +:+ str_file_path file_path) s)
          | Ok _ =>
              match pages reader with
              | Raise e => (EmptyString, failed e s)
              | Ok ps =>
                  match read_pages ps EmptyString with
                  | (text, None) => (text, s)
                  | (text, Some e) => (text, failed e s)
                  end
              end
          end
      end
  end.

Definition parse_docx (file_path : File) (s : state) : string * state :=
  match docx_paragraphs file_path with
  | Ok paras => (concat_lines paras, s)
  | Raise e =>
      (EmptyString,
       logging ERROR ("Error parsing DOCX " +:+ name file_path +:+ ": " +:+ str_exn e) s)
  end.

Definition parse_text_file (file_path : File) (s : state) : string * state :=
  match open_r file_path with
  | Ok text => (text, s)
  | Raise e =>
      (EmptyString,
       logging ERROR ("Error parsing text/markdown file " +:+ name file_path +:+ ": "
                      +:+ str_exn e) s)
  end.

Definition supported_suffixes : list string := [".pdf"; ".docx"; ".txt"; ".md"].

(** The bulk action of a chunk: no ["_id"] key. *)
Definition doc (w : World) (file_name chunk : string) (vector : list float) : dict :=
  [("_index", VStr ES_INDEX_NAME);
   ("_source", VDict
      [("user_id", VStr (TARGET_USER_ID w));
       ("file_name", VStr file_name);
       ("chunk_text", VStr chunk);
       ("chunk_vector", VVec vector)])].

(** The loop [for i, chunk in enumerate(chunks)]. *)
Fixpoint embed_chunks (w : World) (file_name : string) (ichunks : list (nat * string))
    (s : state) : state :=
  match ichunks with
  | [] => s
  | (i, chunk) :: rest =>
      if blank chunk then embed_chunks w file_name rest s
      else
        let s := calling (Encode chunk) s in
        match encode w chunk with
        | Ok vector => embed_chunks w file_name rest (append_action (doc w file_name chunk vector) s)
        | Raise e_embed =>
            embed_chunks w file_name rest
              (logging ERROR ("Error embedding chunk " +:+ str_nat (i + 1) +:+ " of "
                              +:+ file_name +:+ ": " +:+ str_exn e_embed) s)
        end
  end.

(** The log lines after a bulk call that returned. *)
Definition bulk_returned (label : string) (success : nat) (failed : list value)
    (s : state) : state :=
  let s := logging INFO ("  " +:+ label +:+ "Batch Indexing: " +:+ str_nat success
                         +:+ " succeeded.") s in
  match failed with
  | [] => s
  | _ => logging ERROR ("  " +:+ label +:+ "Batch Indexing Failed Docs: "
                        +:+ str_nat (length failed)) s
  end.

(** The bulk call of a batch inside the file loop, entered when
    [len(all_actions) >= 1000]: the batch is cleared after a call that
    returned; the handler of an exception only logs. *)
Definition index_batch (w : World) (s : state) : state :=
  let s := logging INFO ("Indexing batch of " +:+ str_nat (length (all_actions s))
                         +:+ " actions...") s in
  let answer := bulk w (length (bulk_requests (trace s))) (all_actions s) in
  let s := calling (EsBulk 120 (all_actions s)) s in
  match answer with
  | Ok (success, failed) => set_all_actions [] (bulk_returned "" success failed s)
  | Raise e_bulk =>
      logging ERROR ("Error during bulk indexing batch: " +:+ str_exn e_bulk) s
  end.

(** Step 5, [if all_actions:] the bulk call of what is left at the end. *)
Definition index_final_batch (w : World) (s : state) : state :=
  match all_actions s with
  | [] => s
  | _ =>
      let s := logging INFO ("Indexing final batch of " +:+ str_nat (length (all_actions s))
                             +:+ " actions...") s in
      let answer := bulk w (length (bulk_requests (trace s))) (all_actions s) in
      let s := calling (EsBulk 120 (all_actions s)) s in
      match answer with
      | Ok (success, failed) => bulk_returned "Final " success failed s
      | Raise e_bulk =>
          logging ERROR ("Error during final bulk indexing batch: " +:+ str_exn e_bulk) s
      end
  end.

(** The block [# --- Parsing Logic ---]: the text of a file by its suffix;
    [None] stands for the branch [else: ... continue]. *)
Definition parse (w : World) (file_path : File) (s : state) : option (string * state) :=
  let file_suffix := lower (suffix (name file_path)) in
  if String.eqb file_suffix ".pdf" then Some (parse_pdf w file_path s)
  else if String.eqb file_suffix ".docx" then Some (parse_docx file_path s)
  else if String.eqb file_suffix ".txt" || String.eqb file_suffix ".md"
  then Some (parse_text_file file_path s)
  else None.

(** The body of [for file_path in docs_path.rglob('*')].  [split_text] is
    called outside any handler: an exception of it ends the script. *)
Definition process_file (w : World) (s : state) (file_path : File) : run :=
  let file_suffix := lower (suffix (name file_path)) in
  if negb (is_file file_path && existsb (String.eqb file_suffix) supported_suffixes)
  then Running s else
  let file_name := name file_path in
  let s := logging INFO ("Processing file: " +:+ file_name) s in
  let s := incr_file_count s in
  match parse w file_path s with
  | None => Running (logging WARNING ("Skipping unsupported file type: " +:+ file_name) s)
  | Some (text, s) =>
      if blank text then
        Running (logging WARNING ("No text extracted from " +:+ file_name +:+ ". Skipping.") s)
      else
        let s := calling (SplitText text) s in
        match split_text w text with
        | Raise e => Uncaught s e
        | Ok [] =>
            Running (logging WARNING ("No chunks generated for " +:+ file_name
                                      +:+ ". Skipping.") s)
        | Ok chunks =>
            let s := logging INFO ("  Split into " +:+ str_nat (length chunks)
                                   +:+ " chunks.") s in
            let s := add_total_chunks (length chunks) s in
            let s := embed_chunks w file_name (enumerate chunks) s in
            Running (if 1000 <=? length (all_actions s) then index_batch w s else s)
        end
  end.

(** Step 4: the loop over the folder. *)
Fixpoint process_files (w : World) (files : list File) (s : state) : run :=
  match files with
  | [] => Running s
  | file_path :: rest =>
      match process_file w s file_path with
      | Running s' => process_files w rest s'
      | Uncaught s' e => Uncaught s' e
      end
  end.

(** The script: the final state and the exit status. *)
Definition main (w : World) : state * nat :=
  let s := logging INFO "--- Starting Pre-loading Script ---" initial in
  if negb (env_truthy (ELASTIC_CLOUD_ID w)) || negb (env_truthy (ELASTIC_API_KEY w)) then
    (logging ERROR "Elastic Cloud ID or API Key not found in .env file. Exiting." s, 1)
  else if negb (docs_is_dir w) then
    (logging ERROR ("Documents folder '" +:+ DOCS_FOLDER +:+ "' not found. Exiting.") s, 1)
  else
    let s := logging INFO "Connecting to Elastic Cloud..." s in
    let connect_failed e :=
      logging ERROR ("Failed to connect to Elastic Cloud: " +:+ str_exn e) in
    match Elasticsearch w with
    | Raise e => (connect_failed e s, 1)
    | Ok _ =>
        let s := calling EsPing s in
        match ping w with
        | Raise e => (connect_failed e s, 1)
        | Ok false => (connect_failed (Exception "Ping failed.") s, 1)
        | Ok true =>
            let s := logging INFO "Connected to Elastic Cloud successfully." s in
            let s := logging INFO ("Loading embedding model: " +:+ EMBEDDING_MODEL_NAME
                                   +:+ "...") s in
            let s := calling (LoadModel EMBEDDING_MODEL_NAME) s in
            match SentenceTransformer w with
            | Raise e =>
                (logging ERROR ("Failed to load embedding model: " +:+ str_exn e) s, 1)
            | Ok _ =>
                let s := logging INFO "Embedding model loaded." s in
                let s := logging INFO ("Scanning documents in '" +:+ DOCS_FOLDER
                                       +:+ "'...") s in
                match process_files w (rglob w) s with
                | Uncaught s _ => (s, 1)
                | Running s =>
                    let s := index_final_batch w s in
                    let s := logging INFO "--- Pre-loading Script Finished ---" s in
                    let s := logging INFO ("Processed " +:+ str_nat (file_count s)
                                           +:+ " files.") s in
                    let s := logging INFO ("Generated and attempted to index "
                                           +:+ str_nat (total_chunks s) +:+ " chunks.") s in
                    (logging INFO ("Total time: " +:+ total_time w +:+ " seconds.") s, 0)
                end
            end
        end
    end.

End DeleteIndex.

(** ** The document store

    The Elasticsearch cluster the scripts write to and the API reads from
    is a service outside the repository.  This is its contract as far as
    the code relies on it: an index maps document ids to sources, indexing
    under an id overwrites, indexing without one stores the source under a
    new id, [get] of a missing id raises, and [search] answers at most
    [size] hits. *)

Module Store.

Record Cluster := {
  reachable : bool;
  indices : gmap string (gmap string dict);
}.

(** The [_source] of a bulk action. *)
Definition source_of (action : dict) : dict :=
  match get "_source" action with
  | Some (VDict d) => d
  | _ => []
  end.

(** The operation of a bulk action: [action.pop("_op_type", "index")]. *)
Definition op_type (action : dict) : string :=
  match get "_op_type" action with
  | Some (VStr op) => op
  | _ => "index"
  end.

(** The index a bulk action names. *)
Definition target (action : dict) : option string :=
  match get "_index" action with
  | Some (VStr i) => Some i
  | _ => None
  end.

(** The id a bulk action names: [None] when it has no ["_id"] key. *)
Definition id_of (action : dict) : option string :=
  match get "_id" action with
  | Some (VStr i) => Some i
  | _ => None
  end.

(** One accepted index action on the documents of its index. *)
Definition index_doc (docs : gmap string dict) (action : dict) : gmap string dict :=
  match id_of action with
  | Some i => <[i := source_of action]> docs
  | None => <[fresh (dom docs) := source_of action]> docs
  end.

(** A bulk request whose actions are all accepted. *)
Definition bulk_index (docs : gmap string dict) (actions : list dict) : gmap string dict :=
  foldl index_doc docs actions.

(** [es.get(index=index, id=id)]. *)
Definition es_get (c : Cluster) (index id : string) : result dict :=
  if negb (reachable c) then Raise (Exception "Connection error") else
  match indices c !! index with
  | None => Raise (NotFoundError ("no such index [" +:+ index +:+ "]"))
  | Some docs =>
      match docs !! id with
      | None => Raise (NotFoundError ("document [" +:+ id +:+ "] not found"))
      | Some src =>
          Ok [("_index", VStr index); ("_id", VStr id); ("found", VBool true);
              ("_source", VDict src)]
      end
  end.

(** Source filtering: the fields of ["_source": [...]] that the document has. *)
Definition filter_source (fields : list string) (src : list (string * value)) : dict :=
  filter (fun kv : string * value => kv.1 ∈ fields) src.

Definition field_names (v : value) : list string :=
  match v with
  | VList l => omap (fun x => match x with VStr s => Some s | _ => None end) l
  | _ => []
  end.

Definition hit (index : string) (fields : option (list string)) (d : string * dict) : value :=
  VDict [("_index", VStr index); ("_id", VStr d.1);
         ("_source", VDict (match fields with
                            | Some fs => filter_source fs d.2
                            | None => d.2
                            end))].

(** [es.search(index=index, body=body)] for a [match_all] query: the first
    [size] documents (10 when the body gives no size). *)
Definition es_search (c : Cluster) (index : string) (body : dict) : result dict :=
  if negb (reachable c) then Raise (Exception "Connection error") else
  match indices c !! index with
  | None => Raise (NotFoundError ("no such index [" +:+ index +:+ "]"))
  | Some docs =>
      let n := match get "size" body with Some (VInt n) => n | _ => 10 end in
      let fields := field_names <$> get "_source" body in
      Ok [("hits", VDict [("total", VInt (size docs));
                          ("hits", VList (hit index fields <$> take n (map_to_list docs)))])]
  end.

End Store.

(** ** api/main.py *)

Module Api.
Import Store.

(** Module level: [if not all([...]): raise RuntimeError(...)]; the index
    name when all three variables are set and not empty. *)
Definition startup (w : World) : result string :=
  if env_truthy (ELASTIC_CLOUD_ID w) && env_truthy (ELASTIC_API_KEY w)
     && env_truthy (ELASTIC_INDEX w)
  then Ok (getenv_default (ELASTIC_INDEX w) EmptyString)
  else Raise (Exception "Missing required environment variables for Elasticsearch").

(** What a route answers. *)
Inductive response :=
| JSONResponse (status_code : nat) (content : value)
| HTTPException (status_code : nat) (detail : string)
| FileResponse (path : string).

Definition status_of (r : response) : nat :=
  match r with
  | JSONResponse c _ => c
  | HTTPException c _ => c
  | FileResponse _ => 200
  end.

(** [try: ... except Exception as e: raise HTTPException(status_code=500,
    detail=str(e))] around a route's body. *)
Definition route (body : result value) : response :=
  match body with
  | Ok v => JSONResponse 200 v
  | Raise e => HTTPException 500 (str_exn e)
  end.

(** [GET /api/files/{file_id}]. *)
Definition get_file_content (es : Cluster) (ELASTIC_INDEX : string)
    (unquote : string -> string) (file_id : string) : response :=
  route (
    let decoded_file_id := unquote file_id in
    response ← es_get es ELASTIC_INDEX decoded_file_id;
    source ← getitem "_source" response ≫= as_dict;
    mret (VDict [("content", get_default "content" (VStr "Content not found") source)])).

Definition search_body : dict :=
  [("size", VInt 1000);
   ("query", VDict [("match_all", VDict [])]);
   ("_source", VList [VStr "file_name"; VStr "path"])].

(** One element of the list comprehension over [response["hits"]["hits"]]. *)
Definition file_entry (hit : value) : result value :=
  h ← as_dict hit;
  id ← getitem "_id" h;
  source ← getitem "_source" h ≫= as_dict;
  mret (VDict [("id", id);
               ("file_name", get_default "file_name" (VStr EmptyString) source);
               ("path", get_default "path" (VStr EmptyString) source)]).

(** [GET /api/files]. *)
Definition get_all_files (es : Cluster) (ELASTIC_INDEX : string) : response :=
  route (
    response ← es_search es ELASTIC_INDEX search_body;
    outer ← getitem "hits" response ≫= as_dict;
    hits ← getitem "hits" outer ≫= as_list;
    results ← mapM file_entry hits;
    mret (VList results)).

(** [GET /{full_path:path}]. *)
Definition catch_all (full_path : string) : response :=
  FileResponse "../static/index.html".

End Api.

(** ** The text chunker *)

Module Splitter.

(** Modelled from the spec: the Text Chunker, which both scripts take from
    the library class [RecursiveCharacterTextSplitter]; its code is not in
    the repository.  Following section 4.2: given the text, a list of
    separators in priority order, a maximum chunk size and an overlap
    smaller than it, the chunks are windows of the text; a window that does
    not reach the end of the text is broken at the earliest-priority
    separator found within it (paragraph break, line break, space; the
    empty separator is the hard character cut), else cut hard at the
    maximum size; the next chunk starts the overlap length before the end
    of the chunk, measured on the final chunk boundaries. *)
Definition ends_at (sep w : list ascii) (cut : nat) : bool :=
  (length sep <=? cut)
  && bool_decide (take (length sep) (drop (cut - length sep) w) = sep).

(** Modelled from the spec: the search for a separator within the window;
    the last offset in [(lo, lo + n]] at which an occurrence of [sep] ends. *)
Fixpoint last_break (sep w : list ascii) (lo n : nat) : option nat :=
  match n with
  | 0 => None
  | S n' =>
      if ends_at sep w (lo + S n') then Some (lo + S n') else last_break sep w lo n'
  end.

(** Modelled from the spec: where a full window is broken; after the last
    occurrence, beyond the overlap, of the first separator that has one; at
    its end otherwise. *)
Fixpoint break_point (seps : list string) (w : list ascii) (o m : nat) : nat :=
  match seps with
  | [] => m
  | sep :: rest =>
      match last_break (list_ascii_of_string sep) w o (m - o) with
      | Some cut => cut
      | None => break_point rest w o m
      end
  end.

Lemma last_break_bounds sep w lo n cut :
  last_break sep w lo n = Some cut -> lo < cut <= lo + n.
Proof.
  induction n as [|n IH]; simpl; [discriminate|].
  destruct (ends_at sep w (lo + S n)).
  - intros [= <-]. lia.
  - intros H. apply IH in H. lia.
Qed.

Lemma break_point_bounds seps w o m : o < m -> o < break_point seps w o m <= m.
Proof.
  intros Hom. induction seps as [|sep rest IH]; simpl; [lia|].
  destruct (last_break _ w o (m - o)) as [cut|] eqn:E; [|exact IH].
  apply last_break_bounds in E. lia.
Qed.

(** Modelled from the spec: the spans [(start, stop)] of the chunks of [t]
    from offset [start] on. *)
Equations? spans (seps : list string) (m o : nat) (Hom : o < m) (t : list ascii)
    (start : nat) : list (nat * nat) by wf (length t - start) lt :=
  spans seps m o Hom t start with decide (length t - start <= m) => {
    | left _ => if decide (start < length t) then [(start, length t)] else [];
    | right _ =>
        let cut := break_point seps (take m (drop start t)) o m in
        (start, start + cut) :: spans seps m o Hom t (start + cut - o) }.
Proof.
  pose proof (break_point_bounds seps (take m (drop start t)) o m Hom). lia.
Qed.

(** Modelled from the spec: the spans of the chunks of a text; [None] when
    the overlap is not smaller than the maximum size. *)
Definition split_spans (seps : list string) (m o : nat) (t : list ascii)
  : option (list (nat * nat)) :=
  match decide (o < m) with
  | left Hom => Some (spans seps m o Hom t 0)
  | right _ => None
  end.

(** Modelled from the spec: a chunk is a contiguous substring of the text;
    the one of [t] from [start] up to [stop]. *)
Definition slice (t : list ascii) (span : nat * nat) : list ascii :=
  take (span.2 - span.1) (drop span.1 t).

(** Modelled from the spec: the Text Chunker's contract; the chunks of a
    text, in order. *)
Definition split_text (seps : list string) (m o : nat) (text : string)
  : option (list string) :=
  let t := list_ascii_of_string text in
  match split_spans seps m o t with
  | Some sp => Some (map (fun span => string_of_list_ascii (slice t span)) sp)
  | None => None
  end.

End Splitter.

(** ** Derived notions *)

(** Every action produced so far by a run whose bulk calls clear the
    buffer: those of the bulk requests made, then those still buffered. *)
Definition produced (s : state) : list dict :=
  concat (bulk_requests (trace s)) ++ all_actions s.

(** A call that removes documents or an index from the store. *)
Definition is_delete (c : call) : bool :=
  match c with
  | EsDelete _ _ | EsDeleteByQuery _ _ | EsIndicesDelete _ => true
  | _ => false
  end.

(** The vector a bulk action carries, when it carries one. *)
Definition chunk_vector (action : dict) : option (list float) :=
  match get "chunk_vector" (Store.source_of action) with
  | Some (VVec v) => Some v
  | _ => None
  end.

(** What one pass of the chunk loop of the old script adds for a chunk with
    its index: to the buffer, to the trace and to the log. *)
Definition old_action_of (w : World) (file_path : File) (fc ct : string)
    (ic : nat * string) : option dict :=
  if blank ic.2 then None
  else match encode w ic.2 with
       | Ok v => Some (IndexOld.chunk_action w file_path fc ct ic.1 ic.2 v)
       | Raise _ => None
       end.

Definition encode_call_of (ic : nat * string) : option call :=
  if blank ic.2 then None else Some (Encode ic.2).

Definition old_log_of (w : World) (file_path : File) (ic : nat * string)
  : option log_record :=
  if blank ic.2 then
    Some (WARNING, "  Skipping empty chunk " +:+ str_nat (ic.1 + 1) +:+ " for "
                   +:+ name file_path +:+ ".")
  else match encode w ic.2 with
       | Ok _ => None
       | Raise e =>
           Some (ERROR, "  Error embedding chunk " +:+ str_nat (ic.1 + 1) +:+ " of "
                        +:+ name file_path +:+ ": " +:+ str_exn e +:+ ". Skipping chunk.")
       end.

(** The same for the chunk loop of [delete_index.py]. *)
Definition doc_of (w : World) (file_name : string) (ic : nat * string) : option dict :=
  if blank ic.2 then None
  else match encode w ic.2 with
       | Ok v => Some (DeleteIndex.doc w file_name ic.2 v)
       | Raise _ => None
       end.

Definition doc_log_of (w : World) (file_name : string) (ic : nat * string)
  : option log_record :=
  if blank ic.2 then None
  else match encode w ic.2 with
       | Ok _ => None
       | Raise e =>
           Some (ERROR, "Error embedding chunk " +:+ str_nat (ic.1 + 1) +:+ " of "
                        +:+ file_name +:+ ": " +:+ str_exn e)
       end.

(** The actions the old script produces from the text of a file, and from
    a file. *)
Definition old_text_actions (w : World) (file_path : File) (fc ct text : string)
  : list dict :=
  if blank text then [IndexOld.metadata_action w file_path fc ct]
  else match split_text w text with
       | Ok chunks => omap (old_action_of w file_path fc ct) (enumerate chunks)
       | Raise _ => []
       end.

(** What the old script has prepared of a file when it comes to chunking:
    [full_content_for_es], [content_type] and [text_for_chunking]; [None]
    when the file is skipped before. *)
Definition old_prepared (w : World) (file_path : File)
  : option (string * string * string) :=
  if negb (is_file file_path) then None else
  match IndexOld.get_file_content_and_type file_path initial with
  | (Some c, Some ct, _) =>
      if negb (truthy (IndexOld.raw c)) || negb (truthy ct) then None
      else if String.eqb ct "pdf_base64" then
        Some (b64encode w (IndexOld.raw c), ct,
              (IndexOld.extract_text_from_pdf w (IndexOld.raw c) file_path initial).1)
      else if String.eqb ct "text" then Some (IndexOld.raw c, ct, IndexOld.raw c)
      else None
  | _ => None
  end.

Definition old_file_actions (w : World) (file_path : File) : list dict :=
  match old_prepared w file_path with
  | Some (fc, ct, text) => old_text_actions w file_path fc ct text
  | None => []
  end.

(** The text [delete_index.py] extracts from a file. *)
Definition doc_extracted (w : World) (file_path : File) : option string :=
  fst <$> DeleteIndex.parse w file_path initial.

(** The files [delete_index.py] takes up. *)
Definition doc_supported (f : File) : bool :=
  is_file f && existsb (String.eqb (lower (suffix (name f)))) DeleteIndex.supported_suffixes.

(** The text of the pages that can be read, each followed by a newline. *)
Definition readable_text (ps : list (result string)) : string :=
  concat_lines (omap (fun p => match p with
                               | Ok t => if truthy t then Some t else None
                               | Raise _ => None
                               end) ps).

(** What an action of a file is in the old script: the one of its metadata,
    or the one of a chunk the splitter gave at index [i] and the model
    embedded. *)
Definition old_action_of_file (w : World) (f : File) (a : dict) : Prop :=
  (exists fc ct, a = IndexOld.metadata_action w f fc ct)
  \/ (exists fc ct text chunks i chunk v,
        split_text w text = Ok chunks /\ chunks !! i = Some chunk
        /\ encode w chunk = Ok v /\ a = IndexOld.chunk_action w f fc ct i chunk v).

(** Two states that differ by their logs only. *)
Definition log_only (s s' : state) : Prop :=
  all_actions s' = all_actions s /\ trace s' = trace s
  /\ file_count s' = file_count s /\ total_chunks s' = total_chunks s.

(** Every call of a trace is other than a delete, and every action of
    every bulk request in it satisfies [P]. *)
Definition call_ok (P : dict -> Prop) (c : call) : Prop :=
  is_delete c = false /\
  match c with
  | EsBulk _ acts => Forall P acts
  | _ => True
  end.

(** The same of a state: of its trace, and of the actions in its buffer. *)
Definition state_ok (P : dict -> Prop) (s : state) : Prop :=
  Forall P (all_actions s) /\ Forall (call_ok P) (trace s).


(** An action that writes a document into the collection [rag_documents]. *)
Definition writes_rag_documents (a : dict) : Prop :=
  Store.op_type a = "index" /\ Store.target a = Some DeleteIndex.ES_INDEX_NAME.

(** What [GET /api/files] shows of a document: its id, and the file name
    and path of its source, empty when the source has none. *)
Definition listed (d : string * dict) : value :=
  VDict [("id", VStr d.1);
         ("file_name", get_default "file_name" (VStr EmptyString) d.2);
         ("path", get_default "path" (VStr EmptyString) d.2)].

(** A span of a text of at most [m] characters. *)
Definition span_ok (m : nat) (t : list ascii) (sp : nat * nat) : Prop :=
  sp.1 < sp.2 /\ sp.2 <= length t /\ sp.2 - sp.1 <= m.

(** Two spans in a row: the second starts inside the first, [o] characters
    before its end, and ends after it. *)
Definition adjacent (o : nat) (a b : nat * nat) : Prop :=
  a.1 < b.1 /\ b.1 + o = a.2 /\ a.2 < b.2.

(** The services both scripts need before the file loop: the two
    credentials, the folder, the client, a ping that answers [True] and the
    embedding model. *)
Definition services_up (w : World) : bool :=
  env_truthy (ELASTIC_CLOUD_ID w) && env_truthy (ELASTIC_API_KEY w) && docs_is_dir w
  && is_ok (Elasticsearch w)
  && match ping w with Ok true => true | _ => false end
  && is_ok (SentenceTransformer w).

(** The old script also needs its index: there already, or created. *)
Definition index_ready (w : World) : bool :=
  match indices_exists w with
  | Ok true => true
  | Ok false => is_ok (indices_create w)
  | Raise _ => false
  end.

(** A file on which the splitter of [delete_index.py] is not called, or
    returns. *)
Definition doc_splits (w : World) (f : File) : bool :=
  if doc_supported f then
    match doc_extracted w f with
    | Some text => blank text || is_ok (split_text w text)
    | None => true
    end
  else true.

(** A call of the file loop: a split, an embedding or a bulk request. *)
Definition is_ingest_call (c : call) : bool :=
  match c with
  | SplitText _ | Encode _ | EsBulk _ _ => true
  | _ => false
  end.

(** The actions [delete_index.py] produces from a file. *)
Definition doc_file_actions (w : World) (f : File) : list dict :=
  if doc_supported f then
    match doc_extracted w f with
    | Some text =>
        if blank text then []
        else match split_text w text with
             | Ok chunks => omap (doc_of w (name f)) (enumerate chunks)
             | Raise _ => []
             end
    | None => []
    end
  else [].

(** What the two scripts store of a chunk alike: the file name, the chunk
    text and the vector. *)
Definition chunk_payload (a : dict) : option value * option value * option (list float) :=
  (get "file_name" (Store.source_of a), get "chunk_text" (Store.source_of a),
   chunk_vector a).

(** A PDF that cannot be read: the reader raises, or the document is
    encrypted and cannot be decrypted with the empty password, or its
    pages cannot be listed. *)
Definition pdf_unreadable (w : World) (b : string) : bool :=
  match pdf_reader w b with
  | Raise _ => true
  | Ok reader =>
      negb (is_ok (if is_encrypted reader then decrypt reader else Ok ()))
      || negb (is_ok (pages reader))
  end.

(** A bulk request as the scripts make them: with a request timeout of
    120 seconds and at least one action. *)
Definition request_ok (c : call) : Prop :=
  match c with
  | EsBulk timeout acts => timeout = 120 /\ acts <> []
  | _ => True
  end.

(** A warning whose message starts with [p]. *)
Definition warns (p : string) (r : log_record) : bool :=
  match r.1 with
  | WARNING => String.prefix p r.2
  | _ => false
  end.

(** A run so far: every bulk request in its trace is as above, and no
    warning in its log starts with [p]. *)
Definition run_ok (p : string) (s : state) : Prop :=
  Forall request_ok (trace s) /\ Forall (fun r => warns p r = false) (log s).

(** The warnings of two branches: of the last [else] of the content types
    in the old script, and of the last [else] of the parsing block in
    [delete_index.py]. *)
Definition old_internal_error : string := "  Internal error: Unexpected content_type".
Definition doc_unsupported : string := "Skipping unsupported file type: ".

(** The fields the mapping of the old script declares. *)
Definition mapped_fields : list string :=
  match get "properties" IndexOld.index_mapping with
  | Some (VDict properties) => keys properties
  | _ => []
  end.

(** The trace of [s'] is the trace of [s] followed by calls of the file
    loop: splits, embeddings and bulk requests. *)
Definition ingests (s s' : state) : Prop :=
  exists calls, trace s' = trace s ++ calls
                /\ Forall (fun c => is_ingest_call c = true) calls.

(** The calls the old script makes before the file loop. *)
Definition old_startup_calls (w : World) : list call :=
  [EsPing; LoadModel IndexOld.EMBEDDING_MODEL_NAME;
   EsIndicesExists (IndexOld.ES_INDEX_NAME w)]
  ++ match indices_exists w with
     | Ok false => [EsIndicesCreate (IndexOld.ES_INDEX_NAME w) IndexOld.index_mapping]
     | _ => []
     end.

(** ** Sample folders and services *)

Module Sample.

Definition no_docx : result (list string) := Raise (Exception "Package not found").

(** A text file [guides/notes.txt]. *)
Definition notes : File :=
  {| name := "notes.txt"; parent := ["guides"]; is_file := true;
     st_mtime := 1700000000.5%float;
     open_rb := Ok "Chunking keeps context.";
     open_r := Ok "Chunking keeps context.";
     docx_paragraphs := no_docx |}.

(** A text file that holds one space. *)
Definition blank_notes : File :=
  {| name := "blank.txt"; parent := []; is_file := true;
     st_mtime := 1700000000.5%float;
     open_rb := Ok " "; open_r := Ok " "; docx_paragraphs := no_docx |}.

(** A PDF file of three pages, the second of which cannot be read. *)
Definition scan : File :=
  {| name := "scan.pdf"; parent := []; is_file := true;
     st_mtime := 1700000000.5%float;
     open_rb := Ok "%PDF-1.4"; open_r := Raise (Exception "codec can't decode");
     docx_paragraphs := no_docx |}.

Definition scan_pages : list (result string) :=
  [Ok "first page"; Raise (Exception "Unexpected escaped string"); Ok "third page"].

Definition scan_reader : PdfReader :=
  {| is_encrypted := false; decrypt := Ok (); pages := Ok scan_pages |}.

(** The [i]-th of a row of small text files. *)
Definition numbered (i : nat) : File :=
  {| name := "doc" +:+ str_nat i +:+ ".txt"; parent := []; is_file := true;
     st_mtime := 1700000000.5%float;
     open_rb := Ok "x"; open_r := Ok "x"; docx_paragraphs := no_docx |}.

(** A world with all services up: the folder [files], the clock reading
    [now], the embedding model answering [model], the store answering
    [store] to bulk requests; the splitter leaves a short text whole. *)
Definition world (files : list File) (now : string)
    (model : string -> result (list float))
    (store : nat -> list dict -> result (nat * list value)) : World :=
  {| ELASTIC_CLOUD_ID := Some "deployment:abc"; ELASTIC_API_KEY := Some "key";
     ELASTIC_INDEX := None; PRELOAD_USER_ID := None;
     docs_is_dir := true; rglob := files;
     Elasticsearch := Ok (); ping := Ok true; SentenceTransformer := Ok ();
     encode := model;
     split_text := fun t => Ok [t];
     pdf_reader := fun _ => Ok scan_reader;
     b64encode := fun b => "JVBERi0xLjQ=";
     str_float := fun _ => "1700000000.5";
     strftime_gmtime := now; total_time := "0.42";
     indices_exists := Ok true; indices_create := Ok ();
     bulk := store |}.

(** The same world with another splitter. *)
Definition with_splitter (w : World) (splitter : string -> result (list string)) : World :=
  {| ELASTIC_CLOUD_ID := ELASTIC_CLOUD_ID w; ELASTIC_API_KEY := ELASTIC_API_KEY w;
     ELASTIC_INDEX := ELASTIC_INDEX w; PRELOAD_USER_ID := PRELOAD_USER_ID w;
     docs_is_dir := docs_is_dir w; rglob := rglob w;
     Elasticsearch := Elasticsearch w; ping := ping w;
     SentenceTransformer := SentenceTransformer w; encode := encode w;
     split_text := splitter;
     pdf_reader := pdf_reader w; b64encode := b64encode w; str_float := str_float w;
     strftime_gmtime := strftime_gmtime w; total_time := total_time w;
     indices_exists := indices_exists w; indices_create := indices_create w;
     bulk := bulk w |}.

(** The chunker of module [Splitter] with the configuration of the old
    script. *)
Definition old_splitter (text : string) : result (list string) :=
  match Splitter.split_text IndexOld.separators IndexOld.CHUNK_SIZE
          IndexOld.CHUNK_OVERLAP text with
  | Some chunks => Ok chunks
  | None => Raise (Exception "ValueError")
  end.

(** A text file of 2500 characters. *)
Definition long_notes : File :=
  {| name := "long.txt"; parent := []; is_file := true; st_mtime := 1700000000.5%float;
     open_rb := Ok (string_of_list_ascii (replicate 2500 "a"%char));
     open_r := Ok (string_of_list_ascii (replicate 2500 "a"%char));
     docx_paragraphs := no_docx |}.

(** A model of the configured dimension, one of dimension one, and one
    that raises on a given chunk. *)
Definition model_384 (chunk : string) : result (list float) := Ok (replicate 384 0%float).
Definition model_1 (chunk : string) : result (list float) := Ok [0.5%float].
Definition model_but (bad : string) (chunk : string) : result (list float) :=
  if String.eqb chunk bad then Raise (Exception "CUDA out of memory") else Ok [0.5%float].

(** A store that accepts every request, and one whose first answer is a
    transport error. *)
Definition accepting (n : nat) (actions : list dict) : result (nat * list value) :=
  Ok (length actions, []).
Definition flaky (n : nat) (actions : list dict) : result (nat * list value) :=
  if n =? 0 then Raise (Exception "Connection timed out") else Ok (length actions, []).

(** Two documents, and a cluster whose one index holds them. *)
Definition documents : gmap string dict :=
  {[ "chunk-guides/notes.txt-1700000000.5-0" :=
       [("file_name", VStr "notes.txt"); ("path", VStr "guides");
        ("content", VStr "Chunking keeps context.")];
     "auto-1" := [("file_name", VStr "scan.pdf"); ("chunk_text", VStr "first page")] ]}.

Definition cluster : Store.Cluster :=
  {| Store.reachable := true; Store.indices := {[ "rag_documents" := documents ]} |}.

(** A reader of an encrypted document that the empty password does not
    open. *)
Definition locked_reader : PdfReader :=
  {| is_encrypted := true; decrypt := Raise (Exception "File has not been decrypted");
     pages := Ok [] |}.

(** The same world with another PDF reader. *)
Definition with_pdf_reader (w : World) (reader : string -> result PdfReader) : World :=
  {| ELASTIC_CLOUD_ID := ELASTIC_CLOUD_ID w; ELASTIC_API_KEY := ELASTIC_API_KEY w;
     ELASTIC_INDEX := ELASTIC_INDEX w; PRELOAD_USER_ID := PRELOAD_USER_ID w;
     docs_is_dir := docs_is_dir w; rglob := rglob w;
     Elasticsearch := Elasticsearch w; ping := ping w;
     SentenceTransformer := SentenceTransformer w; encode := encode w;
     split_text := split_text w;
     pdf_reader := reader; b64encode := b64encode w; str_float := str_float w;
     strftime_gmtime := strftime_gmtime w; total_time := total_time w;
     indices_exists := indices_exists w; indices_create := indices_create w;
     bulk := bulk w |}.

End Sample.

(** * Properties *)

(** ** The state of a run *)

Section State.
Context (l : level) (msg : string) (c : call) (a : dict) (acts : list dict) (n : nat).
Context (s : state).

Lemma all_actions_logging : all_actions (logging l msg s) = all_actions s.
Proof. reflexivity. Qed.
Lemma all_actions_calling : all_actions (calling c s) = all_actions s.
Proof. reflexivity. Qed.
Lemma trace_logging : trace (logging l msg s) = trace s.
Proof. reflexivity. Qed.
Lemma log_calling : log (calling c s) = log s.
Proof. reflexivity. Qed.
Lemma trace_calling : trace (calling c s) = trace s ++ [c].
Proof. reflexivity. Qed.
Lemma log_logging : log (logging l msg s) = log s ++ [(l, msg)].
Proof. reflexivity. Qed.
Lemma all_actions_append : all_actions (append_action a s) = all_actions s ++ [a].
Proof. reflexivity. Qed.
Lemma trace_append : trace (append_action a s) = trace s.
Proof. reflexivity. Qed.
Lemma log_append : log (append_action a s) = log s.
Proof. reflexivity. Qed.
Lemma all_actions_set : all_actions (set_all_actions acts s) = acts.
Proof. reflexivity. Qed.
Lemma trace_set : trace (set_all_actions acts s) = trace s.
Proof. reflexivity. Qed.
Lemma log_set : log (set_all_actions acts s) = log s.
Proof. reflexivity. Qed.
Lemma all_actions_total : all_actions (add_total_chunks n s) = all_actions s.
Proof. reflexivity. Qed.
Lemma trace_total : trace (add_total_chunks n s) = trace s.
Proof. reflexivity. Qed.
Lemma log_total : log (add_total_chunks n s) = log s.
Proof. reflexivity. Qed.
Lemma all_actions_incr : all_actions (incr_file_count s) = all_actions s.
Proof. reflexivity. Qed.
Lemma trace_incr : trace (incr_file_count s) = trace s.
Proof. reflexivity. Qed.
Lemma log_incr : log (incr_file_count s) = log s.
Proof. reflexivity. Qed.

End State.

Create Rewrite HintDb state.
#[local] Hint Rewrite all_actions_logging all_actions_calling trace_logging log_calling
  trace_calling log_logging all_actions_append trace_append log_append all_actions_set
  trace_set log_set all_actions_total trace_total log_total all_actions_incr trace_incr
  log_incr : state.

Lemma bulk_requests_app tr1 tr2 :
  bulk_requests (tr1 ++ tr2) = bulk_requests tr1 ++ bulk_requests tr2.
Proof. apply omap_app. Qed.

Lemma bulk_requests_snoc tr c :
  bulk_requests (tr ++ [c])
  = bulk_requests tr ++ match c with EsBulk _ acts => [acts] | _ => [] end.
Proof. rewrite bulk_requests_app. destruct c; reflexivity. Qed.

Lemma produced_logging l msg s : produced (logging l msg s) = produced s.
Proof. reflexivity. Qed.

Lemma produced_calling c s : is_bulk c = false -> produced (calling c s) = produced s.
Proof.
  intros Hc. unfold produced. rewrite trace_calling, bulk_requests_snoc.
  destruct c; try discriminate; rewrite app_nil_r; reflexivity.
Qed.

Lemma produced_append a s : produced (append_action a s) = produced s ++ [a].
Proof. unfold produced. simpl. apply app_assoc. Qed.

Lemma produced_total n s : produced (add_total_chunks n s) = produced s.
Proof. reflexivity. Qed.

Lemma produced_incr s : produced (incr_file_count s) = produced s.
Proof. reflexivity. Qed.

(** A bulk call followed by the clearing of the buffer produces nothing new. *)
Lemma produced_flush t s s' :
  trace s' = trace s ++ [EsBulk t (all_actions s)] -> all_actions s' = [] ->
  produced s' = produced s.
Proof.
  intros Ht Ha. unfold produced. rewrite Ht, Ha, bulk_requests_snoc, concat_app. simpl.
  rewrite !app_nil_r. reflexivity.
Qed.

(** ** The chunk loops *)

Lemma enumerate_from_app {A} (i : nat) (l1 l2 : list A) :
  enumerate_from i (l1 ++ l2) = enumerate_from i l1 ++ enumerate_from (i + length l1) l2.
Proof.
  revert i; induction l1 as [|x l1 IH]; intros i; simpl.
  - rewrite Nat.add_0_r. reflexivity.
  - rewrite IH. do 3 f_equal. lia.
Qed.

Lemma enumerate_from_lookup {A} (i j : nat) (l : list A) (x : A) :
  l !! j = Some x -> (i + j, x) ∈ enumerate_from i l.
Proof.
  revert i j; induction l as [|y l IH]; intros i [|j]; simpl; try discriminate.
  - intros [= ->]. rewrite Nat.add_0_r. left.
  - intros H. right. replace (i + S j) with (S i + j) by lia. apply IH, H.
Qed.

Lemma enumerate_from_elem {A} (i j : nat) (l : list A) (x : A) :
  (j, x) ∈ enumerate_from i l -> i <= j /\ l !! (j - i) = Some x.
Proof.
  revert i; induction l as [|y l IH]; intros i; simpl.
  - intros H. inversion H.
  - intros H. apply elem_of_cons in H as [[= -> ->]|H].
    + rewrite Nat.sub_diag. split; [lia|reflexivity].
    + apply IH in H as [Hle Hl]. split; [lia|].
      replace (j - i) with (S (j - S i)) by lia. exact Hl.
Qed.

Lemma omap_cons_app {A B} (f : A -> option B) (x : A) (l : list A) :
  omap f (x :: l) = option_list (f x) ++ omap f l.
Proof. simpl. destruct (f x); reflexivity. Qed.

Lemma bulk_requests_encode_calls ics : bulk_requests (omap encode_call_of ics) = [].
Proof.
  induction ics as [|[i chunk] ics IH]; [reflexivity|].
  rewrite omap_cons_app, bulk_requests_app, IH. unfold encode_call_of. simpl.
  destruct (blank chunk); reflexivity.
Qed.

Lemma old_action_of_pair w f fc ct i chunk :
  old_action_of w f fc ct (i, chunk)
  = if blank chunk then None
    else match encode w chunk with
         | Ok v => Some (IndexOld.chunk_action w f fc ct i chunk v)
         | Raise _ => None
         end.
Proof. reflexivity. Qed.

Lemma encode_call_of_pair i chunk :
  encode_call_of (i, chunk) = if blank chunk then None else Some (Encode chunk).
Proof. reflexivity. Qed.

Lemma old_log_of_pair w f i chunk :
  old_log_of w f (i, chunk)
  = if blank chunk then
      Some (WARNING, "  Skipping empty chunk " +:+ str_nat (i + 1) +:+ " for "
                     +:+ name f +:+ ".")
    else match encode w chunk with
         | Ok _ => None
         | Raise e =>
             Some (ERROR, "  Error embedding chunk " +:+ str_nat (i + 1) +:+ " of "
                          +:+ name f +:+ ": " +:+ str_exn e +:+ ". Skipping chunk.")
         end.
Proof. reflexivity. Qed.

Lemma doc_of_pair w file_name i chunk :
  doc_of w file_name (i, chunk)
  = if blank chunk then None
    else match encode w chunk with
         | Ok v => Some (DeleteIndex.doc w file_name chunk v)
         | Raise _ => None
         end.
Proof. reflexivity. Qed.

Lemma doc_log_of_pair w file_name i chunk :
  doc_log_of w file_name (i, chunk)
  = if blank chunk then None
    else match encode w chunk with
         | Ok _ => None
         | Raise e =>
             Some (ERROR, "Error embedding chunk " +:+ str_nat (i + 1) +:+ " of "
                          +:+ file_name +:+ ": " +:+ str_exn e)
         end.
Proof. reflexivity. Qed.

(** One pass of a chunk loop: unfold it, and split the lists by the chunk. *)
Ltac chunk_step IH :=
  rewrite omap_cons_app;
  cbn [IndexOld.embed_chunks DeleteIndex.embed_chunks];
  rewrite ?old_action_of_pair, ?encode_call_of_pair, ?old_log_of_pair, ?doc_of_pair,
    ?doc_log_of_pair;
  repeat match goal with
         | |- context [blank ?c] => destruct (blank c)
         | |- context [encode ?w ?c] => destruct (encode w c)
         end;
  rewrite IH; autorewrite with state; cbn [option_list];
  rewrite <- ?app_assoc; try reflexivity.

Section OldChunkLoop.
Context (w : World) (file_path : File) (fc ct : string).

Lemma old_embed_all_actions ics n s :
  all_actions (IndexOld.embed_chunks w file_path fc ct ics n s).2
  = all_actions s ++ omap (old_action_of w file_path fc ct) ics.
Proof.
  revert n s; induction ics as [|[i chunk] ics IH]; intros n s.
  - simpl. rewrite app_nil_r. reflexivity.
  - chunk_step IH.
Qed.

Lemma old_embed_count ics n s :
  (IndexOld.embed_chunks w file_path fc ct ics n s).1
  = n + length (omap (old_action_of w file_path fc ct) ics).
Proof.
  revert n s; induction ics as [|[i chunk] ics IH]; intros n s.
  - simpl. lia.
  - chunk_step IH. rewrite length_app. simpl. lia.
Qed.

Lemma old_embed_trace ics n s :
  trace (IndexOld.embed_chunks w file_path fc ct ics n s).2
  = trace s ++ omap encode_call_of ics.
Proof.
  revert n s; induction ics as [|[i chunk] ics IH]; intros n s.
  - simpl. rewrite app_nil_r. reflexivity.
  - chunk_step IH.
Qed.

Lemma old_embed_log ics n s :
  log (IndexOld.embed_chunks w file_path fc ct ics n s).2
  = log s ++ omap (old_log_of w file_path) ics.
Proof.
  revert n s; induction ics as [|[i chunk] ics IH]; intros n s.
  - simpl. rewrite app_nil_r. reflexivity.
  - chunk_step IH.
Qed.

Lemma old_embed_produced ics n s :
  produced (IndexOld.embed_chunks w file_path fc ct ics n s).2
  = produced s ++ omap (old_action_of w file_path fc ct) ics.
Proof.
  unfold produced.
  rewrite old_embed_all_actions, old_embed_trace, bulk_requests_app,
    bulk_requests_encode_calls, app_nil_r, app_assoc.
  reflexivity.
Qed.

End OldChunkLoop.

Section DocChunkLoop.
Context (w : World) (file_name : string).

Lemma doc_embed_all_actions ics s :
  all_actions (DeleteIndex.embed_chunks w file_name ics s)
  = all_actions s ++ omap (doc_of w file_name) ics.
Proof.
  revert s; induction ics as [|[i chunk] ics IH]; intros s.
  - simpl. rewrite app_nil_r. reflexivity.
  - chunk_step IH.
Qed.

Lemma doc_embed_trace ics s :
  trace (DeleteIndex.embed_chunks w file_name ics s) = trace s ++ omap encode_call_of ics.
Proof.
  revert s; induction ics as [|[i chunk] ics IH]; intros s.
  - simpl. rewrite app_nil_r. reflexivity.
  - chunk_step IH.
Qed.

Lemma doc_embed_log ics s :
  log (DeleteIndex.embed_chunks w file_name ics s) = log s ++ omap (doc_log_of w file_name) ics.
Proof.
  revert s; induction ics as [|[i chunk] ics IH]; intros s.
  - simpl. rewrite app_nil_r. reflexivity.
  - chunk_step IH.
Qed.

End DocChunkLoop.

(** ** Reading a file logs, and does nothing else to the state *)

Lemma log_only_refl s : log_only s s.
Proof. repeat split. Qed.

Lemma log_only_logging l msg s : log_only s (logging l msg s).
Proof. repeat split. Qed.

Lemma log_only_produced s s' : log_only s s' -> produced s' = produced s.
Proof. intros (Ha & Ht & _). unfold produced. rewrite Ha, Ht. reflexivity. Qed.

#[local] Hint Resolve log_only_refl log_only_logging : core.

Lemma old_read_error_log_only f e s : log_only s (IndexOld.read_error f e s).
Proof. destruct e; apply log_only_logging. Qed.

Lemma old_get_file_log_only f s :
  log_only s (IndexOld.get_file_content_and_type f s).2.
Proof.
  unfold IndexOld.get_file_content_and_type.
  repeat match goal with
         | |- context [if ?b then _ else _] => destruct b
         | |- context [match ?r with Ok _ => _ | Raise _ => _ end] => destruct r
         end; simpl; auto using old_read_error_log_only.
Qed.

Lemma old_get_file_fst f s1 s2 :
  (IndexOld.get_file_content_and_type f s1).1 = (IndexOld.get_file_content_and_type f s2).1.
Proof.
  unfold IndexOld.get_file_content_and_type.
  repeat match goal with
         | |- context [if ?b then _ else _] => destruct b
         | |- context [match ?r with Ok _ => _ | Raise _ => _ end] => destruct r
         end; reflexivity.
Qed.

Lemma old_extract_log_only w b f s : log_only s (IndexOld.extract_text_from_pdf w b f s).2.
Proof.
  unfold IndexOld.extract_text_from_pdf.
  destruct (pdf_reader w b) as [reader|]; [|simpl; auto].
  destruct (if is_encrypted reader then decrypt reader else Ok ()); [|simpl; auto].
  destruct (pages reader) as [ps|]; [|simpl; auto].
  destruct (read_pages ps EmptyString) as [text [e|]]; simpl; auto.
Qed.

Lemma old_extract_fst w b f s1 s2 :
  (IndexOld.extract_text_from_pdf w b f s1).1 = (IndexOld.extract_text_from_pdf w b f s2).1.
Proof.
  unfold IndexOld.extract_text_from_pdf.
  destruct (pdf_reader w b) as [reader|]; [|reflexivity].
  destruct (if is_encrypted reader then decrypt reader else Ok ()); [|reflexivity].
  destruct (pages reader) as [ps|]; [|reflexivity].
  destruct (read_pages ps EmptyString) as [text [e|]]; reflexivity.
Qed.

(** ** What the old script produces *)

Lemma old_bulk_returned_log_only label success failed s :
  log_only s (IndexOld.bulk_returned label success failed s).
Proof. unfold IndexOld.bulk_returned. destruct failed; repeat split. Qed.

Lemma old_index_batch_all_actions w s : all_actions (IndexOld.index_batch w s) = [].
Proof.
  unfold IndexOld.index_batch.
  destruct (bulk w _ _) as [[success failed]|[]]; reflexivity.
Qed.

Lemma old_index_batch_trace w s :
  trace (IndexOld.index_batch w s) = trace s ++ [EsBulk 120 (all_actions s)].
Proof.
  unfold IndexOld.index_batch.
  destruct (bulk w _ _) as [[success failed]|[]]; try reflexivity.
  simpl. destruct failed; reflexivity.
Qed.

Lemma old_index_batch_produced w s : produced (IndexOld.index_batch w s) = produced s.
Proof.
  eapply produced_flush; [apply old_index_batch_trace|apply old_index_batch_all_actions].
Qed.

Lemma old_chunk_and_index_produced w f fc ct text s :
  produced (IndexOld.chunk_and_index w f fc ct text s)
  = produced s ++ old_text_actions w f fc ct text.
Proof.
  unfold IndexOld.chunk_and_index, old_text_actions.
  destruct (blank text); [rewrite produced_append; reflexivity|].
  destruct (split_text w text) as [[|chunk chunks]|e].
  - rewrite produced_logging, produced_calling by reflexivity. simpl.
    rewrite app_nil_r. reflexivity.
  - destruct (IndexOld.embed_chunks _ _ _ _ _ _ _) as [k s'] eqn:E.
    assert (produced s' = produced s
            ++ omap (old_action_of w f fc ct) (enumerate (chunk :: chunks))) as Hp.
    { change s' with (k, s').2. rewrite <- E, old_embed_produced, produced_logging.
      rewrite produced_calling by reflexivity. reflexivity. }
    destruct (500 <=? _); [rewrite old_index_batch_produced|]; rewrite produced_total; exact Hp.
  - rewrite produced_logging, produced_calling by reflexivity.
    rewrite app_nil_r. reflexivity.
Qed.

(** A file the old script brings to chunking: the loop body is the
    chunking part, from a state with the same buffer and the same trace. *)
Lemma old_process_file_prepared w s f fc ct text :
  old_prepared w f = Some (fc, ct, text) ->
  exists s1, all_actions s1 = all_actions s /\ trace s1 = trace s
             /\ IndexOld.process_file w s f = IndexOld.chunk_and_index w f fc ct text s1.
Proof.
  unfold old_prepared, IndexOld.process_file.
  destruct (negb (is_file f)); [discriminate|].
  set (s0 := incr_file_count _).
  pose proof (old_get_file_log_only f s0) as (Ha & Ht & _).
  pose proof (old_get_file_fst f s0 initial) as Hf.
  destruct (IndexOld.get_file_content_and_type f s0) as [[c0 ct0] s1].
  destruct (IndexOld.get_file_content_and_type f initial) as [[c' ct'] s1'].
  cbn [fst snd] in Ha, Ht, Hf. injection Hf as <- <-.
  destruct c0 as [c0|], ct0 as [ct0|]; try discriminate.
  destruct (negb (truthy (IndexOld.raw c0)) || negb (truthy ct0)); [discriminate|].
  destruct (String.eqb ct0 "pdf_base64").
  - pose proof (old_extract_log_only w (IndexOld.raw c0) f s1) as (Ha2 & Ht2 & _).
    pose proof (old_extract_fst w (IndexOld.raw c0) f s1 initial) as Hx.
    destruct (IndexOld.extract_text_from_pdf w (IndexOld.raw c0) f s1) as [text1 s2].
    cbn [fst snd] in Ha2, Ht2, Hx. intros [= <- <- <-]. subst text1.
    exists s2. rewrite Ha2, Ht2, Ha, Ht. auto.
  - destruct (String.eqb ct0 "text"); [|discriminate].
    intros [= <- <- <-]. exists s1. rewrite Ha, Ht. auto.
Qed.

(** A file it skips before: nothing but the log and the file counter change. *)
Lemma old_process_file_skipped w s f :
  old_prepared w f = None ->
  all_actions (IndexOld.process_file w s f) = all_actions s
  /\ trace (IndexOld.process_file w s f) = trace s.
Proof.
  unfold old_prepared, IndexOld.process_file.
  destruct (negb (is_file f)); [auto|].
  set (s0 := incr_file_count _).
  pose proof (old_get_file_log_only f s0) as (Ha & Ht & _).
  pose proof (old_get_file_fst f s0 initial) as Hf.
  destruct (IndexOld.get_file_content_and_type f s0) as [[c0 ct0] s1].
  destruct (IndexOld.get_file_content_and_type f initial) as [[c' ct'] s1'].
  cbn [fst snd] in Ha, Ht, Hf. injection Hf as <- <-.
  destruct c0 as [c0|], ct0 as [ct0|]; try (intros _; split; assumption).
  destruct (negb (truthy (IndexOld.raw c0)) || negb (truthy ct0));
    [intros _; split; assumption|].
  destruct (String.eqb ct0 "pdf_base64"); [discriminate|].
  destruct (String.eqb ct0 "text"); [discriminate|].
  intros _; split; assumption.
Qed.

Lemma old_process_file_produced w s f :
  produced (IndexOld.process_file w s f) = produced s ++ old_file_actions w f.
Proof.
  unfold old_file_actions.
  destruct (old_prepared w f) as [[[fc ct] text]|] eqn:E.
  - destruct (old_process_file_prepared w s f fc ct text E) as (s1 & Ha & Ht & ->).
    rewrite old_chunk_and_index_produced. unfold produced. rewrite Ha, Ht. reflexivity.
  - destruct (old_process_file_skipped w s f E) as [Ha Ht].
    unfold produced. rewrite Ha, Ht, app_nil_r. reflexivity.
Qed.

Lemma old_process_files_produced w files s :
  produced (IndexOld.process_files w files s)
  = produced s ++ concat (old_file_actions w <$> files).
Proof.
  unfold IndexOld.process_files.
  revert s; induction files as [|f files IH]; intros s; simpl.
  - rewrite app_nil_r. reflexivity.
  - rewrite IH, old_process_file_produced, <- app_assoc. reflexivity.
Qed.

(** ** Invariants of the actions and calls of a run *)

Section Invariant.
Context (P : dict -> Prop).

Lemma state_ok_initial : state_ok P initial.
Proof. split; constructor. Qed.

Lemma state_ok_log_only s s' : log_only s s' -> state_ok P s -> state_ok P s'.
Proof. intros (Ha & Ht & _) [H1 H2]. split; [rewrite Ha|rewrite Ht]; assumption. Qed.

Lemma state_ok_logging l msg s : state_ok P s -> state_ok P (logging l msg s).
Proof. apply state_ok_log_only, log_only_logging. Qed.

Lemma state_ok_incr s : state_ok P s -> state_ok P (incr_file_count s).
Proof. intros H; exact H. Qed.

Lemma state_ok_total n s : state_ok P s -> state_ok P (add_total_chunks n s).
Proof. intros H; exact H. Qed.

Lemma state_ok_calling c s :
  is_bulk c = false -> is_delete c = false -> state_ok P s -> state_ok P (calling c s).
Proof.
  intros Hb Hd [H1 H2]. split; [exact H1|]. rewrite trace_calling.
  apply Forall_app; split; [exact H2|]. constructor; [|constructor].
  split; [exact Hd|]. destruct c; try exact I; discriminate.
Qed.

Lemma state_ok_bulk t s : state_ok P s -> state_ok P (calling (EsBulk t (all_actions s)) s).
Proof.
  intros [H1 H2]. split; [exact H1|]. rewrite trace_calling.
  apply Forall_app; split; [exact H2|]. constructor; [|constructor].
  split; [reflexivity|exact H1].
Qed.

Lemma state_ok_append a s : P a -> state_ok P s -> state_ok P (append_action a s).
Proof.
  intros Ha [H1 H2]. split; [|exact H2]. rewrite all_actions_append.
  apply Forall_app; split; [exact H1|]. constructor; [exact Ha|constructor].
Qed.

Lemma state_ok_clear s : state_ok P s -> state_ok P (set_all_actions [] s).
Proof. intros [H1 H2]. split; [constructor|exact H2]. Qed.

End Invariant.

Create HintDb inv.
#[local] Hint Resolve state_ok_initial state_ok_logging state_ok_incr state_ok_total
  state_ok_bulk state_ok_append state_ok_clear : inv.

Section OldInvariant.
Context (P : dict -> Prop) (w : World).
Context (Hchunk : forall f fc ct i chunk v,
            encode w chunk = Ok v -> P (IndexOld.chunk_action w f fc ct i chunk v)).
Context (Hmeta : forall f fc ct, P (IndexOld.metadata_action w f fc ct)).

Lemma old_embed_ok f fc ct ics n s :
  state_ok P s -> state_ok P (IndexOld.embed_chunks w f fc ct ics n s).2.
Proof.
  revert n s; induction ics as [|[i chunk] ics IH]; intros n s Hs; [exact Hs|].
  cbn [IndexOld.embed_chunks]. destruct (blank chunk); [auto with inv|].
  destruct (encode w chunk) eqn:E; apply IH; auto using state_ok_calling with inv.
Qed.

Lemma old_index_batch_ok s : state_ok P s -> state_ok P (IndexOld.index_batch w s).
Proof.
  intros Hs. unfold IndexOld.index_batch. cbv zeta.
  set (s1 := logging _ _ s).
  assert (state_ok P (calling (EsBulk 120 (all_actions s1)) s1)) as H2
    by (subst s1; auto with inv).
  destruct (bulk w _ _) as [[success failed]|e].
  - apply state_ok_clear.
    eapply state_ok_log_only; [apply old_bulk_returned_log_only|exact H2].
  - destruct e; auto with inv.
Qed.

Lemma old_index_final_batch_ok s :
  state_ok P s -> state_ok P (IndexOld.index_final_batch w s).
Proof.
  intros Hs. unfold IndexOld.index_final_batch.
  destruct (all_actions s) eqn:E; [exact Hs|]. rewrite <- E. cbv zeta.
  set (s1 := logging _ _ s).
  assert (state_ok P (calling (EsBulk 120 (all_actions s1)) s1)) as H2
    by (subst s1; auto with inv).
  destruct (bulk w _ _) as [[success failed]|e].
  - eapply state_ok_log_only; [apply old_bulk_returned_log_only|exact H2].
  - destruct e; auto with inv.
Qed.

Lemma old_chunk_and_index_ok f fc ct text s :
  state_ok P s -> state_ok P (IndexOld.chunk_and_index w f fc ct text s).
Proof.
  intros Hs. unfold IndexOld.chunk_and_index.
  destruct (blank text); [auto with inv|].
  assert (state_ok P (calling (SplitText text) s)) as Hc
    by (apply state_ok_calling; auto).
  destruct (split_text w text) as [[|chunk chunks]|e]; auto with inv.
  pose proof (old_embed_ok f fc ct (enumerate (chunk :: chunks)) 0
                (logging INFO ("  Split into " +:+ str_nat (length (chunk :: chunks))
                               +:+ " chunks.") (calling (SplitText text) s))) as He.
  destruct (IndexOld.embed_chunks _ _ _ _ _ _ _) as [k s'].
  simpl in He. specialize (He (state_ok_logging _ _ _ _ Hc)).
  destruct (500 <=? _); [apply old_index_batch_ok|]; auto with inv.
Qed.

Lemma old_process_file_ok s f : state_ok P s -> state_ok P (IndexOld.process_file w s f).
Proof.
  intros Hs. unfold IndexOld.process_file.
  destruct (negb (is_file f)); [exact Hs|].
  set (s0 := incr_file_count _).
  assert (state_ok P s0) as Hs0 by (subst s0; auto with inv).
  pose proof (old_get_file_log_only f s0) as Hl.
  destruct (IndexOld.get_file_content_and_type f s0) as [[c ct] s1]. simpl in Hl.
  pose proof (state_ok_log_only P _ _ Hl Hs0) as Hs1.
  destruct c as [c|], ct as [ct|]; auto with inv.
  destruct (negb (truthy (IndexOld.raw c)) || negb (truthy ct)); auto with inv.
  destruct (String.eqb ct "pdf_base64").
  - pose proof (old_extract_log_only w (IndexOld.raw c) f s1) as He.
    destruct (IndexOld.extract_text_from_pdf w (IndexOld.raw c) f s1) as [text s2].
    simpl in He. apply old_chunk_and_index_ok. eapply state_ok_log_only; eauto.
  - destruct (String.eqb ct "text"); auto using old_chunk_and_index_ok with inv.
Qed.

Lemma old_process_files_ok files s :
  state_ok P s -> state_ok P (IndexOld.process_files w files s).
Proof.
  unfold IndexOld.process_files.
  revert s; induction files as [|f files IH]; intros s Hs; [exact Hs|].
  simpl. apply IH, old_process_file_ok, Hs.
Qed.

Lemma old_prepare_index_ok s :
  state_ok P s -> state_ok P (IndexOld.prepare_index w s).1.
Proof.
  intros Hs. unfold IndexOld.prepare_index.
  assert (state_ok P (calling (EsIndicesExists (IndexOld.ES_INDEX_NAME w)) s)) as Hc
    by (apply state_ok_calling; auto).
  destruct (indices_exists w) as [[|]|e]; simpl; auto with inv.
  assert (state_ok P (calling (EsIndicesCreate (IndexOld.ES_INDEX_NAME w)
                                 IndexOld.index_mapping)
                        (logging INFO ("Creating index '" +:+ IndexOld.ES_INDEX_NAME w
                                       +:+ "' with mapping...")
                           (calling (EsIndicesExists (IndexOld.ES_INDEX_NAME w)) s)))) as Hc'
    by (apply state_ok_calling; auto with inv).
  destruct (indices_create w); simpl; auto with inv.
Qed.

Lemma old_main_ok : state_ok P (IndexOld.main w).1.
Proof.
  unfold IndexOld.main.
  destruct (_ || _); [simpl; auto with inv|].
  destruct (negb (docs_is_dir w)); [simpl; auto with inv|].
  destruct (Elasticsearch w); [|simpl; auto with inv].
  set (s1 := calling EsPing _).
  assert (state_ok P s1) as H1 by (apply state_ok_calling; auto with inv).
  destruct (ping w) as [[|]|e]; [|simpl; auto with inv..].
  set (s2 := calling (LoadModel _) _).
  assert (state_ok P s2) as H2 by (apply state_ok_calling; auto with inv).
  destruct (SentenceTransformer w); [|simpl; auto with inv].
  pose proof (old_prepare_index_ok (logging INFO "Embedding model loaded." s2)
                (state_ok_logging _ _ _ _ H2)) as H3.
  destruct (IndexOld.prepare_index w _) as [s3 [|]]; simpl in *; [|exact H3].
  unfold IndexOld.ingest.
  auto 10 using old_index_final_batch_ok, old_process_files_ok with inv.
Qed.

End OldInvariant.

Lemma doc_parse_pdf_log_only w f s : log_only s (DeleteIndex.parse_pdf w f s).2.
Proof.
  unfold DeleteIndex.parse_pdf.
  destruct (open_rb f) as [b|]; [|simpl; auto].
  destruct (pdf_reader w b) as [reader|]; [|simpl; auto].
  destruct (if is_encrypted reader then decrypt reader else Ok ()); [|simpl; auto].
  destruct (pages reader) as [ps|]; [|simpl; auto].
  destruct (read_pages ps EmptyString) as [text [e|]]; simpl; auto.
Qed.

Lemma doc_parse_log_only w f s text s' :
  DeleteIndex.parse w f s = Some (text, s') -> log_only s s'.
Proof.
  unfold DeleteIndex.parse.
  destruct (String.eqb _ ".pdf").
  { intros [= Hp]. pose proof (doc_parse_pdf_log_only w f s) as H.
    destruct (DeleteIndex.parse_pdf w f s). injection Hp as -> ->. exact H. }
  destruct (String.eqb _ ".docx").
  { unfold DeleteIndex.parse_docx. destruct (docx_paragraphs f); intros [= <- <-]; auto. }
  destruct (_ || _); [|discriminate].
  unfold DeleteIndex.parse_text_file. destruct (open_r f); intros [= <- <-]; auto.
Qed.

Lemma doc_bulk_returned_log_only label success failed s :
  log_only s (DeleteIndex.bulk_returned label success failed s).
Proof. unfold DeleteIndex.bulk_returned. destruct failed; repeat split. Qed.

Section DocInvariant.
Context (P : dict -> Prop) (w : World).
Context (Hdoc : forall file_name chunk v,
            encode w chunk = Ok v -> P (DeleteIndex.doc w file_name chunk v)).

Lemma doc_embed_ok file_name ics s :
  state_ok P s -> state_ok P (DeleteIndex.embed_chunks w file_name ics s).
Proof.
  revert s; induction ics as [|[i chunk] ics IH]; intros s Hs; [exact Hs|].
  cbn [DeleteIndex.embed_chunks]. destruct (blank chunk); [auto|].
  destruct (encode w chunk) eqn:E; apply IH; auto using state_ok_calling with inv.
Qed.

Lemma doc_index_batch_ok s : state_ok P s -> state_ok P (DeleteIndex.index_batch w s).
Proof.
  intros Hs. unfold DeleteIndex.index_batch. cbv zeta.
  set (s1 := logging _ _ s).
  assert (state_ok P (calling (EsBulk 120 (all_actions s1)) s1)) as H2
    by (subst s1; auto with inv).
  destruct (bulk w _ _) as [[success failed]|e]; [|auto with inv].
  apply state_ok_clear.
  eapply state_ok_log_only; [apply doc_bulk_returned_log_only|exact H2].
Qed.

Lemma doc_index_final_batch_ok s :
  state_ok P s -> state_ok P (DeleteIndex.index_final_batch w s).
Proof.
  intros Hs. unfold DeleteIndex.index_final_batch.
  destruct (all_actions s) eqn:E; [exact Hs|]. rewrite <- E. cbv zeta.
  set (s1 := logging _ _ s).
  assert (state_ok P (calling (EsBulk 120 (all_actions s1)) s1)) as H2
    by (subst s1; auto with inv).
  destruct (bulk w _ _) as [[success failed]|e]; [|auto with inv].
  eapply state_ok_log_only; [apply doc_bulk_returned_log_only|exact H2].
Qed.

Lemma doc_process_file_ok s f :
  state_ok P s -> state_ok P (DeleteIndex.state_of (DeleteIndex.process_file w s f)).
Proof.
  intros Hs. unfold DeleteIndex.process_file. cbv zeta.
  destruct (negb _); [exact Hs|].
  set (s0 := incr_file_count _).
  assert (state_ok P s0) as Hs0 by (subst s0; auto with inv).
  destruct (DeleteIndex.parse w f s0) as [[text s1]|] eqn:Ep; [|simpl; auto with inv].
  apply doc_parse_log_only in Ep. pose proof (state_ok_log_only P _ _ Ep Hs0) as Hs1.
  destruct (blank text); [simpl; auto with inv|].
  assert (state_ok P (calling (SplitText text) s1)) as Hc
    by (apply state_ok_calling; auto).
  destruct (split_text w text) as [[|chunk chunks]|e];
    cbn [DeleteIndex.state_of]; auto with inv.
  set (s2 := DeleteIndex.embed_chunks _ _ _ _).
  assert (state_ok P s2) as Hs2 by (subst s2; apply doc_embed_ok; auto with inv).
  destruct (1000 <=? _); [apply doc_index_batch_ok|]; exact Hs2.
Qed.

Lemma doc_process_files_ok files s :
  state_ok P s -> state_ok P (DeleteIndex.state_of (DeleteIndex.process_files w files s)).
Proof.
  revert s; induction files as [|f files IH]; intros s Hs; [exact Hs|].
  simpl. pose proof (doc_process_file_ok s f Hs) as Hf.
  destruct (DeleteIndex.process_file w s f); simpl in Hf; [apply IH, Hf|exact Hf].
Qed.

Lemma doc_main_ok : state_ok P (DeleteIndex.main w).1.
Proof.
  unfold DeleteIndex.main.
  destruct (_ || _); [simpl; auto with inv|].
  destruct (negb (docs_is_dir w)); [simpl; auto with inv|].
  destruct (Elasticsearch w); [|simpl; auto with inv].
  set (s1 := calling EsPing _).
  assert (state_ok P s1) as H1 by (apply state_ok_calling; auto with inv).
  destruct (ping w) as [[|]|e]; [|simpl; auto with inv..].
  set (s2 := calling (LoadModel _) _).
  assert (state_ok P s2) as H2 by (apply state_ok_calling; auto with inv).
  destruct (SentenceTransformer w); [|simpl; auto with inv].
  set (s3 := logging INFO _ (logging INFO _ s2)).
  pose proof (doc_process_files_ok (rglob w) s3) as H3.
  destruct (DeleteIndex.process_files w (rglob w) s3) as [s4|s4 e]; simpl in *.
  - auto 10 using doc_index_final_batch_ok with inv.
  - subst s3. auto with inv.
Qed.

End DocInvariant.

(** ** Indexing with and without identifiers *)

Lemma index_doc_with_id docs a i :
  Store.id_of a = Some i -> dom (Store.index_doc docs a) = {[i]} ∪ dom docs.
Proof. intros H. unfold Store.index_doc. rewrite H. apply dom_insert_L. Qed.

Lemma index_doc_without_id docs a :
  Store.id_of a = None -> size (Store.index_doc docs a) = S (size docs).
Proof.
  intros H. unfold Store.index_doc. rewrite H.
  apply map_size_insert_None, not_elem_of_dom, is_fresh.
Qed.

(** Indexing actions that all carry an id leaves exactly their ids and the
    ids already there. *)
Lemma bulk_index_dom docs acts ids :
  Store.id_of <$> acts = Some <$> ids ->
  dom (Store.bulk_index docs acts) = list_to_set ids ∪ dom docs.
Proof.
  unfold Store.bulk_index.
  revert docs ids; induction acts as [|a acts IH]; intros docs [|i ids] H;
    try discriminate; simpl.
  - symmetry. apply (left_id_L ∅ (∪)).
  - injection H as Hi Hr. rewrite (IH _ _ Hr), (index_doc_with_id _ _ _ Hi).
    clear. set_solver.
Qed.

(** Indexing again under the same ids adds no document. *)
Lemma bulk_index_same_ids docs acts1 acts2 ids :
  Store.id_of <$> acts1 = Some <$> ids -> Store.id_of <$> acts2 = Some <$> ids ->
  size (Store.bulk_index (Store.bulk_index docs acts1) acts2)
  = size (Store.bulk_index docs acts1).
Proof.
  intros H1 H2. rewrite <- !size_dom.
  rewrite (bulk_index_dom _ _ _ H2), (bulk_index_dom _ _ _ H1).
  f_equal. clear. set_solver.
Qed.

(** Indexing actions without ids adds one document for each. *)
Lemma bulk_index_without_ids docs acts :
  Forall (fun a => Store.id_of a = None) acts ->
  size (Store.bulk_index docs acts) = size docs + length acts.
Proof.
  unfold Store.bulk_index.
  revert docs; induction acts as [|a acts IH]; intros docs H; simpl; [lia|].
  inversion H as [|? ? Ha Hr]; subst.
  rewrite (IH _ Hr), (index_doc_without_id _ _ Ha). lia.
Qed.

(** ** Identifiers of the old script *)

Lemma old_action_ids w1 w2 f fc1 ct1 fc2 ct2 (ics : list (nat * string)) :
  str_float w1 (st_mtime f) = str_float w2 (st_mtime f) ->
  (forall c, is_ok (encode w1 c) = is_ok (encode w2 c)) ->
  Store.id_of <$> omap (old_action_of w1 f fc1 ct1) ics
  = Store.id_of <$> omap (old_action_of w2 f fc2 ct2) ics.
Proof.
  intros Hm He. induction ics as [|[i chunk] ics IH]; [reflexivity|].
  rewrite !omap_cons_app, !fmap_app, IH, !old_action_of_pair. f_equal.
  destruct (blank chunk); [reflexivity|].
  specialize (He chunk).
  destruct (encode w1 chunk), (encode w2 chunk); try discriminate; [|reflexivity].
  simpl. unfold Store.id_of. simpl. unfold IndexOld.chunk_id. rewrite Hm. reflexivity.
Qed.

Lemma old_action_of_elem w f fc ct (chunks : list string) a :
  a ∈ omap (old_action_of w f fc ct) (enumerate chunks) ->
  exists i chunk v, chunks !! i = Some chunk /\ blank chunk = false
                    /\ encode w chunk = Ok v
                    /\ a = IndexOld.chunk_action w f fc ct i chunk v.
Proof.
  intros Ha. apply list_elem_of_omap in Ha as ([i chunk] & Hin & Hf).
  apply enumerate_from_elem in Hin as [_ Hl]. rewrite Nat.sub_0_r in Hl.
  rewrite old_action_of_pair in Hf.
  destruct (blank chunk) eqn:Hb; [discriminate|].
  destruct (encode w chunk) as [v|] eqn:He; [|discriminate].
  injection Hf as <-. exists i, chunk, v. auto.
Qed.

Lemma old_text_actions_shape w f fc ct text :
  Forall (old_action_of_file w f) (old_text_actions w f fc ct text).
Proof.
  unfold old_text_actions. destruct (blank text).
  - constructor; [left; eauto|constructor].
  - destruct (split_text w text) as [chunks|] eqn:Es; [|constructor].
    apply Forall_forall. intros a Ha.
    apply old_action_of_elem in Ha as (i & chunk & v & Hl & _ & He & ->).
    right. exists fc, ct, text, chunks, i, chunk, v. auto.
Qed.

Lemma old_file_actions_shape w f : Forall (old_action_of_file w f) (old_file_actions w f).
Proof.
  unfold old_file_actions.
  destruct (old_prepared w f) as [[[fc ct] text]|]; [|constructor].
  apply old_text_actions_shape.
Qed.

Lemma old_action_of_file_id w f a :
  old_action_of_file w f a -> is_Some (Store.id_of a).
Proof.
  intros [(fc & ct & ->)|(fc & ct & text & chunks & i & chunk & v & _ & _ & _ & ->)];
    eexists; reflexivity.
Qed.

Lemma all_ids (acts : list dict) :
  Forall (fun a => is_Some (Store.id_of a)) acts ->
  exists ids, Store.id_of <$> acts = Some <$> ids.
Proof.
  induction 1 as [|a acts [i Hi] _ [ids IH]]; [exists []; reflexivity|].
  exists (i :: ids). simpl. rewrite Hi. f_equal. exact IH.
Qed.

Lemma bulk_requests_ok (P : dict -> Prop) tr acts :
  Forall (call_ok P) tr -> acts ∈ bulk_requests tr -> Forall P acts.
Proof.
  intros Htr Hin. apply list_elem_of_omap in Hin as (c & Hc & Hacts).
  rewrite Forall_forall in Htr. destruct (Htr c Hc) as [_ Hok].
  destruct c; try discriminate. injection Hacts as <-. exact Hok.
Qed.

Lemma old_text_actions_ids w1 w2 f fc1 ct1 fc2 ct2 text :
  str_float w1 (st_mtime f) = str_float w2 (st_mtime f) ->
  (forall t, split_text w1 t = split_text w2 t) ->
  (forall c, is_ok (encode w1 c) = is_ok (encode w2 c)) ->
  Store.id_of <$> old_text_actions w1 f fc1 ct1 text
  = Store.id_of <$> old_text_actions w2 f fc2 ct2 text.
Proof.
  intros Hm Hs He. unfold old_text_actions. destruct (blank text).
  - simpl. unfold Store.id_of. simpl. unfold IndexOld.doc_id. rewrite Hm. reflexivity.
  - rewrite <- Hs. destruct (split_text w1 text); [|reflexivity].
    apply old_action_ids; assumption.
Qed.

Lemma old_extract_worlds w1 w2 b f s :
  (forall x, pdf_reader w1 x = pdf_reader w2 x) ->
  IndexOld.extract_text_from_pdf w1 b f s = IndexOld.extract_text_from_pdf w2 b f s.
Proof. intros H. unfold IndexOld.extract_text_from_pdf. rewrite H. reflexivity. Qed.

Lemma old_file_actions_ids w1 w2 f :
  str_float w1 (st_mtime f) = str_float w2 (st_mtime f) ->
  (forall t, split_text w1 t = split_text w2 t) ->
  (forall b, pdf_reader w1 b = pdf_reader w2 b) ->
  (forall c, is_ok (encode w1 c) = is_ok (encode w2 c)) ->
  Store.id_of <$> old_file_actions w1 f = Store.id_of <$> old_file_actions w2 f.
Proof.
  intros Hm Hs Hp He. unfold old_file_actions, old_prepared.
  destruct (negb (is_file f)); [reflexivity|].
  destruct (IndexOld.get_file_content_and_type f initial) as [[[c|] [ct|]] s];
    try reflexivity.
  rewrite (old_extract_worlds w1 w2) by exact Hp.
  repeat match goal with
         | |- context [if ?b then _ else _] => destruct b
         end; try reflexivity; apply old_text_actions_ids; assumption.
Qed.

(** C1.  In the script that sets identifiers, the identifier of the action
    of chunk [i] of a file is [chunk_id], which depends on the file by its
    relative path and its modification time only; every action a file
    produces is the metadata action or the action of a chunk at its index;
    two runs over the same file, whatever the clock, the vectors and the
    answers of the store, produce the same identifiers as soon as the
    splitter and the readers agree and the model raises on the same chunks,
    so that indexing the second run's actions adds no document.  In the
    other script no action of any bulk request has an ["_id"] key, and
    every request adds as many documents as it has actions, whatever the
    store already holds. *)
Theorem identifiers_of_actions (w1 w2 : World) (f : File) (s1 s2 : state)
    (new1 new2 : list dict) :
  str_float w1 (st_mtime f) = str_float w2 (st_mtime f) ->
  (forall t, split_text w1 t = split_text w2 t) ->
  (forall b, pdf_reader w1 b = pdf_reader w2 b) ->
  (forall c, is_ok (encode w1 c) = is_ok (encode w2 c)) ->
  produced (IndexOld.process_file w1 s1 f) = produced s1 ++ new1 ->
  produced (IndexOld.process_file w2 s2 f) = produced s2 ++ new2 ->
  (forall fc ct i chunk v,
      Store.id_of (IndexOld.chunk_action w1 f fc ct i chunk v)
      = Some (IndexOld.chunk_id w1 f i))
  /\ (forall f' i,
        name f' = name f -> parent f' = parent f -> st_mtime f' = st_mtime f ->
        IndexOld.chunk_id w1 f' i = IndexOld.chunk_id w1 f i)
  /\ Forall (old_action_of_file w1 f) new1
  /\ Store.id_of <$> new1 = Store.id_of <$> new2
  /\ (forall docs,
        size (Store.bulk_index (Store.bulk_index docs new1) new2)
        = size (Store.bulk_index docs new1))
  /\ (forall w acts,
        acts ∈ bulk_requests (trace (DeleteIndex.main w).1) ->
        Forall (fun a => get "_id" a = None) acts
        /\ forall docs, size (Store.bulk_index docs acts) = size docs + length acts).
Proof.
  intros Hm Hs Hp He H1 H2.
  rewrite old_process_file_produced in H1, H2.
  apply app_inv_head in H1, H2. subst new1 new2.
  pose proof (old_file_actions_shape w1 f) as Hshape.
  pose proof (old_file_actions_ids w1 w2 f Hm Hs Hp He) as Hids.
  split; [reflexivity|].
  split.
  { intros f' i Hn Hd Ht. unfold IndexOld.chunk_id, str_relative.
    rewrite Hn, Hd, Ht. reflexivity. }
  split; [exact Hshape|].
  split; [exact Hids|].
  split.
  - intros docs.
    destruct (all_ids (old_file_actions w1 f)) as [ids Hi].
    { eapply Forall_impl; [exact Hshape|]. apply old_action_of_file_id. }
    apply (bulk_index_same_ids _ _ _ ids); [exact Hi|]. rewrite <- Hids. exact Hi.
  - intros w acts Hin.
    assert (Forall (fun a => get "_id" a = None) acts) as Hno.
    { eapply bulk_requests_ok; [|exact Hin]. apply doc_main_ok. reflexivity. }
    split; [exact Hno|]. intros docs. apply bulk_index_without_ids.
    eapply Forall_impl; [exact Hno|]. intros a Ha. unfold Store.id_of. rewrite Ha.
    reflexivity.
Qed.

(** ** The file counter *)

Lemma old_embed_file_count w f fc ct ics n s :
  file_count (IndexOld.embed_chunks w f fc ct ics n s).2 = file_count s.
Proof.
  revert n s; induction ics as [|[i chunk] ics IH]; intros n s; [reflexivity|].
  cbn [IndexOld.embed_chunks]. destruct (blank chunk); [rewrite IH; reflexivity|].
  destruct (encode w chunk); rewrite IH; reflexivity.
Qed.

Lemma old_index_batch_file_count w s : file_count (IndexOld.index_batch w s) = file_count s.
Proof.
  unfold IndexOld.index_batch.
  destruct (bulk w _ _) as [[success failed]|[]]; try reflexivity.
  simpl. destruct failed; reflexivity.
Qed.

Lemma old_chunk_and_index_file_count w f fc ct text s :
  file_count (IndexOld.chunk_and_index w f fc ct text s) = file_count s.
Proof.
  unfold IndexOld.chunk_and_index.
  destruct (blank text); [reflexivity|].
  destruct (split_text w text) as [[|chunk chunks]|e]; try reflexivity.
  pose proof (old_embed_file_count w f fc ct (enumerate (chunk :: chunks)) 0
                (logging INFO ("  Split into " +:+ str_nat (length (chunk :: chunks))
                               +:+ " chunks.") (calling (SplitText text) s))) as He.
  destruct (IndexOld.embed_chunks _ _ _ _ _ _ _) as [k s']. simpl in He.
  destruct (500 <=? _); [rewrite old_index_batch_file_count|]; exact He.
Qed.

Lemma old_process_file_file_count w s f :
  file_count (IndexOld.process_file w s f)
  = file_count s + (if is_file f then 1 else 0).
Proof.
  unfold IndexOld.process_file.
  destruct (is_file f); cbn [negb]; [|lia].
  set (s0 := incr_file_count _).
  replace (file_count s + 1) with (file_count s0) by (subst s0; simpl; lia).
  pose proof (old_get_file_log_only f s0) as (_ & _ & Hl & _).
  destruct (IndexOld.get_file_content_and_type f s0) as [[c ct] s1]. cbn [snd] in Hl.
  rewrite <- Hl.
  destruct c as [c|], ct as [ct|]; try reflexivity.
  destruct (negb (truthy (IndexOld.raw c)) || negb (truthy ct)); [reflexivity|].
  destruct (String.eqb ct "pdf_base64").
  - pose proof (old_extract_log_only w (IndexOld.raw c) f s1) as (_ & _ & He & _).
    destruct (IndexOld.extract_text_from_pdf w (IndexOld.raw c) f s1) as [text s2].
    simpl in He. rewrite old_chunk_and_index_file_count. exact He.
  - destruct (String.eqb ct "text"); [apply old_chunk_and_index_file_count|reflexivity].
Qed.

(** The old script goes through every file of the folder, whatever the
    model and the store answer. *)
Lemma old_process_files_file_count w files s :
  file_count (IndexOld.process_files w files s)
  = file_count s + length (filter (fun f => is_file f = true) files).
Proof.
  unfold IndexOld.process_files.
  revert s; induction files as [|f files IH]; intros s; simpl; [lia|].
  rewrite IH, old_process_file_file_count, filter_cons.
  destruct (is_file f); case_decide; try congruence; simpl; lia.
Qed.

Lemma doc_embed_file_count w file_name ics s :
  file_count (DeleteIndex.embed_chunks w file_name ics s) = file_count s.
Proof.
  revert s; induction ics as [|[i chunk] ics IH]; intros s; [reflexivity|].
  cbn [DeleteIndex.embed_chunks]. destruct (blank chunk); [apply IH|].
  destruct (encode w chunk); rewrite IH; reflexivity.
Qed.

Lemma doc_index_batch_file_count w s :
  file_count (DeleteIndex.index_batch w s) = file_count s.
Proof.
  unfold DeleteIndex.index_batch.
  destruct (bulk w _ _) as [[success failed]|e]; try reflexivity.
  simpl. destruct failed; reflexivity.
Qed.

Lemma doc_process_file_runs w s f :
  (forall t, is_ok (split_text w t) = true) ->
  exists s', DeleteIndex.process_file w s f = DeleteIndex.Running s'
             /\ file_count s' = file_count s + (if doc_supported f then 1 else 0).
Proof.
  intros Hsplit. unfold DeleteIndex.process_file, doc_supported. cbv zeta.
  destruct (is_file f && _); cbn [negb]; [|eexists; split; [reflexivity|lia]].
  set (s0 := incr_file_count _).
  replace (file_count s + 1) with (file_count s0) by (subst s0; simpl; lia).
  destruct (DeleteIndex.parse w f s0) as [[text s1]|] eqn:Ep;
    [|eexists; split; reflexivity].
  apply doc_parse_log_only in Ep as (_ & _ & <- & _).
  destruct (blank text); [eexists; split; reflexivity|].
  specialize (Hsplit text).
  destruct (split_text w text) as [[|chunk chunks]|e]; [| |discriminate].
  - eexists; split; reflexivity.
  - eexists; split; [reflexivity|].
    destruct (1000 <=? _); [rewrite doc_index_batch_file_count|];
      rewrite doc_embed_file_count; reflexivity.
Qed.

(** So does [delete_index.py] as long as the splitter returns. *)
Lemma doc_process_files_runs w files s :
  (forall t, is_ok (split_text w t) = true) ->
  exists s', DeleteIndex.process_files w files s = DeleteIndex.Running s'
             /\ file_count s'
                = file_count s + length (filter (fun f => doc_supported f = true) files).
Proof.
  intros Hsplit. revert s; induction files as [|f files IH]; intros s; simpl.
  - exists s. split; [reflexivity|lia].
  - destruct (doc_process_file_runs w s f Hsplit) as (s1 & -> & H1).
    destruct (IH s1) as (s' & -> & H'). exists s'. split; [reflexivity|].
    rewrite H', H1, filter_cons.
    destruct (doc_supported f); case_decide; try congruence; simpl; lia.
Qed.

(** ** Isolation of a failing chunk *)

Lemma old_contribution w f fc ct ics :
  all_actions (IndexOld.embed_chunks w f fc ct ics 0 initial).2
  = omap (old_action_of w f fc ct) ics.
Proof. apply old_embed_all_actions. Qed.

Lemma doc_contribution w file_name ics :
  all_actions (DeleteIndex.embed_chunks w file_name ics initial) = omap (doc_of w file_name) ics.
Proof. apply doc_embed_all_actions. Qed.

(** C3.  When the model raises on the chunk at index [i] of a file (the one
    after [pre]), in both scripts: the actions added to the batch are those
    the chunks before it and the chunks after it give on their own, at
    their own indices; the error is logged; every chunk on which the model
    returns is passed to the model and its action is added; and the loop
    over the files goes on to the end of the folder. *)
Theorem partial_failure_isolation (w : World) (f : File) (fc ct : string)
    (pre post : list string) (chunk : string) (e : exn) (n : nat) (s : state) :
  blank chunk = false ->
  encode w chunk = Raise e ->
  let chunks := pre ++ chunk :: post in
  let i := length pre in
  let old := (IndexOld.embed_chunks w f fc ct (enumerate chunks) n s).2 in
  let new := DeleteIndex.embed_chunks w (name f) (enumerate chunks) s in
  all_actions old
  = all_actions s
    ++ all_actions (IndexOld.embed_chunks w f fc ct (enumerate_from 0 pre) 0 initial).2
    ++ all_actions (IndexOld.embed_chunks w f fc ct (enumerate_from (S i) post) 0 initial).2
  /\ all_actions new
     = all_actions s
       ++ all_actions (DeleteIndex.embed_chunks w (name f) (enumerate_from 0 pre) initial)
       ++ all_actions (DeleteIndex.embed_chunks w (name f) (enumerate_from (S i) post) initial)
  /\ (ERROR, "  Error embedding chunk " +:+ str_nat (i + 1) +:+ " of " +:+ name f +:+ ": "
             +:+ str_exn e +:+ ". Skipping chunk.") ∈ drop (length (log s)) (log old)
  /\ (ERROR, "Error embedding chunk " +:+ str_nat (i + 1) +:+ " of " +:+ name f +:+ ": "
             +:+ str_exn e) ∈ drop (length (log s)) (log new)
  /\ (forall j c v,
        chunks !! j = Some c -> blank c = false -> encode w c = Ok v ->
        Encode c ∈ drop (length (trace s)) (trace old)
        /\ IndexOld.chunk_action w f fc ct j c v
           ∈ drop (length (all_actions s)) (all_actions old)
        /\ Encode c ∈ drop (length (trace s)) (trace new)
        /\ DeleteIndex.doc w (name f) c v ∈ drop (length (all_actions s)) (all_actions new))
  /\ (forall files s0,
        file_count (IndexOld.process_files w files s0)
        = file_count s0 + length (filter (fun x => is_file x = true) files))
  /\ (forall files s0,
        (forall t, is_ok (split_text w t) = true) ->
        exists s', DeleteIndex.process_files w files s0 = DeleteIndex.Running s'
                   /\ file_count s'
                      = file_count s0
                        + length (filter (fun x => doc_supported x = true) files)).
Proof.
  intros Hb He chunks i old new. subst old new.
  rewrite old_embed_all_actions, doc_embed_all_actions, old_embed_log, doc_embed_log,
    old_embed_trace, doc_embed_trace, !old_contribution, !doc_contribution,
    !drop_app_length.
  assert (enumerate chunks
          = enumerate_from 0 pre ++ (i, chunk) :: enumerate_from (S i) post) as Hen
    by (subst chunks; unfold enumerate; rewrite enumerate_from_app; reflexivity).
  assert (forall j c, chunks !! j = Some c -> (j, c) ∈ enumerate chunks) as Hin
    by (intros j c Hl; apply (enumerate_from_lookup 0 j chunks c Hl)).
  repeat apply conj.
  - rewrite Hen, omap_app, omap_cons_app, old_action_of_pair, Hb, He. reflexivity.
  - rewrite Hen, omap_app, omap_cons_app, doc_of_pair, Hb, He. reflexivity.
  - apply list_elem_of_omap. exists (i, chunk). split; [rewrite Hen; set_solver|].
    rewrite old_log_of_pair, Hb, He. reflexivity.
  - apply list_elem_of_omap. exists (i, chunk). split; [rewrite Hen; set_solver|].
    rewrite doc_log_of_pair, Hb, He. reflexivity.
  - intros j c v Hl Hbc Hec.
    assert (encode_call_of (j, c) = Some (Encode c)) as Hcall
      by (rewrite encode_call_of_pair, Hbc; reflexivity).
    repeat apply conj; apply list_elem_of_omap; exists (j, c); (split; [auto|]).
    + exact Hcall.
    + rewrite old_action_of_pair, Hbc, Hec. reflexivity.
    + exact Hcall.
    + rewrite doc_of_pair, Hbc, Hec. reflexivity.
  - intros files s0. apply old_process_files_file_count.
  - intros files s0 Hs. apply doc_process_files_runs, Hs.
Qed.

(** ** Strings *)

Lemma string_app_assoc (s1 s2 s3 : string) : (s1 +:+ s2) +:+ s3 = s1 +:+ s2 +:+ s3.
Proof.
  induction s1 as [|c s1 IH]; [reflexivity|].
  change (String c ((s1 +:+ s2) +:+ s3) = String c (s1 +:+ s2 +:+ s3)).
  rewrite IH. reflexivity.
Qed.

Lemma string_app_nil_r (s : string) : s +:+ EmptyString = s.
Proof.
  induction s as [|c s IH]; [reflexivity|].
  change (String c (s +:+ EmptyString) = String c s). rewrite IH. reflexivity.
Qed.

(** ** The page loop *)

Lemma readable_text_cons_ok t ps :
  readable_text (Ok t :: ps)
  = if truthy t then t +:+ nl +:+ readable_text ps else readable_text ps.
Proof. unfold readable_text. simpl. destruct (truthy t); reflexivity. Qed.

Lemma read_pages_ok (ts : list string) (rest : list (result string)) (text : string) :
  read_pages ((Ok <$> ts) ++ rest) text
  = read_pages rest (text +:+ readable_text (Ok <$> ts)).
Proof.
  revert text; induction ts as [|t ts IH]; intros text; simpl.
  - rewrite string_app_nil_r. reflexivity.
  - rewrite IH, readable_text_cons_ok. destruct (truthy t).
    + rewrite !string_app_assoc. reflexivity.
    + reflexivity.
Qed.

(** A page that raises ends the loop: the text of the pages before it is
    what the loop leaves. *)
Lemma read_pages_raise (before : list string) e (after : list (result string)) :
  read_pages ((Ok <$> before) ++ Raise e :: after) EmptyString
  = (readable_text (Ok <$> before), Some e).
Proof. rewrite read_pages_ok. reflexivity. Qed.

Lemma read_pages_all (ts : list string) :
  read_pages (Ok <$> ts) EmptyString = (readable_text (Ok <$> ts), None).
Proof.
  rewrite <- (app_nil_r (Ok <$> ts)) at 1. rewrite read_pages_ok. reflexivity.
Qed.

(** C6, as the code has it.  Both PDF readers keep one handler around the
    whole extraction.  When a page raises, the loop over the pages ends
    there: the function returns the text of the pages before that page and
    logs the error; the pages after it are not read.  When no page raises
    the text of all pages is returned. *)
Theorem pdf_pages_before_failure (w : World) (b : string) (f : File) (s : state)
    (reader : PdfReader) (ps : list (result string)) :
  pdf_reader w b = Ok reader ->
  (if is_encrypted reader then decrypt reader else Ok ()) = Ok () ->
  pages reader = Ok ps ->
  (forall before e after,
      ps = (Ok <$> before) ++ Raise e :: after ->
      IndexOld.extract_text_from_pdf w b f s
      = (readable_text (Ok <$> before),
         logging ERROR ("Error extracting text from PDF " +:+ name f +:+ ": "
                        +:+ str_exn e) s)
      /\ (open_rb f = Ok b ->
          DeleteIndex.parse_pdf w f s
          = (readable_text (Ok <$> before),
             logging ERROR ("Error parsing PDF " +:+ name f +:+ ": " +:+ str_exn e) s)))
  /\ (forall all,
        ps = Ok <$> all ->
        IndexOld.extract_text_from_pdf w b f s = (readable_text ps, s)
        /\ (open_rb f = Ok b -> DeleteIndex.parse_pdf w f s = (readable_text ps, s))).
Proof.
  intros Hr Hd Hp. split.
  - intros before e after ->. split.
    + unfold IndexOld.extract_text_from_pdf.
      rewrite Hr, Hd, Hp, read_pages_raise. reflexivity.
    + intros Ho. unfold DeleteIndex.parse_pdf.
      rewrite Ho, Hr, Hd, Hp, read_pages_raise. reflexivity.
  - intros all ->. split.
    + unfold IndexOld.extract_text_from_pdf.
      rewrite Hr, Hd, Hp, read_pages_all. reflexivity.
    + intros Ho. unfold DeleteIndex.parse_pdf.
      rewrite Ho, Hr, Hd, Hp, read_pages_all. reflexivity.
Qed.

Lemma pdf_pages_before_failure_witness :
  let w := Sample.world [Sample.scan] "2024-01-01T00:00:00Z" Sample.model_384
             Sample.accepting in
  IndexOld.extract_text_from_pdf w "%PDF-1.4" Sample.scan initial
  = ("first page" +:+ nl,
     logging ERROR "Error extracting text from PDF scan.pdf: Unexpected escaped string"
       initial)
  /\ DeleteIndex.parse_pdf w Sample.scan initial
     = ("first page" +:+ nl,
        logging ERROR "Error parsing PDF scan.pdf: Unexpected escaped string" initial).
Proof.
  intros w.
  destruct (pdf_pages_before_failure w "%PDF-1.4" Sample.scan initial Sample.scan_reader
              Sample.scan_pages eq_refl eq_refl eq_refl) as [H _].
  destruct (H ["first page"] (Exception "Unexpected escaped string") [Ok "third page"]
              eq_refl) as [H1 H2].
  split; [exact H1|exact (H2 eq_refl)].
Defined.

(** C6, as the claim has it: the text of the readable page after the
    failing one is not in what the readers return. *)
Lemma pdf_pages_after_failure_counterexample :
  let w := Sample.world [Sample.scan] "2024-01-01T00:00:00Z" Sample.model_384
             Sample.accepting in
  pdf_reader w "%PDF-1.4" = Ok Sample.scan_reader
  /\ pages Sample.scan_reader
     = Ok [Ok "first page"; Raise (Exception "Unexpected escaped string"); Ok "third page"]
  /\ readable_text Sample.scan_pages = "first page" +:+ nl +:+ "third page" +:+ nl
  /\ (IndexOld.extract_text_from_pdf w "%PDF-1.4" Sample.scan initial).1 = "first page" +:+ nl
  /\ (DeleteIndex.parse_pdf w Sample.scan initial).1 = "first page" +:+ nl
  /\ (IndexOld.extract_text_from_pdf w "%PDF-1.4" Sample.scan initial).1
     <> readable_text Sample.scan_pages
  /\ (DeleteIndex.parse_pdf w Sample.scan initial).1 <> readable_text Sample.scan_pages.
Proof. repeat split; try reflexivity; discriminate. Qed.

(** ** A file with no text to chunk *)

Lemma doc_parse_pdf_fst w f s1 s2 :
  (DeleteIndex.parse_pdf w f s1).1 = (DeleteIndex.parse_pdf w f s2).1.
Proof.
  unfold DeleteIndex.parse_pdf.
  destruct (open_rb f) as [b|]; [|reflexivity].
  destruct (pdf_reader w b) as [reader|]; [|reflexivity].
  destruct (if is_encrypted reader then decrypt reader else Ok ()); [|reflexivity].
  destruct (pages reader) as [ps|]; [|reflexivity].
  destruct (read_pages ps EmptyString) as [text [e|]]; reflexivity.
Qed.

Lemma doc_parse_fst w f s1 s2 :
  fst <$> DeleteIndex.parse w f s1 = fst <$> DeleteIndex.parse w f s2.
Proof.
  unfold DeleteIndex.parse.
  destruct (String.eqb _ ".pdf"); [simpl; f_equal; apply doc_parse_pdf_fst|].
  destruct (String.eqb _ ".docx").
  { unfold DeleteIndex.parse_docx. destruct (docx_paragraphs f); reflexivity. }
  destruct (_ || _); [|reflexivity].
  unfold DeleteIndex.parse_text_file. destruct (open_r f); reflexivity.
Qed.

Lemma old_chunk_and_index_blank w f fc ct text s :
  blank text = true ->
  IndexOld.chunk_and_index w f fc ct text s
  = append_action (IndexOld.metadata_action w f fc ct)
      (logging WARNING ("  No text available for chunking in " +:+ name f
                        +:+ ". Indexing document without chunks.") s).
Proof. intros Hb. unfold IndexOld.chunk_and_index. rewrite Hb. reflexivity. Qed.

(** C5, as the code has it.  A file whose extracted text is empty or
    white space is never split nor embedded, and a warning is logged.
    [delete_index.py] skips it: the batch and the trace of calls are as
    before.  The old script adds one action for it, with the id of the
    file, the full content and neither chunk text nor vector; it adds none
    for a file it does not bring to chunking, such as one whose content is
    empty. *)
Theorem blank_text_is_not_chunked (w : World) (s : state) (f : File) :
  (forall text,
      doc_supported f = true -> doc_extracted w f = Some text -> blank text = true ->
      exists s', DeleteIndex.process_file w s f = DeleteIndex.Running s'
                 /\ all_actions s' = all_actions s /\ trace s' = trace s
                 /\ (WARNING, "No text extracted from " +:+ name f +:+ ". Skipping.")
                    ∈ log s')
  /\ (forall fc ct text,
        old_prepared w f = Some (fc, ct, text) -> blank text = true ->
        let s' := IndexOld.process_file w s f in
        all_actions s' = all_actions s ++ [IndexOld.metadata_action w f fc ct]
        /\ trace s' = trace s
        /\ (WARNING, "  No text available for chunking in " +:+ name f
                     +:+ ". Indexing document without chunks.") ∈ log s'
        /\ Store.id_of (IndexOld.metadata_action w f fc ct) = Some (IndexOld.doc_id w f)
        /\ get "content" (Store.source_of (IndexOld.metadata_action w f fc ct))
           = Some (VStr fc)
        /\ get "chunk_text" (Store.source_of (IndexOld.metadata_action w f fc ct))
           = Some VNone
        /\ get "chunk_vector" (Store.source_of (IndexOld.metadata_action w f fc ct))
           = Some VNone)
  /\ (old_prepared w f = None ->
      all_actions (IndexOld.process_file w s f) = all_actions s
      /\ trace (IndexOld.process_file w s f) = trace s)
  /\ (forall c ct s1,
        IndexOld.get_file_content_and_type f initial = (Some c, ct, s1) ->
        IndexOld.raw c = EmptyString -> old_prepared w f = None).
Proof.
  repeat apply conj.
  - intros text Hsup Hx Hb. unfold DeleteIndex.process_file. cbv zeta.
    unfold doc_supported in Hsup. rewrite Hsup. cbn [negb].
    set (s0 := incr_file_count _).
    unfold doc_extracted in Hx. rewrite (doc_parse_fst w f initial s0) in Hx.
    destruct (DeleteIndex.parse w f s0) as [[text0 s1]|] eqn:Ep; [|discriminate].
    injection Hx as ->. rewrite Hb.
    apply doc_parse_log_only in Ep as (Ha & Ht & _).
    eexists. split; [reflexivity|]. rewrite all_actions_logging, trace_logging, log_logging.
    repeat apply conj; [exact Ha|exact Ht|]. set_solver.
  - intros fc ct text Hp Hb s'. subst s'.
    destruct (old_process_file_prepared w s f fc ct text Hp) as (s1 & Ha & Ht & ->).
    rewrite (old_chunk_and_index_blank _ _ _ _ _ _ Hb).
    autorewrite with state. rewrite Ha, Ht.
    repeat apply conj; try reflexivity. set_solver.
  - apply old_process_file_skipped.
  - intros c ct s1 Hg Hr. unfold old_prepared. rewrite Hg.
    destruct (negb (is_file f)); [reflexivity|]. destruct ct as [ct|]; [|reflexivity].
    rewrite Hr. reflexivity.
Qed.

Lemma blank_text_is_not_chunked_witness :
  let w := Sample.world [Sample.blank_notes] "2024-01-01T00:00:00Z" Sample.model_384
             Sample.accepting in
  (exists s', DeleteIndex.process_file w initial Sample.blank_notes = DeleteIndex.Running s'
              /\ all_actions s' = [] /\ trace s' = []
              /\ (WARNING, "No text extracted from blank.txt. Skipping.") ∈ log s')
  /\ all_actions (IndexOld.process_file w initial Sample.blank_notes)
     = [IndexOld.metadata_action w Sample.blank_notes " " "text"]
  /\ trace (IndexOld.process_file w initial Sample.blank_notes) = [].
Proof.
  intros w.
  destruct (blank_text_is_not_chunked w initial Sample.blank_notes) as (H1 & H2 & _).
  split; [exact (H1 " " eq_refl eq_refl eq_refl)|].
  destruct (H2 " " "text" " " eq_refl eq_refl) as (Ha & Ht & _).
  split; [exact Ha|exact Ht].
Defined.

(** C5, as the claim has it: for a text file that holds one space the old
    script produces an index action, and submits it. *)
Lemma blank_text_counterexample :
  let w := Sample.world [Sample.blank_notes] "2024-01-01T00:00:00Z" Sample.model_384
             Sample.accepting in
  open_r Sample.blank_notes = Ok " "
  /\ blank " " = true
  /\ old_prepared w Sample.blank_notes = Some (" ", "text", " ")
  /\ all_actions (IndexOld.process_file w initial Sample.blank_notes)
     = [IndexOld.metadata_action w Sample.blank_notes " " "text"]
  /\ all_actions (IndexOld.process_file w initial Sample.blank_notes) <> []
  /\ bulk_requests (trace (IndexOld.main w).1)
     = [[IndexOld.metadata_action w Sample.blank_notes " " "text"]].
Proof. repeat split; try reflexivity; discriminate. Qed.

(** ** The vectors of the actions *)





(** ** The calls of delete_index.py *)

(** C9.  Whatever the world, no call [delete_index.py] makes removes a
    document or an index, and every action of every bulk request it makes
    is an index action on [rag_documents]. *)
Theorem delete_index_never_deletes (w : World) (c : call) :
  c ∈ trace (DeleteIndex.main w).1 ->
  is_delete c = false
  /\ forall timeout acts a,
       c = EsBulk timeout acts -> a ∈ acts ->
       Store.op_type a = "index" /\ Store.target a = Some "rag_documents".
Proof.
  intros Hc.
  pose proof (doc_main_ok writes_rag_documents w) as [_ Htr].
  { intros fn chunk v _. split; reflexivity. }
  rewrite Forall_forall in Htr. destruct (Htr c Hc) as [Hd Hb].
  split; [exact Hd|]. intros t acts a -> Ha.
  rewrite Forall_forall in Hb. exact (Hb a Ha).
Qed.

Lemma delete_index_never_deletes_witness :
  let w := Sample.world [Sample.notes] "2024-01-01T00:00:00Z" Sample.model_384
             Sample.accepting in
  let a := DeleteIndex.doc w "notes.txt" "Chunking keeps context." (replicate 384 0%float) in
  trace (DeleteIndex.main w).1
  = [EsPing; LoadModel "sentence-transformers/all-MiniLM-L6-v2";
     SplitText "Chunking keeps context."; Encode "Chunking keeps context.";
     EsBulk 120 [a]]
  /\ Store.op_type a = "index" /\ Store.target a = Some "rag_documents".
Proof.
  intros w a.
  assert (trace (DeleteIndex.main w).1
          = [EsPing; LoadModel "sentence-transformers/all-MiniLM-L6-v2";
             SplitText "Chunking keeps context."; Encode "Chunking keeps context.";
             EsBulk 120 [a]]) as Htr by reflexivity.
  split; [exact Htr|].
  assert (EsBulk 120 [a] ∈ trace (DeleteIndex.main w).1) as Hin
    by (rewrite Htr; do 4 right; left).
  destruct (delete_index_never_deletes w (EsBulk 120 [a]) Hin) as [_ H].
  apply (H 120 [a] a eq_refl). left.
Defined.

(** ** Sample runs *)

Lemma identifiers_of_actions_witness :
  let w1 := Sample.world [Sample.notes] "2024-01-01T00:00:00Z" Sample.model_384
              Sample.accepting in
  let w2 := Sample.world [Sample.notes] "2024-06-30T12:00:00Z" Sample.model_1
              Sample.flaky in
  Store.id_of <$> produced (IndexOld.process_file w1 initial Sample.notes)
  = [Some "chunk-guides/notes.txt-1700000000.5-0"]
  /\ Store.id_of <$> produced (IndexOld.process_file w2 initial Sample.notes)
     = [Some "chunk-guides/notes.txt-1700000000.5-0"]
  /\ produced (IndexOld.process_file w1 initial Sample.notes)
     <> produced (IndexOld.process_file w2 initial Sample.notes).
Proof.
  intros w1 w2.
  destruct (identifiers_of_actions w1 w2 Sample.notes initial initial
              (produced (IndexOld.process_file w1 initial Sample.notes))
              (produced (IndexOld.process_file w2 initial Sample.notes))
              eq_refl (fun _ => eq_refl) (fun _ => eq_refl) (fun _ => eq_refl)
              eq_refl eq_refl) as (_ & _ & _ & H & _).
  split; [reflexivity|]. split; [rewrite <- H; reflexivity|]. discriminate.
Defined.

Lemma partial_failure_isolation_witness :
  let w := Sample.world [Sample.notes] "2024-01-01T00:00:00Z"
             (Sample.model_but "second chunk") Sample.accepting in
  let chunks := ["first chunk"; "second chunk"; "third chunk"] in
  all_actions (IndexOld.embed_chunks w Sample.notes "full text" "text"
                 (enumerate chunks) 0 initial).2
  = [IndexOld.chunk_action w Sample.notes "full text" "text" 0 "first chunk" [0.5%float];
     IndexOld.chunk_action w Sample.notes "full text" "text" 2 "third chunk" [0.5%float]]
  /\ all_actions (DeleteIndex.embed_chunks w "notes.txt" (enumerate chunks) initial)
     = [DeleteIndex.doc w "notes.txt" "first chunk" [0.5%float];
        DeleteIndex.doc w "notes.txt" "third chunk" [0.5%float]]
  /\ (ERROR, "  Error embedding chunk 2 of notes.txt: CUDA out of memory. Skipping chunk.")
     ∈ log (IndexOld.embed_chunks w Sample.notes "full text" "text"
              (enumerate chunks) 0 initial).2.
Proof.
  intros w chunks.
  destruct (partial_failure_isolation w Sample.notes "full text" "text"
              ["first chunk"] ["third chunk"] "second chunk"
              (Exception "CUDA out of memory") 0 initial eq_refl eq_refl)
    as (H1 & H2 & H3 & _).
  split; [exact H1|]. split; [exact H2|exact H3].
Defined.

(** C4, at an input where the code departs from the claim.  A folder of
    1001 one-chunk text files; the first bulk request meets a transport
    error.  In [delete_index.py] the handler of the exception does not
    clear the batch: after the request for the first 1000 actions has
    failed all of them are still buffered, and the next request carries
    them again together with the action of the last file.  In the old
    script the same failure on a batch of 500 drops the batch. *)
Lemma failed_batch_is_submitted_again :
  let files := Sample.numbered <$> seq 0 1001 in
  let w := Sample.world files "2024-01-01T00:00:00Z" Sample.model_1 Sample.flaky in
  let after_1000 :=
    DeleteIndex.state_of (DeleteIndex.process_files w (take 1000 files) initial) in
  let after_all := DeleteIndex.state_of (DeleteIndex.process_files w files initial) in
  let after_500 := IndexOld.process_files w (take 500 files) initial in
  bulk w 0 (all_actions after_1000) = Raise (Exception "Connection timed out")
  /\ bulk_requests (trace after_1000) = [all_actions after_1000]
  /\ length (all_actions after_1000) = 1000
  /\ bulk_requests (trace after_all)
     = [all_actions after_1000;
        all_actions after_1000 ++ [DeleteIndex.doc w "doc1000.txt" "x" [0.5%float]]]
  /\ (DeleteIndex.main w).2 = 0
  /\ length <$> bulk_requests (trace after_500) = [500]
  /\ all_actions after_500 = [].
Proof. repeat apply conj; vm_compute; reflexivity. Qed.

(** ** The read API *)

Lemma get_filter_source k fields src :
  k ∈ fields -> get k (Store.filter_source fields src) = get k src.
Proof.
  intros Hk. unfold Store.filter_source.
  induction src as [|[k' v] src IH]; [reflexivity|].
  rewrite filter_cons. cbn [fst]. destruct (String.eqb_spec k k') as [<-|Hne].
  - rewrite decide_True by exact Hk. cbn [get]. rewrite String.eqb_refl. reflexivity.
  - cbn [get]. apply String.eqb_neq in Hne as Hb. rewrite Hb.
    destruct (decide _); [|exact IH]. cbn [get]. rewrite Hb. exact IH.
Qed.

Lemma file_entry_hit index (d : string * dict) :
  Api.file_entry (Store.hit index (Some ["file_name"; "path"]) d) = Ok (listed d).
Proof.
  unfold Api.file_entry, Store.hit, listed, get_default. simpl.
  rewrite !get_filter_source by set_solver. reflexivity.
Qed.

Lemma mapM_file_entry index (ds : list (string * dict)) :
  mapM Api.file_entry (Store.hit index (Some ["file_name"; "path"]) <$> ds)
  = Ok (listed <$> ds).
Proof.
  induction ds as [|d ds IH]; [reflexivity|].
  cbn [fmap list_fmap mapM]. rewrite file_entry_hit. cbn [mbind result_bind].
  change (list_fmap _ _ ?f ds) with (f <$> ds). rewrite IH. reflexivity.
Qed.

Lemma get_all_files_reachable es index docs :
  Store.reachable es = true -> Store.indices es !! index = Some docs ->
  Api.get_all_files es index
  = Api.JSONResponse 200 (VList (listed <$> take 1000 (map_to_list docs))).
Proof.
  intros Hr Hi. unfold Api.get_all_files, Store.es_search. rewrite Hr, Hi. simpl.
  rewrite mapM_file_entry. reflexivity.
Qed.

(** C8, as the code has it.  On a reachable cluster that has the index,
    [GET /api/files] answers 200 with a list of at most 1000 entries, as
    many as there are documents up to that bound; each entry has exactly
    the keys [id], [file_name] and [path], and is the id, file name and
    path of a document of the index; for an index with no document the
    list is empty.  On a cluster that does not have the index, as before
    anything was indexed, the search raises and the answer is an error of
    status 500. *)
Theorem get_all_files_lists_documents (es : Store.Cluster) (index : string) :
  Store.reachable es = true ->
  (forall docs,
      Store.indices es !! index = Some docs ->
      exists results,
        Api.get_all_files es index = Api.JSONResponse 200 (VList results)
        /\ length results <= 1000
        /\ length results = size docs `min` 1000
        /\ (forall r, r ∈ results ->
                      exists id source fields,
                        docs !! id = Some source /\ r = VDict fields
                        /\ keys fields = ["id"; "file_name"; "path"]
                        /\ get "id" fields = Some (VStr id)
                        /\ get "file_name" fields
                           = Some (get_default "file_name" (VStr EmptyString) source)
                        /\ get "path" fields
                           = Some (get_default "path" (VStr EmptyString) source))
        /\ (docs = ∅ -> results = []))
  /\ (Store.indices es !! index = None ->
      Api.get_all_files es index
      = Api.HTTPException 500 ("no such index [" +:+ index +:+ "]")).
Proof.
  intros Hr. split.
  - intros docs Hi. eexists. split; [apply (get_all_files_reachable _ _ _ Hr Hi)|].
    rewrite length_fmap, length_take, length_map_to_list.
    repeat apply conj; [lia|lia| |].
    + intros r Hin. apply list_elem_of_fmap in Hin as ([id source] & -> & Hin).
      apply elem_of_take in Hin as (i & Hl & _).
      apply list_elem_of_lookup_2, elem_of_map_to_list in Hl.
      exists id, source. eexists. repeat apply conj; [exact Hl|reflexivity..].
    + intros ->. rewrite map_to_list_empty. reflexivity.
  - intros Hi. unfold Api.get_all_files, Store.es_search. rewrite Hr, Hi. reflexivity.
Qed.

Lemma get_all_files_lists_documents_witness :
  Api.get_all_files Sample.cluster "rag_documents"
  = Api.JSONResponse 200
      (VList [VDict [("id", VStr "chunk-guides/notes.txt-1700000000.5-0");
                     ("file_name", VStr "notes.txt"); ("path", VStr "guides")];
              VDict [("id", VStr "auto-1"); ("file_name", VStr "scan.pdf");
                     ("path", VStr EmptyString)]])
  /\ Api.get_all_files {| Store.reachable := true;
                          Store.indices := {[ "rag_documents" := ∅ ]} |} "rag_documents"
     = Api.JSONResponse 200 (VList [])
  /\ Api.get_all_files Sample.cluster "documents"
     = Api.HTTPException 500 "no such index [documents]".
Proof.
  split; [vm_compute; reflexivity|].
  assert (Store.indices {| Store.reachable := true;
                           Store.indices := {[ "rag_documents" := ∅ ]} |}
            !! "rag_documents" = Some (∅ : gmap string dict)) as Hindex
    by (vm_compute; reflexivity).
  assert (Store.indices Sample.cluster !! "documents" = None) as Hnone
    by (vm_compute; reflexivity).
  destruct (get_all_files_lists_documents
              {| Store.reachable := true; Store.indices := {[ "rag_documents" := ∅ ]} |}
              "rag_documents" eq_refl) as [Hsome _].
  destruct (Hsome ∅ Hindex) as (results & Hres & _ & _ & _ & Hempty).
  destruct (get_all_files_lists_documents Sample.cluster "documents" eq_refl)
    as [_ Hmissing].
  split; [rewrite Hres, (Hempty eq_refl); reflexivity|exact (Hmissing Hnone)].
Defined.

(** C8, as the claim has it: a store that is reached and holds no document,
    as no index was created in it, gets an error of status 500 and not
    the empty list. *)
Lemma empty_store_counterexample :
  let es := {| Store.reachable := true; Store.indices := ∅ |} in
  (forall index docs id, Store.indices es !! index = Some docs -> docs !! id = None)
  /\ Api.get_all_files es "rag_documents"
     = Api.HTTPException 500 "no such index [rag_documents]"
  /\ Api.get_all_files es "rag_documents" <> Api.JSONResponse 200 (VList [])
  /\ Api.status_of (Api.get_all_files es "rag_documents") = 500.
Proof.
  intros es.
  assert (Api.get_all_files es "rag_documents"
          = Api.HTTPException 500 "no such index [rag_documents]") as Hres
    by (unfold Api.get_all_files, Store.es_search; simpl; rewrite lookup_empty; reflexivity).
  repeat apply conj.
  - intros index docs id Hi. simpl in Hi. rewrite lookup_empty in Hi. discriminate.
  - exact Hres.
  - rewrite Hres. discriminate.
  - rewrite Hres. reflexivity.
Qed.

(** C10.  When the decoded id names no document of the index, and on any
    other failure of the store, [GET /api/files/{file_id}] answers with
    status 500; it never answers 404. *)
Theorem missing_document_is_500 (es : Store.Cluster) (index : string)
    (unquote : string -> string) (file_id : string) :
  (forall docs, Store.indices es !! index = Some docs -> docs !! unquote file_id = None) ->
  (exists detail,
      Api.get_file_content es index unquote file_id = Api.HTTPException 500 detail)
  /\ (forall es' index' file_id',
        Api.status_of (Api.get_file_content es' index' unquote file_id') = 200
        \/ Api.status_of (Api.get_file_content es' index' unquote file_id') = 500).
Proof.
  intros Hmiss. split.
  - unfold Api.get_file_content, Store.es_get. cbv zeta.
    destruct (negb (Store.reachable es)); [eexists; reflexivity|].
    destruct (Store.indices es !! index) as [docs|] eqn:Ei; [|eexists; reflexivity].
    rewrite (Hmiss docs eq_refl). eexists; reflexivity.
  - intros es' index' file_id'. unfold Api.get_file_content.
    destruct (_ ≫= _); [left|right]; reflexivity.
Qed.

Lemma missing_document_is_500_witness :
  Api.get_file_content Sample.cluster "rag_documents" (fun s => s) "no-such-id"
  = Api.HTTPException 500 "document [no-such-id] not found"
  /\ Api.get_file_content Sample.cluster "rag_documents" (fun s => s)
       "chunk-guides/notes.txt-1700000000.5-0"
     = Api.JSONResponse 200 (VDict [("content", VStr "Chunking keeps context.")]).
Proof.
  assert (Sample.documents !! "no-such-id" = None) as Hnone by (vm_compute; reflexivity).
  destruct (missing_document_is_500 Sample.cluster "rag_documents" (fun s => s)
              "no-such-id") as [[detail Hd] _].
  - intros docs Hdocs. simpl in Hdocs. rewrite lookup_singleton_eq in Hdocs.
    injection Hdocs as <-. exact Hnone.
  - split; [|vm_compute; reflexivity]. rewrite Hd. f_equal.
    unfold Api.get_file_content, Store.es_get in Hd. simpl in Hd.
    rewrite lookup_singleton_eq, Hnone in Hd. injection Hd as <-. reflexivity.
Defined.

(** ** The chunker *)

Section Chunker.
Import Splitter.
Context (seps : list string) (m o : nat) (Hom : o < m).

Lemma spans_all t start : Forall (span_ok m t) (spans seps m o Hom t start).
Proof.
  funelim (spans seps m o Hom t start).
  - destruct (decide (start < length t)); repeat constructor; simpl; lia.
  - pose proof (break_point_bounds seps (take m (drop start t)) o m Hom).
    cbv zeta in *. set (cut := break_point seps (take m (drop start t)) o m) in *.
    constructor; [|assumption]. unfold span_ok. cbn [fst snd]. lia.
Qed.

(** From an offset inside the text the first span starts there. *)
Lemma spans_head t start :
  start < length t ->
  exists stop rest,
    spans seps m o Hom t start = (start, stop) :: rest
    /\ (stop = length t \/ start + o < stop) /\ stop <= length t.
Proof.
  intros Hlt. rewrite spans_equation_1.
  destruct (decide (length t - start <= m)) as [Hle|Hgt];
    cbn [spans_unfold_clause_1]; cbv zeta.
  - rewrite decide_True by exact Hlt. eexists _, _. split; [reflexivity|]. split; [left|]; lia.
  - pose proof (break_point_bounds seps (take m (drop start t)) o m Hom).
    set (cut := break_point seps (take m (drop start t)) o m) in *.
    eexists _, _. split; [reflexivity|]. split; [right|]; lia.
Qed.

Lemma spans_adjacent t start i a b :
  spans seps m o Hom t start !! i = Some a ->
  spans seps m o Hom t start !! S i = Some b ->
  adjacent o a b.
Proof.
  revert i a b. funelim (spans seps m o Hom t start); intros i a b Ha Hb.
  - destruct (decide (start < length t)); destruct i; discriminate.
  - pose proof (break_point_bounds seps (take m (drop start t)) o m Hom) as Hcut.
    cbv zeta in *. set (cut := break_point seps (take m (drop start t)) o m) in *.
    destruct i as [|i]; [|exact (H i a b Ha Hb)].
    injection Ha as <-. cbn [lookup list_lookup] in Hb.
    destruct (spans_head t (start + cut - o)) as (stop & rest & Hs & Hstop & Hle); [lia|].
    rewrite Hs in Hb. injection Hb as <-. unfold adjacent. cbn [fst snd]. lia.
Qed.

End Chunker.

Lemma length_string_of_list_ascii (l : list ascii) :
  String.length (string_of_list_ascii l) = length l.
Proof. induction l as [|c l IH]; simpl; [reflexivity|]. rewrite IH. reflexivity. Qed.

Lemma slice_length t span :
  span.2 <= length t -> length (Splitter.slice t span) = span.2 - span.1.
Proof. intros H. unfold Splitter.slice. rewrite length_take, length_drop. lia. Qed.

(** The end of a span and the start of the next one hold the same text. *)
Lemma slice_shared t (a b : nat * nat) :
  a.1 <= b.1 -> b.1 <= a.2 -> a.2 <= b.2 ->
  drop (b.1 - a.1) (Splitter.slice t a) = take (a.2 - b.1) (Splitter.slice t b).
Proof.
  intros H1 H2 H3. unfold Splitter.slice.
  rewrite skipn_firstn_comm, drop_drop, take_take.
  replace (a.1 + (b.1 - a.1)) with b.1 by lia.
  replace (a.2 - a.1 - (b.1 - a.1)) with (a.2 - b.1) by lia.
  replace ((a.2 - b.1) `min` (b.2 - b.1)) with (a.2 - b.1) by lia.
  reflexivity.
Qed.

(** C2.  With an overlap smaller than the maximum size the chunker returns
    a list of chunks for every text, whatever the separators; every chunk
    is a substring of the text of at most [m] characters; of two chunks in
    a row the second starts inside the first and ends after it, and the
    characters they share, the end of the first and the start of the
    second, are at most [o].  The sizes both scripts configure, 1000 and
    150, meet the precondition. *)
Theorem chunks_bounded_and_overlapping (seps : list string) (m o : nat) (text : string) :
  o < m ->
  let t := list_ascii_of_string text in
  exists sp chunks,
    Splitter.split_spans seps m o t = Some sp
    /\ Splitter.split_text seps m o text = Some chunks
    /\ chunks = (fun span => string_of_list_ascii (Splitter.slice t span)) <$> sp
    /\ Forall (fun c => String.length c <= m) chunks
    /\ (forall i a b,
          sp !! i = Some a -> sp !! S i = Some b ->
          a.1 < b.1 /\ b.1 <= a.2 /\ a.2 < b.2 /\ b.2 <= length t
          /\ a.2 - b.1 <= o
          /\ drop (b.1 - a.1) (Splitter.slice t a) = take (a.2 - b.1) (Splitter.slice t b))
    /\ IndexOld.CHUNK_OVERLAP < IndexOld.CHUNK_SIZE
    /\ DeleteIndex.chunk_overlap < DeleteIndex.chunk_size.
Proof.
  intros Hom t. unfold Splitter.split_text, Splitter.split_spans. fold t.
  destruct (decide (o < m)) as [H|H]; [|contradiction].
  eexists _, _. split; [reflexivity|]. split; [reflexivity|]. split; [reflexivity|].
  pose proof (spans_all seps m o H t 0) as Hall.
  repeat apply conj.
  - apply Forall_fmap. eapply Forall_impl; [exact Hall|].
    intros span (H1 & H2 & H3). simpl.
    rewrite length_string_of_list_ascii, slice_length by exact H2. exact H3.
  - intros i a b Ha Hb.
    destruct (spans_adjacent seps m o H t 0 i a b Ha Hb) as (A1 & A2 & A3).
    rewrite Forall_forall in Hall.
    destruct (Hall b (list_elem_of_lookup_2 _ _ _ Hb)) as (B1 & B2 & B3).
    repeat apply conj; try lia. apply slice_shared; lia.
  - unfold IndexOld.CHUNK_OVERLAP, IndexOld.CHUNK_SIZE. lia.
  - unfold DeleteIndex.chunk_overlap, DeleteIndex.chunk_size. lia.
Qed.

Lemma chunks_bounded_and_overlapping_witness :
  Splitter.split_text IndexOld.separators 12 4 "alpha beta gamma delta"
  = Some ["alpha beta "; "eta gamma "; "mma delta"]
  /\ Splitter.split_spans IndexOld.separators 12 4
       (list_ascii_of_string "alpha beta gamma delta")
     = Some [(0, 11); (7, 17); (13, 22)].
Proof.
  assert (Splitter.split_spans IndexOld.separators 12 4
            (list_ascii_of_string "alpha beta gamma delta")
          = Some [(0, 11); (7, 17); (13, 22)]) as Hspans by (vm_compute; reflexivity).
  destruct (chunks_bounded_and_overlapping IndexOld.separators 12 4
              "alpha beta gamma delta")
    as (sp & chunks & Hsp & Hchunks & Hdef & _); [lia|].
  rewrite Hspans in Hsp. injection Hsp as <-.
  split; [rewrite Hchunks, Hdef; reflexivity|exact Hspans].
Defined.

(** The scenario of section 8 of the spec on this model: a text file of
    2500 characters gives three chunks of at most 1000 characters, three
    vectors of 384 components and one bulk request of three actions on the
    configured collection. *)
Example end_to_end_scenario :
  let w :=
    Sample.with_splitter
      (Sample.world [Sample.long_notes] "2024-01-01T00:00:00Z" Sample.model_384
         Sample.accepting)
      Sample.old_splitter in
  Sample.old_splitter (string_of_list_ascii (replicate 2500 "a"%char))
  = Ok [string_of_list_ascii (replicate 1000 "a"%char);
        string_of_list_ascii (replicate 1000 "a"%char);
        string_of_list_ascii (replicate 800 "a"%char)]
  /\ map (map (fun a => (Store.target a, option_map length (chunk_vector a))))
       (bulk_requests (trace (IndexOld.main w).1))
     = [[(Some "rag_documents", Some 384); (Some "rag_documents", Some 384);
         (Some "rag_documents", Some 384)]].
Proof. split; vm_compute; reflexivity. Qed.

(** ** The batches *)

(** In the old script a flush attempt inside the loop makes one bulk
    request with the whole buffer and leaves the buffer empty, whether the
    call returns or raises. *)
Lemma old_flush_clears_buffer (w : World) (s : state) :
  all_actions (IndexOld.index_batch w s) = []
  /\ trace (IndexOld.index_batch w s) = trace s ++ [EsBulk 120 (all_actions s)]
  /\ file_count (IndexOld.index_batch w s) = file_count s.
Proof.
  split; [apply old_index_batch_all_actions|].
  split; [apply old_index_batch_trace|apply old_index_batch_file_count].
Qed.

(** In [delete_index.py] a flush attempt inside the loop leaves the buffer
    empty when the bulk call returns, and as it was when the call raises. *)
Lemma doc_flush_keeps_failed_batch (w : World) (s : state) :
  all_actions (DeleteIndex.index_batch w s)
  = (if is_ok (bulk w (length (bulk_requests (trace s))) (all_actions s))
     then [] else all_actions s)
  /\ trace (DeleteIndex.index_batch w s) = trace s ++ [EsBulk 120 (all_actions s)].
Proof.
  unfold DeleteIndex.index_batch. cbv zeta. rewrite trace_logging, all_actions_logging.
  destruct (bulk w _ _) as [[success failed]|e]; simpl.
  - unfold DeleteIndex.bulk_returned. destruct failed; split; reflexivity.
  - split; reflexivity.
Qed.

(** In the old script fewer than 500 actions are buffered after a file
    whose text was split into chunks. *)
Lemma old_buffer_below_batch_size (w : World) (f : File) (fc ct text : string)
    (chunks : list string) (s : state) :
  blank text = false -> split_text w text = Ok chunks -> chunks <> [] ->
  length (all_actions (IndexOld.chunk_and_index w f fc ct text s)) < 500.
Proof.
  intros Hb Hs Hne. unfold IndexOld.chunk_and_index. rewrite Hb, Hs.
  destruct chunks as [|chunk chunks]; [contradiction|].
  destruct (IndexOld.embed_chunks _ _ _ _ _ _ _) as [k s'].
  destruct (500 <=? length (all_actions (add_total_chunks k s'))) eqn:E.
  - rewrite old_index_batch_all_actions. simpl. lia.
  - apply Nat.leb_gt in E. exact E.
Qed.

Lemma old_buffer_below_batch_size_witness :
  let w := Sample.world [Sample.notes] "2024-01-01T00:00:00Z" Sample.model_384
             Sample.accepting in
  length (all_actions (IndexOld.chunk_and_index w Sample.notes "Chunking keeps context."
                         "text" "Chunking keeps context." initial)) < 500.
Proof.
  intros w.
  apply (old_buffer_below_batch_size w Sample.notes _ _ _ ["Chunking keeps context."]);
    [reflexivity|reflexivity|discriminate].
Defined.

Lemma old_index_final_batch_requests w s :
  concat (bulk_requests (trace (IndexOld.index_final_batch w s))) = produced s.
Proof.
  unfold IndexOld.index_final_batch, produced.
  destruct (all_actions s) as [|a acts] eqn:E; [rewrite app_nil_r; reflexivity|].
  rewrite <- E. cbv zeta.
  assert (forall s', trace s' = trace s ++ [EsBulk 120 (all_actions s)] ->
                     concat (bulk_requests (trace s'))
                     = concat (bulk_requests (trace s)) ++ all_actions s) as Hreq.
  { intros s' ->. rewrite bulk_requests_snoc, concat_app. simpl.
    rewrite app_nil_r. reflexivity. }
  destruct (bulk w _ _) as [[success failed]|[]]; apply Hreq; try reflexivity.
  unfold IndexOld.bulk_returned. destruct failed; reflexivity.
Qed.

Lemma old_ingest_requests w s :
  concat (bulk_requests (trace (IndexOld.ingest w s)))
  = produced s ++ concat (old_file_actions w <$> rglob w).
Proof.
  unfold IndexOld.ingest. cbv zeta. rewrite !trace_logging.
  rewrite old_index_final_batch_requests, old_process_files_produced, produced_logging.
  reflexivity.
Qed.

Lemma old_prepare_index_produced w s :
  produced (IndexOld.prepare_index w s).1 = produced s.
Proof.
  unfold IndexOld.prepare_index. cbv zeta.
  destruct (indices_exists w) as [[|]|e]; cbn [fst];
    rewrite ?produced_logging, ?produced_calling by reflexivity; try reflexivity.
  destruct (indices_create w); cbn [fst];
    rewrite ?produced_logging, ?produced_calling by reflexivity;
    rewrite ?produced_logging, ?produced_calling by reflexivity; reflexivity.
Qed.

(** A run of the old script that ends with status 0 submits every action
    of every file once: the bulk requests, put end to end, are the actions
    of the files in the order of the folder. *)
Lemma old_every_action_submitted_once (w : World) :
  (IndexOld.main w).2 = 0 ->
  concat (bulk_requests (trace (IndexOld.main w).1))
  = concat (old_file_actions w <$> rglob w).
Proof.
  unfold IndexOld.main.
  destruct (_ || _); [discriminate|].
  destruct (negb (docs_is_dir w)); [discriminate|].
  destruct (Elasticsearch w); [|discriminate].
  destruct (ping w) as [[|]|e]; [|discriminate..].
  destruct (SentenceTransformer w); [|discriminate].
  set (s2 := logging INFO "Embedding model loaded." _).
  pose proof (old_prepare_index_produced w s2) as Hp.
  destruct (IndexOld.prepare_index w s2) as [s3 [|]]; [|discriminate].
  intros _. cbn [fst snd] in *. rewrite old_ingest_requests, Hp. reflexivity.
Qed.

Lemma old_every_action_submitted_once_witness :
  let w := Sample.world [Sample.blank_notes; Sample.notes] "2024-01-01T00:00:00Z"
             Sample.model_384 Sample.accepting in
  concat (bulk_requests (trace (IndexOld.main w).1))
  = old_file_actions w Sample.blank_notes ++ old_file_actions w Sample.notes.
Proof.
  intros w. rewrite (old_every_action_submitted_once w eq_refl).
  vm_compute. reflexivity.
Defined.

(** ** The calls of the embedding model *)

Lemma encode_calls_of_chunks (k : nat) (chunks : list string) :
  omap encode_call_of (enumerate_from k chunks)
  = Encode <$> filter (fun c => blank c = false) chunks.
Proof.
  revert k; induction chunks as [|c chunks IH]; intros k; [reflexivity|].
  cbn [enumerate_from]. rewrite omap_cons_app, encode_call_of_pair, filter_cons, IH.
  destruct (blank c); reflexivity.
Qed.

Lemma length_omap_le {A B C} (f : A -> option B) (g : A -> option C) (l : list A) :
  (forall x, is_Some (f x) -> is_Some (g x)) -> length (omap f l) <= length (omap g l).
Proof.
  intros Hfg. induction l as [|x l IH]; [reflexivity|].
  rewrite !omap_cons_app, !length_app. specialize (Hfg x).
  destruct (f x), (g x); simpl; try lia. destruct Hfg as [? [=]]. eauto.
Qed.

(** In both chunk loops the embedding model is called once for every chunk
    that is neither empty nor white space, in the order of the chunks, and
    never for a blank one; the counter of the old script grows by the
    number of actions added, at most one action is added per call, and
    both loops add the same number of actions. *)
Theorem model_called_once_per_chunk (w : World) (f : File) (fc ct : string)
    (chunks : list string) (n : nat) (s : state) :
  let old := IndexOld.embed_chunks w f fc ct (enumerate chunks) n s in
  let new := DeleteIndex.embed_chunks w (name f) (enumerate chunks) s in
  let texts := filter (fun c => blank c = false) chunks in
  trace old.2 = trace s ++ (Encode <$> texts)
  /\ trace new = trace s ++ (Encode <$> texts)
  /\ old.1 + length (all_actions s) = n + length (all_actions old.2)
  /\ length (all_actions old.2) <= length (all_actions s) + length texts
  /\ length (all_actions new) = length (all_actions old.2).
Proof.
  intros old new texts. subst old new texts.
  rewrite old_embed_trace, doc_embed_trace, old_embed_count, old_embed_all_actions,
    doc_embed_all_actions, !length_app.
  unfold enumerate. rewrite encode_calls_of_chunks.
  repeat apply conj; try reflexivity; try lia.
  - rewrite <- (length_fmap Encode), <- (encode_calls_of_chunks 0).
    apply Nat.add_le_mono_l, length_omap_le.
    intros [i c]. rewrite old_action_of_pair, encode_call_of_pair.
    destruct (blank c); [intros [? [=]]|eauto].
  - f_equal. apply Nat.le_antisymm; apply length_omap_le; intros [i c];
      rewrite old_action_of_pair, doc_of_pair; destruct (blank c), (encode w c); eauto.
Qed.

(** ** Identifiers within a file *)

Lemma str_nat_inj (i j : nat) : str_nat i = str_nat j -> i = j.
Proof.
  unfold str_nat. intros H. apply Unsigned.to_uint_inj.
  apply (f_equal NilEmpty.uint_of_string) in H. rewrite !NilEmpty.usu in H.
  congruence.
Qed.

Lemma chunk_id_inj w f (i j : nat) : IndexOld.chunk_id w f i = IndexOld.chunk_id w f j -> i = j.
Proof.
  unfold IndexOld.chunk_id. intros H.
  repeat apply String.app_inj in H. apply str_nat_inj, H.
Qed.

Lemma old_chunk_ids_sublist w f fc ct (ics : list (nat * string)) :
  Store.id_of <$> omap (old_action_of w f fc ct) ics
  `sublist_of` (fun ic => Some (IndexOld.chunk_id w f ic.1)) <$> ics.
Proof.
  induction ics as [|[i c] ics IH]; [constructor|].
  rewrite omap_cons_app, old_action_of_pair, fmap_app, fmap_cons.
  destruct (blank c); [apply sublist_cons, IH|].
  destruct (encode w c); [apply sublist_skip, IH|apply sublist_cons, IH].
Qed.

Lemma enumerate_from_fst {A} (k : nat) (l : list A) :
  (enumerate_from k l).*1 = seq k (length l).
Proof. revert k; induction l as [|x l IH]; intros k; simpl; [|rewrite IH]; reflexivity. Qed.

Lemma old_chunk_ids_NoDup w f fc ct (chunks : list string) :
  NoDup (Store.id_of <$> omap (old_action_of w f fc ct) (enumerate chunks)).
Proof.
  eapply sublist_NoDup; [|apply old_chunk_ids_sublist].
  change (fun ic : nat * string => Some (IndexOld.chunk_id w f ic.1))
    with ((fun i => Some (IndexOld.chunk_id w f i)) ∘ (fst : nat * string -> nat)).
  rewrite list_fmap_compose. unfold enumerate. rewrite enumerate_from_fst.
  apply NoDup_fmap_2; [|apply NoDup_seq].
  intros i j H. apply (inj Some) in H. apply chunk_id_inj in H. exact H.
Qed.

Lemma old_text_actions_NoDup w f fc ct text :
  NoDup (Store.id_of <$> old_text_actions w f fc ct text).
Proof.
  unfold old_text_actions. destruct (blank text); [apply NoDup_singleton|].
  destruct (split_text w text); [apply old_chunk_ids_NoDup|constructor].
Qed.

(** The ids of the old script within a file: two chunks have the same id
    only at the same index, the id of the file is never the id of a chunk,
    and the actions a file adds all have an id, no two of them the same. *)
Theorem ids_within_a_file_are_distinct (w : World) (f : File) (s : state) :
  (forall i j, IndexOld.chunk_id w f i = IndexOld.chunk_id w f j <-> i = j)
  /\ (forall i, IndexOld.doc_id w f <> IndexOld.chunk_id w f i)
  /\ exists acts,
       produced (IndexOld.process_file w s f) = produced s ++ acts
       /\ NoDup (Store.id_of <$> acts)
       /\ Forall (fun a => is_Some (Store.id_of a)) acts.
Proof.
  repeat apply conj.
  - intros i j. split; [apply chunk_id_inj|congruence].
  - intros i. discriminate.
  - exists (old_file_actions w f). split; [apply old_process_file_produced|].
    split.
    + unfold old_file_actions. destruct (old_prepared w f) as [[[fc ct] text]|];
        [apply old_text_actions_NoDup|constructor].
    + eapply Forall_impl; [apply old_file_actions_shape|].
      intros a Ha. apply old_action_of_file_id in Ha. exact Ha.
Qed.

(** ** The chunk counter *)

Lemma total_chunks_logging l msg s : total_chunks (logging l msg s) = total_chunks s.
Proof. reflexivity. Qed.

Lemma old_embed_total_chunks w f fc ct ics n s :
  total_chunks (IndexOld.embed_chunks w f fc ct ics n s).2 = total_chunks s.
Proof.
  revert n s; induction ics as [|[i chunk] ics IH]; intros n s; [reflexivity|].
  cbn [IndexOld.embed_chunks]. destruct (blank chunk); [rewrite IH; reflexivity|].
  destruct (encode w chunk); rewrite IH; reflexivity.
Qed.

Lemma old_index_batch_total_chunks w s :
  total_chunks (IndexOld.index_batch w s) = total_chunks s.
Proof.
  unfold IndexOld.index_batch.
  destruct (bulk w _ _) as [[success failed]|[]]; try reflexivity.
  simpl. destruct failed; reflexivity.
Qed.

Lemma old_index_final_batch_total_chunks w s :
  total_chunks (IndexOld.index_final_batch w s) = total_chunks s.
Proof.
  unfold IndexOld.index_final_batch. destruct (all_actions s); [reflexivity|].
  cbv zeta. destruct (bulk w _ _) as [[success failed]|[]]; try reflexivity.
  unfold IndexOld.bulk_returned. destruct failed; reflexivity.
Qed.

Lemma old_chunk_vectors w f fc ct (ics : list (nat * string)) :
  length (omap chunk_vector (omap (old_action_of w f fc ct) ics))
  = length (omap (old_action_of w f fc ct) ics).
Proof.
  induction ics as [|[i c] ics IH]; [reflexivity|].
  rewrite omap_cons_app, omap_app, !length_app, IH, old_action_of_pair.
  destruct (blank c); [reflexivity|]. destruct (encode w c); reflexivity.
Qed.

Lemma old_chunk_and_index_total_chunks w f fc ct text s :
  total_chunks (IndexOld.chunk_and_index w f fc ct text s)
  = total_chunks s + length (omap chunk_vector (old_text_actions w f fc ct text)).
Proof.
  unfold IndexOld.chunk_and_index, old_text_actions.
  destruct (blank text); [simpl; lia|].
  destruct (split_text w text) as [[|chunk chunks]|e]; [simpl; lia| |simpl; lia].
  rewrite old_chunk_vectors.
  set (s1 := logging INFO _ _).
  pose proof (old_embed_total_chunks w f fc ct (enumerate (chunk :: chunks)) 0 s1) as Ht.
  pose proof (old_embed_count w f fc ct (enumerate (chunk :: chunks)) 0 s1) as Hc.
  destruct (IndexOld.embed_chunks _ _ _ _ _ _ _) as [k s']. cbn [fst snd] in Ht, Hc.
  destruct (500 <=? _); [rewrite old_index_batch_total_chunks|];
    cbn [total_chunks add_total_chunks]; rewrite Ht, Hc; reflexivity.
Qed.

Lemma old_process_file_total_chunks w s f :
  total_chunks (IndexOld.process_file w s f)
  = total_chunks s + length (omap chunk_vector (old_file_actions w f)).
Proof.
  unfold old_file_actions, old_prepared, IndexOld.process_file.
  destruct (negb (is_file f)); [simpl; lia|].
  set (s0 := incr_file_count _).
  change (total_chunks s) with (total_chunks s0).
  pose proof (old_get_file_log_only f s0) as (_ & _ & _ & Ht).
  pose proof (old_get_file_fst f s0 initial) as Hf.
  destruct (IndexOld.get_file_content_and_type f s0) as [[c0 ct0] s1].
  destruct (IndexOld.get_file_content_and_type f initial) as [[c' ct'] s1'].
  cbn [fst snd] in Ht, Hf. injection Hf as <- <-. rewrite <- Ht.
  destruct c0 as [c0|], ct0 as [ct0|]; try (simpl; lia).
  destruct (negb (truthy (IndexOld.raw c0)) || negb (truthy ct0)); [simpl; lia|].
  destruct (String.eqb ct0 "pdf_base64").
  - pose proof (old_extract_log_only w (IndexOld.raw c0) f s1) as (_ & _ & _ & Ht2).
    pose proof (old_extract_fst w (IndexOld.raw c0) f s1 initial) as Hx.
    destruct (IndexOld.extract_text_from_pdf w (IndexOld.raw c0) f s1) as [text1 s2].
    cbn [fst snd] in Ht2, Hx. subst text1.
    rewrite old_chunk_and_index_total_chunks, Ht2. reflexivity.
  - destruct (String.eqb ct0 "text"); [|simpl; lia].
    apply old_chunk_and_index_total_chunks.
Qed.

Lemma old_process_files_total_chunks w files s :
  total_chunks (IndexOld.process_files w files s)
  = total_chunks s + length (omap chunk_vector (concat (old_file_actions w <$> files))).
Proof.
  unfold IndexOld.process_files.
  revert s; induction files as [|f files IH]; intros s; simpl; [lia|].
  rewrite IH, old_process_file_total_chunks, omap_app, length_app, Nat.add_assoc.
  reflexivity.
Qed.

Lemma old_ingest_total_chunks w s :
  total_chunks (IndexOld.ingest w s)
  = total_chunks s + length (omap chunk_vector (concat (old_file_actions w <$> rglob w))).
Proof.
  unfold IndexOld.ingest. cbv zeta.
  rewrite !total_chunks_logging.
  rewrite old_index_final_batch_total_chunks, old_process_files_total_chunks. reflexivity.
Qed.

Lemma old_ingest_log w s :
  (INFO, "Generated and attempted to index " +:+ str_nat (total_chunks (IndexOld.ingest w s))
         +:+ " chunks.") ∈ log (IndexOld.ingest w s).
Proof.
  unfold IndexOld.ingest. cbv zeta.
  rewrite !total_chunks_logging, !log_logging. set_solver.
Qed.

Lemma old_prepare_index_total_chunks w s :
  total_chunks (IndexOld.prepare_index w s).1 = total_chunks s.
Proof.
  unfold IndexOld.prepare_index. cbv zeta.
  destruct (indices_exists w) as [[|]|e]; try reflexivity.
  destruct (indices_create w); reflexivity.
Qed.

Lemma produced_nil_requests s : produced s = [] -> concat (bulk_requests (trace s)) = [].
Proof. unfold produced. intros H. apply app_eq_nil in H as [H _]. exact H. Qed.

(** At the end of a run of the old script the chunk counter is the number
    of submitted actions that carry a vector, whatever the exit status;
    a run that ends with status 0 logs it. *)
Theorem old_total_chunks_counts_submitted_vectors (w : World) :
  total_chunks (IndexOld.main w).1
  = length (omap chunk_vector (concat (bulk_requests (trace (IndexOld.main w).1))))
  /\ ((IndexOld.main w).2 = 0 ->
      (INFO, "Generated and attempted to index "
             +:+ str_nat (total_chunks (IndexOld.main w).1) +:+ " chunks.")
      ∈ log (IndexOld.main w).1).
Proof.
  unfold IndexOld.main.
  destruct (_ || _); [split; [reflexivity|discriminate]|].
  destruct (negb (docs_is_dir w)); [split; [reflexivity|discriminate]|].
  destruct (Elasticsearch w); [|split; [reflexivity|discriminate]].
  destruct (ping w) as [[|]|e]; [|split; [reflexivity|discriminate]..].
  destruct (SentenceTransformer w); [|split; [reflexivity|discriminate]].
  set (s2 := logging INFO "Embedding model loaded." _).
  pose proof (old_prepare_index_produced w s2) as Hp.
  pose proof (old_prepare_index_total_chunks w s2) as Ht.
  destruct (IndexOld.prepare_index w s2) as [s3 [|]]; cbn [fst snd] in *.
  - split; [|intros _; apply old_ingest_log].
    rewrite old_ingest_total_chunks, old_ingest_requests, Ht, Hp. reflexivity.
  - split; [|discriminate]. rewrite Ht, (produced_nil_requests s3 Hp). reflexivity.
Qed.

(** ** A file [delete_index.py] brings to the splitter *)

Lemma doc_embed_total_chunks w file_name ics s :
  total_chunks (DeleteIndex.embed_chunks w file_name ics s) = total_chunks s.
Proof.
  revert s; induction ics as [|[i chunk] ics IH]; intros s; [reflexivity|].
  cbn [DeleteIndex.embed_chunks]. destruct (blank chunk); [apply IH|].
  destruct (encode w chunk); rewrite IH; reflexivity.
Qed.

Lemma doc_index_batch_total_chunks w s :
  total_chunks (DeleteIndex.index_batch w s) = total_chunks s.
Proof.
  unfold DeleteIndex.index_batch.
  destruct (bulk w _ _) as [[success failed]|e]; try reflexivity.
  simpl. destruct failed; reflexivity.
Qed.

(** The loop body on a file with text: the split, from a state that
    differs from the one before by its log and the file counter. *)
Lemma doc_process_file_text w s f text :
  doc_supported f = true -> doc_extracted w f = Some text -> blank text = false ->
  exists s1,
    all_actions s1 = all_actions s /\ trace s1 = trace s ++ [SplitText text]
    /\ file_count s1 = S (file_count s) /\ total_chunks s1 = total_chunks s
    /\ DeleteIndex.process_file w s f
       = match split_text w text with
         | Raise e => DeleteIndex.Uncaught s1 e
         | Ok [] =>
             DeleteIndex.Running
               (logging WARNING ("No chunks generated for " +:+ name f +:+ ". Skipping.") s1)
         | Ok chunks =>
             let s2 :=
               DeleteIndex.embed_chunks w (name f) (enumerate chunks)
                 (add_total_chunks (length chunks)
                    (logging INFO ("  Split into " +:+ str_nat (length chunks) +:+ " chunks.")
                       s1)) in
             DeleteIndex.Running
               (if 1000 <=? length (all_actions s2) then DeleteIndex.index_batch w s2 else s2)
         end.
Proof.
  intros Hsup Hx Hb. unfold DeleteIndex.process_file. cbv zeta.
  unfold doc_supported in Hsup. rewrite Hsup. cbn [negb].
  set (s0 := incr_file_count _).
  unfold doc_extracted in Hx. rewrite (doc_parse_fst w f initial s0) in Hx.
  destruct (DeleteIndex.parse w f s0) as [[text0 s1]|] eqn:Ep; [|discriminate].
  injection Hx as ->. rewrite Hb.
  apply doc_parse_log_only in Ep as (Ha & Ht & Hf & Hc).
  exists (calling (SplitText text) s1).
  autorewrite with state.
  repeat apply conj; [exact Ha|rewrite Ht; reflexivity|exact Hf|exact Hc|].
  destruct (split_text w text) as [[|c cs]|e]; reflexivity.
Qed.

(** The loop body on any other file: only the log and the file counter
    change. *)
Lemma doc_process_file_no_text w s f :
  (doc_supported f = false
   \/ doc_extracted w f = None
   \/ exists text, doc_extracted w f = Some text /\ blank text = true) ->
  exists s', DeleteIndex.process_file w s f = DeleteIndex.Running s'
             /\ all_actions s' = all_actions s /\ trace s' = trace s
             /\ total_chunks s' = total_chunks s.
Proof.
  intros H. unfold DeleteIndex.process_file. cbv zeta.
  fold (doc_supported f).
  destruct (doc_supported f) eqn:Hsup; cbn [negb]; [|eexists; repeat split].
  set (s0 := incr_file_count _).
  unfold doc_extracted in H. rewrite (doc_parse_fst w f initial s0) in H.
  destruct (DeleteIndex.parse w f s0) as [[text0 s1]|] eqn:Ep.
  - apply doc_parse_log_only in Ep as (Ha & Ht & Hf & Hc).
    destruct H as [H|[H|(text & [= ->] & Hb)]]; try discriminate.
    rewrite Hb. eexists. split; [reflexivity|].
    rewrite all_actions_logging, trace_logging, total_chunks_logging. auto.
  - eexists. split; [reflexivity|]. repeat split.
Qed.

Lemma doc_cases w f :
  (doc_supported f = false
   \/ doc_extracted w f = None
   \/ exists text, doc_extracted w f = Some text /\ blank text = true)
  \/ exists text, doc_supported f = true /\ doc_extracted w f = Some text
                  /\ blank text = false.
Proof.
  destruct (doc_supported f); [|auto].
  destruct (doc_extracted w f) as [text|]; [|auto].
  destruct (blank text) eqn:Hb; [left|right]; eauto.
Qed.

(** ** The chunk counters of the two scripts *)

Lemma old_embedded_chunks w f fc ct (k : nat) (chunks : list string) :
  length (omap (old_action_of w f fc ct) (enumerate_from k chunks))
  = length (filter (fun c => blank c = false /\ is_ok (encode w c) = true) chunks).
Proof.
  revert k; induction chunks as [|c chunks IH]; intros k; [reflexivity|].
  cbn [enumerate_from]. rewrite omap_cons_app, length_app, old_action_of_pair, filter_cons, IH.
  destruct (blank c); [rewrite decide_False by (intros [? _]; discriminate); reflexivity|].
  destruct (encode w c); [rewrite decide_True by auto; reflexivity|].
  rewrite decide_False by (intros [_ ?]; discriminate). reflexivity.
Qed.

(** The chunk counters of the two scripts count differently: for a file
    whose text the splitter cuts into [chunks], [delete_index.py] adds
    their number before it embeds any, the old script the number of chunks
    that are not blank and that the model embedded. *)
Theorem chunk_counters_differ (w : World) (s : state) (f : File) (fc ct text : string)
    (chunks : list string) :
  doc_supported f = true -> doc_extracted w f = Some text -> blank text = false ->
  split_text w text = Ok chunks ->
  (exists s', DeleteIndex.process_file w s f = DeleteIndex.Running s'
              /\ total_chunks s' = total_chunks s + length chunks)
  /\ total_chunks (IndexOld.chunk_and_index w f fc ct text s)
     = total_chunks s
       + length (filter (fun c => blank c = false /\ is_ok (encode w c) = true) chunks).
Proof.
  intros Hsup Hx Hb Hs. split.
  - destruct (doc_process_file_text w s f text Hsup Hx Hb) as (s1 & _ & _ & _ & Hc & ->).
    rewrite Hs. destruct chunks as [|c cs].
    + eexists. split; [reflexivity|]. rewrite total_chunks_logging, Hc. simpl. lia.
    + eexists. split; [reflexivity|]. cbv zeta.
      destruct (1000 <=? _); [rewrite doc_index_batch_total_chunks|];
        rewrite doc_embed_total_chunks; cbn [total_chunks add_total_chunks logging];
        rewrite Hc; reflexivity.
  - rewrite <- (old_embedded_chunks w f fc ct 0).
    pose proof (old_chunk_and_index_total_chunks w f fc ct text s) as H.
    unfold old_text_actions in H. rewrite Hb, Hs, old_chunk_vectors in H. exact H.
Qed.

Lemma chunk_counters_differ_witness :
  let w := Sample.with_splitter
             (Sample.world [Sample.notes] "2024-01-01T00:00:00Z" (Sample.model_but "bad")
                Sample.accepting)
             (fun _ => Ok ["good"; "bad"; " "]) in
  (exists s', DeleteIndex.process_file w initial Sample.notes = DeleteIndex.Running s'
              /\ total_chunks s' = 3)
  /\ total_chunks (IndexOld.chunk_and_index w Sample.notes "Chunking keeps context." "text"
                     "Chunking keeps context." initial) = 1.
Proof.
  intros w.
  exact (chunk_counters_differ w initial Sample.notes "Chunking keeps context." "text"
           "Chunking keeps context." ["good"; "bad"; " "] eq_refl eq_refl eq_refl eq_refl).
Defined.

(** ** The exit status *)

Ltac exit_1 :=
  cbn [fst snd]; split; [|split; [|split]];
  [split; intros H; discriminate H
  |right; reflexivity
  |intros _; split; [reflexivity|repeat constructor]
  |first [intros _; split; reflexivity|intros H; discriminate H]].

(** The exit status of the old script is 0 exactly when the credentials
    are set, the folder exists, the client connects and pings, the model
    loads and the index is there or created; it is 1 otherwise, and then
    no file was taken up and nothing was split, embedded or submitted.
    Without credentials or folder no call leaves the process. *)
Theorem old_exit_status (w : World) :
  ((IndexOld.main w).2 = 0 <-> services_up w && index_ready w = true)
  /\ ((IndexOld.main w).2 = 0 \/ (IndexOld.main w).2 = 1)
  /\ ((IndexOld.main w).2 = 1 ->
      file_count (IndexOld.main w).1 = 0
      /\ Forall (fun c => is_ingest_call c = false) (trace (IndexOld.main w).1))
  /\ (env_truthy (ELASTIC_CLOUD_ID w) && env_truthy (ELASTIC_API_KEY w) && docs_is_dir w
      = false ->
      trace (IndexOld.main w).1 = [] /\ (IndexOld.main w).2 = 1).
Proof.
  unfold IndexOld.main, IndexOld.prepare_index, services_up, index_ready. cbv zeta.
  destruct (env_truthy (ELASTIC_CLOUD_ID w)); cbn [negb orb andb]; [|exit_1].
  destruct (env_truthy (ELASTIC_API_KEY w)); cbn [negb orb andb]; [|exit_1].
  destruct (docs_is_dir w); cbn [negb orb andb]; [|exit_1].
  destruct (Elasticsearch w); cbn [is_ok andb]; [|exit_1].
  destruct (ping w) as [[|]|e]; cbn [andb]; [|exit_1..].
  destruct (SentenceTransformer w); cbn [is_ok andb]; [|exit_1].
  destruct (indices_exists w) as [[|]|e]; [| |exit_1].
  - cbn [fst snd].
    split; [|split; [|split]];
      [split; reflexivity|left; reflexivity|intros H; discriminate H|intros H; discriminate H].
  - destruct (indices_create w); cbn [is_ok]; [|exit_1]. cbn [fst snd].
    split; [|split; [|split]];
      [split; reflexivity|left; reflexivity|intros H; discriminate H|intros H; discriminate H].
Qed.

Lemma doc_process_file_outcome w s f :
  match DeleteIndex.process_file w s f with
  | DeleteIndex.Running _ => doc_splits w f = true
  | DeleteIndex.Uncaught s' e =>
      doc_splits w f = false
      /\ exists text, split_text w text = Raise e /\ last (trace s') = Some (SplitText text)
  end.
Proof.
  unfold doc_splits.
  destruct (doc_cases w f) as [H|(text & Hsup & Hx & Hb)].
  - destruct (doc_process_file_no_text w s f H) as (s' & -> & _).
    destruct H as [->|[->|(text & -> & ->)]]; [reflexivity| |];
      destruct (doc_supported f); reflexivity.
  - destruct (doc_process_file_text w s f text Hsup Hx Hb) as (s1 & _ & Ht & _ & _ & ->).
    rewrite Hsup, Hx, Hb.
    destruct (split_text w text) as [[|c cs]|e] eqn:Hs; try reflexivity.
    split; [reflexivity|]. exists text. rewrite Ht, last_snoc. auto.
Qed.

Lemma doc_process_files_outcome w files s :
  match DeleteIndex.process_files w files s with
  | DeleteIndex.Running _ => forallb (doc_splits w) files = true
  | DeleteIndex.Uncaught s' e =>
      forallb (doc_splits w) files = false
      /\ exists text, split_text w text = Raise e /\ last (trace s') = Some (SplitText text)
  end.
Proof.
  revert s; induction files as [|f files IH]; intros s; [reflexivity|].
  cbn [DeleteIndex.process_files forallb].
  pose proof (doc_process_file_outcome w s f) as Hf.
  destruct (DeleteIndex.process_file w s f) as [s1|s1 e].
  - rewrite Hf. apply IH.
  - destruct Hf as [-> Hf]. split; [reflexivity|exact Hf].
Qed.

Ltac doc_exit_1 :=
  cbn [fst snd]; split; [|split]; [split; intros H; discriminate H|right; reflexivity|intros H; discriminate H].

(** The exit status of [delete_index.py] is 0 exactly when the services
    are up and the splitter returns on every file it is called on; when it
    is 1 with the services up, the last call that left the process is a
    split that raised: what was in the buffer is not submitted. *)
Theorem doc_exit_status (w : World) :
  ((DeleteIndex.main w).2 = 0
   <-> services_up w && forallb (doc_splits w) (rglob w) = true)
  /\ ((DeleteIndex.main w).2 = 0 \/ (DeleteIndex.main w).2 = 1)
  /\ (services_up w = true -> (DeleteIndex.main w).2 = 1 ->
      exists text e,
        split_text w text = Raise e
        /\ last (trace (DeleteIndex.main w).1) = Some (SplitText text)).
Proof.
  unfold DeleteIndex.main, services_up. cbv zeta.
  destruct (env_truthy (ELASTIC_CLOUD_ID w)); cbn [negb orb andb]; [|doc_exit_1].
  destruct (env_truthy (ELASTIC_API_KEY w)); cbn [negb orb andb]; [|doc_exit_1].
  destruct (docs_is_dir w); cbn [negb orb andb]; [|doc_exit_1].
  destruct (Elasticsearch w); cbn [is_ok andb]; [|doc_exit_1].
  destruct (ping w) as [[|]|e]; cbn [andb]; [|doc_exit_1..].
  destruct (SentenceTransformer w); cbn [is_ok andb]; [|doc_exit_1].
  set (s0 := logging INFO ("Scanning documents in '" +:+ _) _).
  pose proof (doc_process_files_outcome w (rglob w) s0) as Hout.
  destruct (DeleteIndex.process_files w (rglob w) s0) as [s1|s1 e]; cbn [fst snd].
  - rewrite Hout. split; [|split]; [split; reflexivity|left; reflexivity|intros _ H; discriminate H].
  - destruct Hout as [-> (text & Hs & Hl)].
    split; [|split]; [split; intros H; discriminate H|right; reflexivity|].
    intros _ _. exists text, e. auto.
Qed.

(** ** What [delete_index.py] submits when the store answers *)

Lemma bulk_requests_nil_encode_calls ics tr :
  bulk_requests (tr ++ omap encode_call_of ics) = bulk_requests tr.
Proof. rewrite bulk_requests_app, bulk_requests_encode_calls, app_nil_r. reflexivity. Qed.

Lemma doc_embed_produced w file_name ics s :
  produced (DeleteIndex.embed_chunks w file_name ics s)
  = produced s ++ omap (doc_of w file_name) ics.
Proof.
  unfold produced.
  rewrite doc_embed_all_actions, doc_embed_trace, bulk_requests_nil_encode_calls, app_assoc.
  reflexivity.
Qed.

Lemma doc_index_batch_produced w s :
  is_ok (bulk w (length (bulk_requests (trace s))) (all_actions s)) = true ->
  produced (DeleteIndex.index_batch w s) = produced s.
Proof.
  intros Hok. apply (produced_flush 120).
  - unfold DeleteIndex.index_batch. cbv zeta. rewrite trace_logging, all_actions_logging.
    destruct (bulk w _ _) as [[success failed]|e]; [|reflexivity].
    unfold DeleteIndex.bulk_returned. destruct failed; reflexivity.
  - unfold DeleteIndex.index_batch. cbv zeta. rewrite trace_logging, all_actions_logging in *.
    destruct (bulk w _ _) as [[success failed]|e]; [reflexivity|discriminate].
Qed.

Lemma doc_process_file_produced w s f s' :
  (forall n acts, is_ok (bulk w n acts) = true) ->
  DeleteIndex.process_file w s f = DeleteIndex.Running s' ->
  produced s' = produced s ++ doc_file_actions w f.
Proof.
  intros Hbulk. unfold doc_file_actions.
  destruct (doc_cases w f) as [H|(text & Hsup & Hx & Hb)].
  - destruct (doc_process_file_no_text w s f H) as (s1 & -> & Ha & Ht & _).
    intros [= <-]. unfold produced. rewrite Ha, Ht.
    destruct H as [->|[->|(text & -> & ->)]]; [| |];
      destruct (doc_supported f); rewrite ?app_nil_r; reflexivity.
  - destruct (doc_process_file_text w s f text Hsup Hx Hb) as (s1 & Ha & Ht & _ & _ & ->).
    rewrite Hsup, Hx, Hb.
    assert (produced s1 = produced s) as Hp.
    { unfold produced. rewrite Ha, Ht, bulk_requests_snoc, app_nil_r. reflexivity. }
    destruct (split_text w text) as [[|c cs]|e]; [| |discriminate].
    + intros [= <-]. rewrite produced_logging, Hp, app_nil_r. reflexivity.
    + intros Hr. apply (f_equal DeleteIndex.state_of) in Hr.
      cbn [DeleteIndex.state_of] in Hr. subst s'. cbv zeta.
      match goal with |- context [if ?b then _ else _] => destruct b end;
        [rewrite doc_index_batch_produced by apply Hbulk|];
        rewrite doc_embed_produced, produced_total, produced_logging, Hp; reflexivity.
Qed.

Lemma doc_process_files_produced w files s s' :
  (forall n acts, is_ok (bulk w n acts) = true) ->
  DeleteIndex.process_files w files s = DeleteIndex.Running s' ->
  produced s' = produced s ++ concat (doc_file_actions w <$> files).
Proof.
  intros Hbulk. revert s; induction files as [|f files IH]; intros s.
  - intros [= <-]. simpl. rewrite app_nil_r. reflexivity.
  - cbn [DeleteIndex.process_files].
    destruct (DeleteIndex.process_file w s f) as [s1|s1 e] eqn:Ef; [|discriminate].
    intros Hr. rewrite (IH s1 Hr), (doc_process_file_produced w s f s1 Hbulk Ef).
    rewrite <- app_assoc. reflexivity.
Qed.

Lemma doc_index_final_batch_requests w s :
  concat (bulk_requests (trace (DeleteIndex.index_final_batch w s))) = produced s.
Proof.
  unfold DeleteIndex.index_final_batch, produced.
  destruct (all_actions s) as [|a acts] eqn:E; [rewrite app_nil_r; reflexivity|].
  rewrite <- E. cbv zeta.
  assert (forall s', trace s' = trace s ++ [EsBulk 120 (all_actions s)] ->
                     concat (bulk_requests (trace s'))
                     = concat (bulk_requests (trace s)) ++ all_actions s) as Hreq.
  { intros s' ->. rewrite bulk_requests_snoc, concat_app. simpl.
    rewrite app_nil_r. reflexivity. }
  destruct (bulk w _ _) as [[success failed]|e]; apply Hreq; try reflexivity.
  unfold DeleteIndex.bulk_returned. destruct failed; reflexivity.
Qed.

(** When no bulk call raises, a run of [delete_index.py] that ends with
    status 0 submits every action of every file once: the bulk requests,
    put end to end, are the actions of the files in the order of the
    folder. *)
Theorem doc_every_action_submitted_once (w : World) :
  (forall n acts, is_ok (bulk w n acts) = true) ->
  (DeleteIndex.main w).2 = 0 ->
  concat (bulk_requests (trace (DeleteIndex.main w).1))
  = concat (doc_file_actions w <$> rglob w).
Proof.
  intros Hbulk. unfold DeleteIndex.main. cbv zeta.
  destruct (_ || _); [discriminate|].
  destruct (negb (docs_is_dir w)); [discriminate|].
  destruct (Elasticsearch w); [|discriminate].
  destruct (ping w) as [[|]|e]; [|discriminate..].
  destruct (SentenceTransformer w); [|discriminate].
  set (s0 := logging INFO ("Scanning documents in '" +:+ _) _).
  destruct (DeleteIndex.process_files w (rglob w) s0) as [s1|s1 e] eqn:Ef; [|discriminate].
  intros _. cbn [fst]. rewrite !trace_logging, doc_index_final_batch_requests.
  rewrite (doc_process_files_produced w (rglob w) s0 s1 Hbulk Ef). reflexivity.
Qed.

Lemma doc_every_action_submitted_once_witness :
  let w := Sample.world [Sample.blank_notes; Sample.notes] "2024-01-01T00:00:00Z"
             Sample.model_384 Sample.accepting in
  concat (bulk_requests (trace (DeleteIndex.main w).1))
  = [DeleteIndex.doc w "notes.txt" "Chunking keeps context." (replicate 384 0%float)].
Proof.
  intros w. rewrite (doc_every_action_submitted_once w (fun n acts => eq_refl) eq_refl).
  vm_compute. reflexivity.
Defined.

(** ** The two scripts on the same file *)

Lemma pdf_text_same w f b s1 s2 :
  open_rb f = Ok b ->
  (DeleteIndex.parse_pdf w f s1).1 = (IndexOld.extract_text_from_pdf w b f s2).1.
Proof.
  intros Hb. unfold DeleteIndex.parse_pdf, IndexOld.extract_text_from_pdf. rewrite Hb.
  destruct (pdf_reader w b) as [reader|]; [|reflexivity].
  destruct (if is_encrypted reader then decrypt reader else Ok ()); [|reflexivity].
  destruct (pages reader) as [ps|]; [|reflexivity].
  destruct (read_pages ps EmptyString) as [text [e|]]; reflexivity.
Qed.

Lemma same_text_extracted w f fc ct text :
  lower (suffix (name f)) = ".pdf" \/ lower (suffix (name f)) = ".docx" ->
  old_prepared w f = Some (fc, ct, text) ->
  doc_supported f = true /\ doc_extracted w f = Some text.
Proof.
  unfold doc_supported, old_prepared, doc_extracted, DeleteIndex.parse,
    IndexOld.get_file_content_and_type.
  cbv zeta. intros Hsuf.
  destruct (is_file f); [|discriminate]. cbn [negb andb].
  destruct Hsuf as [-> | ->]; cbn [String.eqb Ascii.eqb Bool.eqb].
  - destruct (open_rb f) as [b|] eqn:Hb; [|discriminate].
    cbn [IndexOld.raw]. destruct (truthy b); [|discriminate]. cbn [negb orb truthy].
    intros [= <- <- <-]. split; [reflexivity|].
    cbn [fmap option_fmap option_map]. f_equal. apply pdf_text_same, Hb.
  - unfold DeleteIndex.parse_docx.
    destruct (docx_paragraphs f) as [paras|]; [|discriminate].
    cbn [IndexOld.raw]. destruct (truthy (concat_lines paras)); [|discriminate].
    intros [= <- <- <-]. split; reflexivity.
Qed.

Lemma same_chunk_payload w f fc ct (ics : list (nat * string)) :
  chunk_payload <$> omap (old_action_of w f fc ct) ics
  = chunk_payload <$> omap (doc_of w (name f)) ics.
Proof.
  induction ics as [|[i c] ics IH]; [reflexivity|].
  rewrite !omap_cons_app, !fmap_app, IH, old_action_of_pair, doc_of_pair.
  destruct (blank c); [reflexivity|]. destruct (encode w c); reflexivity.
Qed.

(** On a PDF or DOCX file that the old script brings to chunking the two
    scripts extract the same text, and they store the same file name,
    chunk text and vector for its chunks. *)
Theorem scripts_agree_on_text_and_chunks (w : World) (f : File) (fc ct text : string) :
  lower (suffix (name f)) = ".pdf" \/ lower (suffix (name f)) = ".docx" ->
  old_prepared w f = Some (fc, ct, text) ->
  doc_supported f = true
  /\ doc_extracted w f = Some text
  /\ (blank text = false ->
      chunk_payload <$> old_file_actions w f = chunk_payload <$> doc_file_actions w f)
  /\ (forall chunks n s,
        chunk_payload <$> all_actions (IndexOld.embed_chunks w f fc ct chunks n s).2
        = chunk_payload <$> all_actions (DeleteIndex.embed_chunks w (name f) chunks s)).
Proof.
  intros Hsuf Hp. destruct (same_text_extracted w f fc ct text Hsuf Hp) as [Hsup Hx].
  split; [exact Hsup|]. split; [exact Hx|]. split.
  - intros Hb. unfold old_file_actions, doc_file_actions, old_text_actions.
    rewrite Hp, Hsup, Hx, Hb.
    destruct (split_text w text); [apply same_chunk_payload|reflexivity].
  - intros chunks n s.
    rewrite old_embed_all_actions, doc_embed_all_actions, !fmap_app, same_chunk_payload.
    reflexivity.
Qed.

Lemma scripts_agree_on_text_and_chunks_witness :
  let w := Sample.world [Sample.scan] "2024-01-01T00:00:00Z" Sample.model_384
             Sample.accepting in
  doc_extracted w Sample.scan = Some ("first page" +:+ nl)
  /\ chunk_payload <$> old_file_actions w Sample.scan
     = chunk_payload <$> doc_file_actions w Sample.scan.
Proof.
  intros w.
  destruct (scripts_agree_on_text_and_chunks w Sample.scan "JVBERi0xLjQ=" "pdf_base64"
              ("first page" +:+ nl) (or_introl eq_refl) eq_refl) as (_ & Hx & Hp & _).
  split; [exact Hx|exact (Hp eq_refl)].
Defined.

(** ** A PDF that cannot be read *)

Lemma pdf_unreadable_text w b f s :
  pdf_unreadable w b = true -> (IndexOld.extract_text_from_pdf w b f s).1 = EmptyString.
Proof.
  unfold pdf_unreadable, IndexOld.extract_text_from_pdf.
  destruct (pdf_reader w b) as [reader|]; [|reflexivity].
  destruct (if is_encrypted reader then decrypt reader else Ok ()); [|reflexivity].
  destruct (pages reader) as [ps|]; [discriminate|reflexivity].
Qed.

(** A PDF file that has content but cannot be read (the reader raises, or
    the document is encrypted and the empty password fails, or its pages
    cannot be listed): the old script adds one action without chunk for
    it, with the base64 text of its bytes as content, and calls neither
    the splitter nor the model; [delete_index.py] adds nothing. *)
Theorem unreadable_pdf_is_indexed_without_chunks (w : World) (f : File) (b : string)
    (s : state) :
  is_file f = true -> lower (suffix (name f)) = ".pdf" ->
  open_rb f = Ok b -> truthy b = true -> pdf_unreadable w b = true ->
  all_actions (IndexOld.process_file w s f)
  = all_actions s ++ [IndexOld.metadata_action w f (b64encode w b) "pdf_base64"]
  /\ trace (IndexOld.process_file w s f) = trace s
  /\ get "content" (Store.source_of
                      (IndexOld.metadata_action w f (b64encode w b) "pdf_base64"))
     = Some (VStr (b64encode w b))
  /\ exists s', DeleteIndex.process_file w s f = DeleteIndex.Running s'
                /\ all_actions s' = all_actions s /\ trace s' = trace s.
Proof.
  intros Hfile Hsuf Hopen Hb Hun.
  assert (old_prepared w f = Some (b64encode w b, "pdf_base64", EmptyString)) as Hp.
  { unfold old_prepared, IndexOld.get_file_content_and_type. cbv zeta.
    rewrite Hfile, Hsuf, Hopen. cbn [negb String.eqb Ascii.eqb Bool.eqb andb IndexOld.raw].
    rewrite Hb. cbn. rewrite pdf_unreadable_text by exact Hun. reflexivity. }
  destruct (same_text_extracted w f _ _ _ (or_introl Hsuf) Hp) as [Hsup Hx].
  destruct (old_process_file_prepared w s f _ _ _ Hp) as (s1 & Ha & Ht & ->).
  rewrite old_chunk_and_index_blank by reflexivity. autorewrite with state.
  rewrite Ha, Ht. repeat apply conj; try reflexivity.
  destruct (doc_process_file_no_text w s f) as (s' & Hr & Ha' & Ht' & _).
  { right. right. exists EmptyString. split; [exact Hx|reflexivity]. }
  exists s'. auto.
Qed.

Lemma unreadable_pdf_is_indexed_without_chunks_witness :
  let w := Sample.with_pdf_reader
             (Sample.world [Sample.scan] "2024-01-01T00:00:00Z" Sample.model_384
                Sample.accepting)
             (fun _ => Ok Sample.locked_reader) in
  all_actions (IndexOld.process_file w initial Sample.scan)
  = [IndexOld.metadata_action w Sample.scan "JVBERi0xLjQ=" "pdf_base64"]
  /\ exists s', DeleteIndex.process_file w initial Sample.scan = DeleteIndex.Running s'
                /\ all_actions s' = [].
Proof.
  intros w.
  destruct (unreadable_pdf_is_indexed_without_chunks w Sample.scan "%PDF-1.4" initial
              eq_refl eq_refl eq_refl eq_refl eq_refl) as (Ha & _ & _ & s' & Hr & Ha' & _).
  split; [exact Ha|]. exists s'. split; [exact Hr|exact Ha'].
Defined.

(** ** From the scripts to the read API *)

Lemma bulk_index_snoc docs acts a :
  Store.bulk_index docs (acts ++ [a]) = Store.index_doc (Store.bulk_index docs acts) a.
Proof. unfold Store.bulk_index. apply foldl_snoc. Qed.

(** A field that every action of a request gives the same value is read
    back with that value under the id of each of them. *)
Lemma bulk_index_field k v docs acts a i :
  Forall (fun a => get k (Store.source_of a) = Some v) acts ->
  a ∈ acts -> Store.id_of a = Some i ->
  exists src, Store.bulk_index docs acts !! i = Some src /\ get k src = Some v.
Proof.
  induction acts as [|x acts IH] using rev_ind; [intros _ Hin; inversion Hin|].
  intros Hall Hin Hid. apply Forall_app in Hall as [Hall Hx].
  rewrite Forall_singleton in Hx. rewrite bulk_index_snoc. unfold Store.index_doc.
  apply elem_of_app in Hin as [Hin|Hin].
  - destruct (IH Hall Hin Hid) as (src & Hl & Hg).
    destruct (Store.id_of x) as [j|].
    + destruct (decide (j = i)) as [->|Hne].
      * rewrite lookup_insert_eq. exists (Store.source_of x). split; [reflexivity|exact Hx].
      * rewrite lookup_insert_ne by exact Hne. exists src. split; assumption.
    + rewrite lookup_insert_ne; [exists src; split; assumption|].
      intros Heq. apply (is_fresh (dom (Store.bulk_index docs acts))).
      rewrite Heq. apply elem_of_dom. eauto.
  - apply list_elem_of_singleton in Hin as ->. rewrite Hid, lookup_insert_eq.
    exists (Store.source_of x). split; [reflexivity|exact Hx].
Qed.

(** The documents a request of actions without ids adds are the sources
    of its actions. *)
Lemma bulk_index_new (P : dict -> Prop) docs acts i src :
  Forall (fun a => Store.id_of a = None /\ P (Store.source_of a)) acts ->
  Store.bulk_index docs acts !! i = Some src -> docs !! i = Some src \/ P src.
Proof.
  induction acts as [|x acts IH] using rev_ind; [intros _ H; left; exact H|].
  intros Hall. apply Forall_app in Hall as [Hall Hx].
  rewrite Forall_singleton in Hx. destruct Hx as [Hid HP]. rewrite bulk_index_snoc.
  unfold Store.index_doc. rewrite Hid. intros Hl.
  apply lookup_insert_Some in Hl as [[_ <-]|[_ Hl]]; [right; exact HP|apply IH; assumption].
Qed.

Lemma get_file_content_found es index unquote file_id docs src :
  Store.reachable es = true -> Store.indices es !! index = Some docs ->
  docs !! unquote file_id = Some src ->
  Api.get_file_content es index unquote file_id
  = Api.JSONResponse 200
      (VDict [("content", get_default "content" (VStr "Content not found") src)]).
Proof.
  intros Hr Hi Hd. unfold Api.get_file_content, Store.es_get. cbv zeta.
  rewrite Hr, Hi. cbn [negb]. rewrite Hd. reflexivity.
Qed.

Lemma old_text_actions_content w f fc ct text :
  Forall (fun a => get "content" (Store.source_of a) = Some (VStr fc))
    (old_text_actions w f fc ct text).
Proof.
  unfold old_text_actions. destruct (blank text); [repeat constructor|].
  destruct (split_text w text) as [chunks|]; [|constructor].
  apply Forall_forall. intros a Hin. apply list_elem_of_omap in Hin as ([i c] & _ & Ha).
  rewrite old_action_of_pair in Ha. destruct (blank c); [discriminate|].
  destruct (encode w c); [|discriminate]. injection Ha as <-. reflexivity.
Qed.

(** What the old script indexes of a file is what the read API serves:
    once the actions of a file are in the store, [GET /api/files/{id}]
    with the id of any of them answers 200 with the full content of the
    file. *)
Theorem indexed_file_content_is_served (w : World) (f : File) (fc ct text : string)
    (a : dict) (es : Store.Cluster) (index : string) (docs : gmap string dict)
    (unquote : string -> string) (file_id : string) :
  old_prepared w f = Some (fc, ct, text) ->
  a ∈ old_file_actions w f -> Store.id_of a = Some (unquote file_id) ->
  Store.reachable es = true ->
  Store.indices es !! index = Some (Store.bulk_index docs (old_file_actions w f)) ->
  Api.get_file_content es index unquote file_id
  = Api.JSONResponse 200 (VDict [("content", VStr fc)]).
Proof.
  intros Hp Hin Hid Hr Hi.
  destruct (bulk_index_field "content" (VStr fc) docs (old_file_actions w f) a
              (unquote file_id)) as (src & Hl & Hg); [|exact Hin|exact Hid|].
  { unfold old_file_actions. rewrite Hp. apply old_text_actions_content. }
  rewrite (get_file_content_found es index unquote file_id _ src Hr Hi Hl).
  unfold get_default. rewrite Hg. reflexivity.
Qed.

(** The documents of [delete_index.py] have no [content] field: for a
    document that one of its bulk requests has added to the store,
    [GET /api/files/{id}] answers 200 with the text [Content not found]. *)
Theorem preloaded_chunks_have_no_content (w : World) (acts : list dict)
    (es : Store.Cluster) (index : string) (docs : gmap string dict)
    (unquote : string -> string) (file_id : string) :
  acts ∈ bulk_requests (trace (DeleteIndex.main w).1) ->
  Store.reachable es = true ->
  Store.indices es !! index = Some (Store.bulk_index docs acts) ->
  docs !! unquote file_id = None ->
  is_Some (Store.bulk_index docs acts !! unquote file_id) ->
  Api.get_file_content es index unquote file_id
  = Api.JSONResponse 200 (VDict [("content", VStr "Content not found")]).
Proof.
  intros Hin Hr Hi Hold [src Hl].
  rewrite (get_file_content_found es index unquote file_id _ src Hr Hi Hl).
  assert (Forall (fun a => Store.id_of a = None
                           /\ get "content" (Store.source_of a) = None) acts) as Hall.
  { eapply bulk_requests_ok; [|exact Hin]. apply doc_main_ok. intros file_name chunk v _. split; reflexivity. }
  destruct (bulk_index_new (fun src => get "content" src = None) docs acts _ src Hall Hl)
    as [Hd|Hc]; [congruence|].
  unfold get_default. rewrite Hc. reflexivity.
Qed.

Lemma indexed_file_content_is_served_witness :
  let w := Sample.world [Sample.notes] "2024-01-01T00:00:00Z" Sample.model_384
             Sample.accepting in
  let es := {| Store.reachable := true;
               Store.indices :=
                 {[ "rag_documents" := Store.bulk_index ∅ (old_file_actions w Sample.notes) ]} |} in
  Api.get_file_content es "rag_documents" (fun s => s) "chunk-guides/notes.txt-1700000000.5-0"
  = Api.JSONResponse 200 (VDict [("content", VStr "Chunking keeps context.")]).
Proof.
  intros w es.
  apply (indexed_file_content_is_served w Sample.notes "Chunking keeps context." "text"
           "Chunking keeps context."
           (IndexOld.chunk_action w Sample.notes "Chunking keeps context." "text" 0
              "Chunking keeps context." (replicate 384 0%float))
           es "rag_documents" ∅).
  - reflexivity.
  - assert (old_file_actions w Sample.notes
            = [IndexOld.chunk_action w Sample.notes "Chunking keeps context." "text" 0
                 "Chunking keeps context." (replicate 384 0%float)]) as ->
      by (vm_compute; reflexivity).
    apply list_elem_of_here.
  - reflexivity.
  - reflexivity.
  - apply lookup_singleton_eq.
Defined.

Lemma preloaded_chunks_have_no_content_witness :
  let w := Sample.world [Sample.notes] "2024-01-01T00:00:00Z" Sample.model_384
             Sample.accepting in
  let acts := [DeleteIndex.doc w "notes.txt" "Chunking keeps context."
                 (replicate 384 0%float)] in
  let es := {| Store.reachable := true;
               Store.indices := {[ "rag_documents" := Store.bulk_index ∅ acts ]} |} in
  Api.get_file_content es "rag_documents" (fun s => s) (fresh (dom (∅ : gmap string dict)))
  = Api.JSONResponse 200 (VDict [("content", VStr "Content not found")]).
Proof.
  intros w acts es.
  apply (preloaded_chunks_have_no_content w acts es "rag_documents" ∅).
  - assert (bulk_requests (trace (DeleteIndex.main w).1) = [acts]) as ->
      by (vm_compute; reflexivity).
    apply list_elem_of_here.
  - reflexivity.
  - apply lookup_singleton_eq.
  - apply lookup_empty.
  - eexists. apply lookup_insert_eq.
Defined.

(** ** The listing of the documents *)

Lemma listed_inj (docs : gmap string dict) (d1 d2 : string * dict) :
  d1 ∈ map_to_list docs -> d2 ∈ map_to_list docs -> listed d1 = listed d2 -> d1 = d2.
Proof.
  destruct d1 as [i1 s1], d2 as [i2 s2]. intros H1 H2 Heq.
  assert (i1 = i2) as <- by (unfold listed in Heq; simpl in Heq; congruence).
  apply elem_of_map_to_list in H1, H2. congruence.
Qed.

(** [GET /api/files] answers 500 whenever the search raises, with the
    text of the exception as detail: so when the cluster cannot be reached
    and when the index is missing; its status is 200 or 500.  When the
    search returns the documents of the index, the answer is 200 and no
    entry is listed twice; every document is listed when there are at most
    1000, and with more than 1000 some document is left out, with status
    200. *)
Theorem get_all_files_status_and_coverage (es : Store.Cluster) (index : string) :
  (forall e,
      Store.es_search es index Api.search_body = Raise e ->
      Api.get_all_files es index = Api.HTTPException 500 (str_exn e))
  /\ (Store.reachable es = false \/ Store.indices es !! index = None ->
      Api.status_of (Api.get_all_files es index) = 500)
  /\ (Api.status_of (Api.get_all_files es index) = 200
      \/ Api.status_of (Api.get_all_files es index) = 500)
  /\ (forall response,
        Store.es_search es index Api.search_body = Ok response ->
        exists docs results,
          Store.indices es !! index = Some docs
          /\ Api.get_all_files es index = Api.JSONResponse 200 (VList results)
          /\ NoDup results
          /\ (size docs <= 1000 ->
              forall id source, docs !! id = Some source -> listed (id, source) ∈ results)
          /\ (1000 < size docs ->
              exists id source, docs !! id = Some source /\ listed (id, source) ∉ results)).
Proof.
  split; [|split; [|split]].
  - intros e He. unfold Api.get_all_files. rewrite He. reflexivity.
  - unfold Api.get_all_files, Store.es_search.
    destruct (Store.reachable es); [|intros _; reflexivity].
    intros [Hr|Hi]; [discriminate|]. rewrite Hi. reflexivity.
  - unfold Api.get_all_files, Api.route.
    match goal with |- context [match ?b with Ok _ => _ | Raise _ => _ end] => destruct b end;
      [left|right]; reflexivity.
  - intros response Hsearch.
    assert (Store.reachable es = true
            /\ exists docs, Store.indices es !! index = Some docs) as [Hr [docs Hi]].
    { unfold Store.es_search in Hsearch.
      destruct (Store.reachable es); [|discriminate].
      destruct (Store.indices es !! index) as [docs|]; [eauto|discriminate]. }
    exists docs. eexists. split; [exact Hi|].
    split; [apply (get_all_files_reachable es index docs Hr Hi)|].
    pose proof (NoDup_map_to_list docs) as Hnd.
    assert (forall d, d ∈ take 1000 (map_to_list docs) -> d ∈ map_to_list docs) as Hsub.
    { intros d Hd. apply elem_of_take in Hd as (i & Hl & _).
      apply list_elem_of_lookup. eauto. }
    repeat apply conj.
    + apply NoDup_fmap_2_strong.
      * intros d1 d2 H1 H2. apply (listed_inj docs); auto.
      * rewrite <- (take_drop 1000 (map_to_list docs)) in Hnd.
        apply NoDup_app in Hnd as [Hnd _]. exact Hnd.
    + intros Hsize id source Hl. apply list_elem_of_fmap. exists (id, source).
      split; [reflexivity|]. rewrite take_ge by (rewrite length_map_to_list; lia).
      apply elem_of_map_to_list, Hl.
    + intros Hsize.
      destruct (lookup_lt_is_Some_2 (map_to_list docs) 1000) as [[id source] Hd];
        [rewrite length_map_to_list; lia|].
      exists id, source. split; [apply elem_of_map_to_list; eapply list_elem_of_lookup_2, Hd|].
      intros Hin. apply list_elem_of_fmap in Hin as (d & Heq & Hd').
      apply (listed_inj docs) in Heq;
        [|eapply list_elem_of_lookup_2, Hd|apply Hsub, Hd'].
      subst d. apply elem_of_take in Hd' as (i & Hl & Hlt).
      pose proof (NoDup_lookup _ _ _ _ Hnd Hl Hd). lia.
Qed.

(** ** Bulk requests and warnings of a run *)

Section Run.
Context (p : string).

Lemma run_ok_initial : run_ok p initial.
Proof. split; constructor. Qed.

Lemma run_ok_logging l msg s :
  warns p (l, msg) = false -> run_ok p s -> run_ok p (logging l msg s).
Proof.
  intros Hw [Ht Hl]. split; [exact Ht|]. rewrite log_logging.
  apply Forall_app. split; [exact Hl|]. constructor; [exact Hw|constructor].
Qed.

Lemma run_ok_calling c s : request_ok c -> run_ok p s -> run_ok p (calling c s).
Proof.
  intros Hc [Ht Hl]. split; [|exact Hl]. rewrite trace_calling.
  apply Forall_app. split; [exact Ht|]. constructor; [exact Hc|constructor].
Qed.

Lemma run_ok_append a s : run_ok p s -> run_ok p (append_action a s).
Proof. intros H. exact H. Qed.

Lemma run_ok_set acts s : run_ok p s -> run_ok p (set_all_actions acts s).
Proof. intros H. exact H. Qed.

Lemma run_ok_incr s : run_ok p s -> run_ok p (incr_file_count s).
Proof. intros H. exact H. Qed.

Lemma run_ok_total n s : run_ok p s -> run_ok p (add_total_chunks n s).
Proof. intros H. exact H. Qed.

End Run.

Create HintDb run.
#[local] Hint Resolve run_ok_initial run_ok_logging run_ok_calling run_ok_append run_ok_set
  run_ok_incr run_ok_total : run.
#[local] Hint Extern 1 (warns _ _ = false) => reflexivity : run.
#[local] Hint Extern 1 (request_ok _) => exact I : run.

Lemma length_nonempty {A} (l : list A) n : (S n <=? length l) = true -> l <> [].
Proof. intros H ->. discriminate. Qed.

Lemma request_ok_bulk acts : acts <> [] -> request_ok (EsBulk 120 acts).
Proof. intros H. split; [reflexivity|exact H]. Qed.

Section OldRun.
Context (w : World).
Let p := old_internal_error.

Lemma old_read_error_run_ok f e s : run_ok p s -> run_ok p (IndexOld.read_error f e s).
Proof. intros H. destruct e; simpl; auto with run. Qed.

Lemma old_get_file_run_ok f s :
  run_ok p s -> run_ok p (IndexOld.get_file_content_and_type f s).2.
Proof.
  intros H. unfold IndexOld.get_file_content_and_type.
  repeat match goal with
         | |- context [if ?b then _ else _] => destruct b
         | |- context [match ?r with Ok _ => _ | Raise _ => _ end] => destruct r
         end; simpl; auto using old_read_error_run_ok with run.
Qed.

(** The content types [get_file_content_and_type] returns. *)
Lemma old_content_types f s c ct s' :
  IndexOld.get_file_content_and_type f s = (c, Some ct, s') ->
  ct = "pdf_base64" \/ ct = "text".
Proof.
  unfold IndexOld.get_file_content_and_type.
  repeat match goal with
         | |- context [if ?b then _ else _] => destruct b
         | |- context [match ?r with Ok _ => _ | Raise _ => _ end] => destruct r
         end; intros [= <- <- <-] || intros [=]; auto.
Qed.

Lemma old_extract_run_ok b f s :
  run_ok p s -> run_ok p (IndexOld.extract_text_from_pdf w b f s).2.
Proof.
  intros H. unfold IndexOld.extract_text_from_pdf.
  destruct (pdf_reader w b) as [reader|]; [|simpl; auto with run].
  destruct (if is_encrypted reader then decrypt reader else Ok ()); [|simpl; auto with run].
  destruct (pages reader) as [ps|]; [|simpl; auto with run].
  destruct (read_pages ps EmptyString) as [text [e|]]; simpl; auto with run.
Qed.

Lemma old_embed_run_ok f fc ct ics n s :
  run_ok p s -> run_ok p (IndexOld.embed_chunks w f fc ct ics n s).2.
Proof.
  revert n s; induction ics as [|[i chunk] ics IH]; intros n s Hs; [exact Hs|].
  cbn [IndexOld.embed_chunks]. destruct (blank chunk); [apply IH; auto with run|].
  destruct (encode w chunk); apply IH; auto 6 with run.
Qed.

Lemma old_bulk_returned_run_ok label success failed s :
  run_ok p s -> run_ok p (IndexOld.bulk_returned label success failed s).
Proof. intros H. unfold IndexOld.bulk_returned. destruct failed; auto with run. Qed.

Lemma old_index_batch_run_ok s :
  all_actions s <> [] -> run_ok p s -> run_ok p (IndexOld.index_batch w s).
Proof.
  intros Hne H. unfold IndexOld.index_batch. cbv zeta.
  set (s1 := calling _ _).
  assert (run_ok p s1) as H1
    by (apply run_ok_calling; [apply request_ok_bulk, Hne|auto with run]).
  destruct (bulk w _ _) as [[success failed]|[]];
    auto using old_bulk_returned_run_ok with run.
Qed.

Lemma old_index_final_batch_run_ok s :
  run_ok p s -> run_ok p (IndexOld.index_final_batch w s).
Proof.
  intros H. unfold IndexOld.index_final_batch.
  destruct (all_actions s) as [|a acts] eqn:E; [exact H|]. rewrite <- E. cbv zeta.
  set (s1 := calling _ _).
  assert (run_ok p s1) as H1.
  { apply run_ok_calling; [apply request_ok_bulk|auto with run].
    rewrite all_actions_logging, E. discriminate. }
  destruct (bulk w _ _) as [[success failed]|[]];
    auto using old_bulk_returned_run_ok with run.
Qed.

Lemma old_chunk_and_index_run_ok f fc ct text s :
  run_ok p s -> run_ok p (IndexOld.chunk_and_index w f fc ct text s).
Proof.
  intros H. unfold IndexOld.chunk_and_index. cbv zeta.
  destruct (blank text); [auto with run|].
  destruct (split_text w text) as [[|chunk chunks]|e]; [auto with run| |auto with run].
  set (s1 := logging INFO _ _).
  assert (run_ok p s1) as H1 by (subst s1; auto with run).
  pose proof (old_embed_run_ok f fc ct (enumerate (chunk :: chunks)) 0 s1 H1) as H2.
  destruct (IndexOld.embed_chunks _ _ _ _ _ _ _) as [k s2]. cbn [snd] in H2.
  destruct (500 <=? _) eqn:E; [|auto with run].
  apply old_index_batch_run_ok; [|auto with run]. eapply length_nonempty, E.
Qed.

Lemma old_process_file_run_ok s f : run_ok p s -> run_ok p (IndexOld.process_file w s f).
Proof.
  intros H. unfold IndexOld.process_file. cbv zeta.
  destruct (negb (is_file f)); [exact H|].
  set (s0 := incr_file_count _).
  assert (run_ok p s0) as H0 by (subst s0; auto with run).
  pose proof (old_get_file_run_ok f s0 H0) as H1.
  pose proof (old_content_types f s0) as Hct.
  destruct (IndexOld.get_file_content_and_type f s0) as [[c ct] s1]. cbn [snd] in H1.
  destruct c as [c|], ct as [ct|]; auto with run.
  destruct (negb (truthy (IndexOld.raw c)) || negb (truthy ct)); [auto with run|].
  destruct (Hct _ _ _ eq_refl) as [->| ->].
  - cbn [String.eqb Ascii.eqb Bool.eqb].
    pose proof (old_extract_run_ok (IndexOld.raw c) f s1 H1) as H2.
    destruct (IndexOld.extract_text_from_pdf w (IndexOld.raw c) f s1) as [text s2].
    apply old_chunk_and_index_run_ok, H2.
  - cbn [String.eqb Ascii.eqb Bool.eqb]. apply old_chunk_and_index_run_ok, H1.
Qed.

Lemma old_process_files_run_ok files s :
  run_ok p s -> run_ok p (IndexOld.process_files w files s).
Proof.
  unfold IndexOld.process_files. revert s.
  induction files as [|f files IH]; intros s H; [exact H|].
  simpl. apply IH, old_process_file_run_ok, H.
Qed.

Lemma old_prepare_index_run_ok s :
  run_ok p s -> run_ok p (IndexOld.prepare_index w s).1.
Proof.
  intros H. unfold IndexOld.prepare_index. cbv zeta.
  destruct (indices_exists w) as [[|]|e]; cbn [fst]; auto with run.
  destruct (indices_create w); cbn [fst]; auto 6 with run.
Qed.

Lemma old_main_run_ok : run_ok p (IndexOld.main w).1.
Proof.
  unfold IndexOld.main.
  destruct (_ || _); [cbn [fst]; auto with run|].
  destruct (negb (docs_is_dir w)); [cbn [fst]; auto with run|].
  destruct (Elasticsearch w); [|cbn [fst]; auto with run].
  destruct (ping w) as [[|]|e]; [|cbn [fst]; auto 6 with run..].
  destruct (SentenceTransformer w); [|cbn [fst]; auto 8 with run].
  set (s2 := logging INFO "Embedding model loaded." _).
  assert (run_ok p s2) as H2 by (subst s2; auto 10 with run).
  pose proof (old_prepare_index_run_ok s2 H2) as H3.
  destruct (IndexOld.prepare_index w s2) as [s3 [|]]; cbn [fst] in *; [|exact H3].
  unfold IndexOld.ingest. cbv zeta.
  auto 10 using old_index_final_batch_run_ok, old_process_files_run_ok with run.
Qed.

End OldRun.

Section DocRun.
Context (w : World).
Let p := doc_unsupported.

Lemma doc_parse_pdf_run_ok f s : run_ok p s -> run_ok p (DeleteIndex.parse_pdf w f s).2.
Proof.
  intros H. unfold DeleteIndex.parse_pdf.
  destruct (open_rb f) as [b|]; [|simpl; auto with run].
  destruct (pdf_reader w b) as [reader|]; [|simpl; auto with run].
  destruct (if is_encrypted reader then decrypt reader else Ok ()); [|simpl; auto with run].
  destruct (pages reader) as [ps|]; [|simpl; auto with run].
  destruct (read_pages ps EmptyString) as [text [e|]]; simpl; auto with run.
Qed.

Lemma doc_parse_run_ok f s text s' :
  DeleteIndex.parse w f s = Some (text, s') -> run_ok p s -> run_ok p s'.
Proof.
  unfold DeleteIndex.parse. intros Hp H.
  destruct (String.eqb _ ".pdf").
  { pose proof (doc_parse_pdf_run_ok f s H) as H'.
    destruct (DeleteIndex.parse_pdf w f s). injection Hp as -> ->. exact H'. }
  destruct (String.eqb _ ".docx").
  { unfold DeleteIndex.parse_docx in Hp.
    destruct (docx_paragraphs f); injection Hp as <- <-; auto with run. }
  destruct (_ || _); [|discriminate].
  unfold DeleteIndex.parse_text_file in Hp.
  destruct (open_r f); injection Hp as <- <-; auto with run.
Qed.

(** A file the loop takes up is parsed: the last [else] of the parsing
    block is never entered. *)
Lemma doc_parse_supported f s :
  doc_supported f = true -> is_Some (DeleteIndex.parse w f s).
Proof.
  unfold doc_supported, DeleteIndex.parse, DeleteIndex.supported_suffixes.
  cbv zeta. cbn [existsb]. set (suf := lower (suffix (name f))).
  destruct (is_file f); [|discriminate]. cbn [andb].
  destruct (String.eqb suf ".pdf"); [eauto|].
  destruct (String.eqb suf ".docx"); [eauto|].
  destruct (String.eqb suf ".txt"); [eauto|].
  destruct (String.eqb suf ".md"); [eauto|discriminate].
Qed.

Lemma doc_embed_run_ok file_name ics s :
  run_ok p s -> run_ok p (DeleteIndex.embed_chunks w file_name ics s).
Proof.
  revert s; induction ics as [|[i chunk] ics IH]; intros s Hs; [exact Hs|].
  cbn [DeleteIndex.embed_chunks]. destruct (blank chunk); [auto|].
  destruct (encode w chunk); apply IH; auto 6 with run.
Qed.

Lemma doc_bulk_returned_run_ok label success failed s :
  run_ok p s -> run_ok p (DeleteIndex.bulk_returned label success failed s).
Proof. intros H. unfold DeleteIndex.bulk_returned. destruct failed; auto with run. Qed.

Lemma doc_index_batch_run_ok s :
  all_actions s <> [] -> run_ok p s -> run_ok p (DeleteIndex.index_batch w s).
Proof.
  intros Hne H. unfold DeleteIndex.index_batch. cbv zeta.
  set (s1 := calling _ _).
  assert (run_ok p s1) as H1
    by (apply run_ok_calling; [apply request_ok_bulk, Hne|auto with run]).
  destruct (bulk w _ _) as [[success failed]|e];
    auto using doc_bulk_returned_run_ok with run.
Qed.

Lemma doc_index_final_batch_run_ok s :
  run_ok p s -> run_ok p (DeleteIndex.index_final_batch w s).
Proof.
  intros H. unfold DeleteIndex.index_final_batch.
  destruct (all_actions s) as [|a acts] eqn:E; [exact H|]. rewrite <- E. cbv zeta.
  set (s1 := calling _ _).
  assert (run_ok p s1) as H1.
  { apply run_ok_calling; [apply request_ok_bulk|auto with run].
    rewrite all_actions_logging, E. discriminate. }
  destruct (bulk w _ _) as [[success failed]|e];
    auto using doc_bulk_returned_run_ok with run.
Qed.

Lemma doc_process_file_run_ok s f :
  run_ok p s -> run_ok p (DeleteIndex.state_of (DeleteIndex.process_file w s f)).
Proof.
  intros H. unfold DeleteIndex.process_file. cbv zeta. fold (doc_supported f).
  destruct (doc_supported f) eqn:Hsup; cbn [negb]; [|exact H].
  set (s0 := incr_file_count _).
  assert (run_ok p s0) as H0 by (subst s0; auto with run).
  destruct (doc_parse_supported f s0 Hsup) as [[text s1] Hp]. rewrite Hp.
  pose proof (doc_parse_run_ok f s0 text s1 Hp H0) as H1.
  destruct (blank text); [cbn [DeleteIndex.state_of]; auto with run|].
  destruct (split_text w text) as [[|chunk chunks]|e];
    cbn [DeleteIndex.state_of]; [auto with run| |auto with run].
  set (s2 := DeleteIndex.embed_chunks _ _ _ _).
  assert (run_ok p s2) as H2 by (subst s2; apply doc_embed_run_ok; auto 6 with run).
  destruct (1000 <=? _) eqn:E; [|exact H2].
  apply doc_index_batch_run_ok; [|exact H2]. eapply length_nonempty, E.
Qed.

Lemma doc_process_files_run_ok files s :
  run_ok p s -> run_ok p (DeleteIndex.state_of (DeleteIndex.process_files w files s)).
Proof.
  revert s; induction files as [|f files IH]; intros s H; [exact H|].
  cbn [DeleteIndex.process_files].
  pose proof (doc_process_file_run_ok s f H) as Hf.
  destruct (DeleteIndex.process_file w s f); cbn [DeleteIndex.state_of] in Hf;
    [apply IH, Hf|exact Hf].
Qed.

Lemma doc_main_run_ok : run_ok p (DeleteIndex.main w).1.
Proof.
  unfold DeleteIndex.main.
  destruct (_ || _); [cbn [fst]; auto with run|].
  destruct (negb (docs_is_dir w)); [cbn [fst]; auto with run|].
  destruct (Elasticsearch w); [|cbn [fst]; auto with run].
  destruct (ping w) as [[|]|e]; [|cbn [fst]; auto 6 with run..].
  destruct (SentenceTransformer w); [|cbn [fst]; auto 8 with run].
  set (s3 := logging INFO ("Scanning documents in '" +:+ _) _).
  assert (run_ok p s3) as H3 by (subst s3; auto 12 with run).
  pose proof (doc_process_files_run_ok (rglob w) s3 H3) as H4.
  destruct (DeleteIndex.process_files w (rglob w) s3) as [s4|s4 e];
    cbn [fst DeleteIndex.state_of] in *; [|exact H4].
  auto 10 using doc_index_final_batch_run_ok with run.
Qed.

End DocRun.

Lemma prefix_app (p s : string) : String.prefix p (p +:+ s) = true.
Proof.
  induction p as [|c p IH]; [destruct s; reflexivity|].
  simpl. destruct (Ascii.ascii_dec c c); [exact IH|contradiction].
Qed.

Lemma run_ok_never_warns p s msg : run_ok p s -> (WARNING, p +:+ msg) ∉ log s.
Proof.
  intros [_ Hl] Hin. rewrite Forall_forall in Hl. specialize (Hl _ Hin).
  unfold warns in Hl. cbn [fst snd] in Hl. rewrite prefix_app in Hl. discriminate.
Qed.

(** Two branches that are never entered: [delete_index.py] never warns of
    an unsupported file type, as every file it takes up is parsed, and the
    old script never warns of an unexpected content type, as reading a
    file gives [pdf_base64] or [text] only. *)
Theorem dead_warnings_are_never_logged (w : World) (rest : string) :
  ((WARNING, "Skipping unsupported file type: " +:+ rest) ∉ log (DeleteIndex.main w).1)
  /\ ((WARNING, "  Internal error: Unexpected content_type" +:+ rest)
      ∉ log (IndexOld.main w).1)
  /\ (forall f, doc_supported f = true -> is_Some (doc_extracted w f))
  /\ (forall f s c ct s',
        IndexOld.get_file_content_and_type f s = (c, Some ct, s') ->
        ct = "pdf_base64" \/ ct = "text").
Proof.
  repeat apply conj.
  - apply (run_ok_never_warns doc_unsupported), doc_main_run_ok.
  - apply (run_ok_never_warns old_internal_error), old_main_run_ok.
  - intros f Hsup. unfold doc_extracted.
    destruct (doc_parse_supported w f initial Hsup) as [x ->]. eexists; reflexivity.
  - apply old_content_types.
Qed.

(** Every bulk request of either script has a request timeout of 120
    seconds and at least one action. *)
Theorem bulk_requests_are_never_empty (w : World) :
  Forall request_ok (trace (IndexOld.main w).1)
  /\ Forall request_ok (trace (DeleteIndex.main w).1)
  /\ (forall acts, acts ∈ bulk_requests (trace (IndexOld.main w).1) -> acts <> [])
  /\ (forall acts, acts ∈ bulk_requests (trace (DeleteIndex.main w).1) -> acts <> []).
Proof.
  assert (forall tr acts, Forall request_ok tr -> acts ∈ bulk_requests tr -> acts <> [])
    as Hreq.
  { intros tr acts Htr Hin. apply list_elem_of_omap in Hin as (c & Hc & Hacts).
    rewrite Forall_forall in Htr. specialize (Htr c Hc).
    destruct c; try discriminate. injection Hacts as <-. apply Htr. }
  pose proof (old_main_run_ok w) as [Ho _]. pose proof (doc_main_run_ok w) as [Hd _].
  repeat apply conj; [exact Ho|exact Hd|intros acts; apply Hreq, Ho|intros acts; apply Hreq, Hd].
Qed.

(** ** Files without text in the old script *)

(** In the old script the action of a file without text is added without
    the check of the batch size: over files that all have blank text the
    loop makes no call, and the buffer grows by one action per file,
    beyond 500 as well. *)
Theorem metadata_actions_bypass_batch_check (w : World) (files : list File) (s : state) :
  Forall (fun f => exists fc ct text, old_prepared w f = Some (fc, ct, text)
                                      /\ blank text = true) files ->
  trace (IndexOld.process_files w files s) = trace s
  /\ length (all_actions (IndexOld.process_files w files s))
     = length (all_actions s) + length files.
Proof.
  unfold IndexOld.process_files. revert s.
  induction files as [|f files IH]; intros s Hall; [simpl; split; [reflexivity|lia]|].
  apply Forall_cons in Hall as [(fc & ct & text & Hp & Hb) Hall].
  cbn [foldl]. destruct (IH (IndexOld.process_file w s f) Hall) as [-> ->].
  destruct (old_process_file_prepared w s f fc ct text Hp) as (s1 & Ha & Ht & ->).
  rewrite (old_chunk_and_index_blank _ _ _ _ _ _ Hb). autorewrite with state.
  rewrite Ha, Ht, length_app. simpl. split; [reflexivity|lia].
Qed.

Lemma metadata_actions_bypass_batch_check_witness :
  let w := Sample.world (replicate 501 Sample.blank_notes) "2024-01-01T00:00:00Z"
             Sample.model_384 Sample.accepting in
  trace (IndexOld.process_files w (replicate 501 Sample.blank_notes) initial) = []
  /\ length (all_actions (IndexOld.process_files w (replicate 501 Sample.blank_notes) initial))
     = 501.
Proof.
  intros w.
  destruct (metadata_actions_bypass_batch_check w (replicate 501 Sample.blank_notes) initial)
    as [Ht Hl].
  - apply Forall_replicate. exists " ", "text", " ". split; reflexivity.
  - split; [exact Ht|]. rewrite Hl, length_replicate. reflexivity.
Defined.

(** ** The fields of the documents and the mapping *)

(** Every document the old script submits has exactly the fields that the
    mapping it creates the index with declares; it is written to the
    configured index with the operation [index]. *)
Theorem old_documents_fit_the_mapping (w : World) (acts : list dict) (a : dict) :
  acts ∈ bulk_requests (trace (IndexOld.main w).1) -> a ∈ acts ->
  (forall k, k ∈ keys (Store.source_of a) <-> k ∈ mapped_fields)
  /\ Store.target a = Some (IndexOld.ES_INDEX_NAME w)
  /\ Store.op_type a = "index".
Proof.
  intros Hacts Ha.
  pose proof (old_main_ok
                (fun a => (forall k, k ∈ keys (Store.source_of a) <-> k ∈ mapped_fields)
                          /\ Store.target a = Some (IndexOld.ES_INDEX_NAME w)
                          /\ Store.op_type a = "index") w) as [_ Hok].
  - intros f fc ct i chunk v _. repeat apply conj; try reflexivity.
  - intros f fc ct. split; [|split; reflexivity].
    intros k. unfold mapped_fields. simpl. set_solver.
  - pose proof (bulk_requests_ok _ _ _ Hok Hacts) as Hall.
    rewrite Forall_forall in Hall. apply Hall, Ha.
Qed.

Lemma old_documents_fit_the_mapping_witness :
  let w := Sample.world [Sample.notes] "2024-01-01T00:00:00Z" Sample.model_384
             Sample.accepting in
  let a := IndexOld.chunk_action w Sample.notes "Chunking keeps context." "text" 0
             "Chunking keeps context." (replicate 384 0%float) in
  keys (Store.source_of a)
  = ["file_name"; "path"; "content"; "content_type"; "chunk_text"; "chunk_vector"; "timestamp"]
  /\ (forall k, k ∈ keys (Store.source_of a) <-> k ∈ mapped_fields)
  /\ Store.target a = Some "rag_documents".
Proof.
  intros w a.
  assert (bulk_requests (trace (IndexOld.main w).1) = [[a]]) as Hreq
    by (vm_compute; reflexivity).
  destruct (old_documents_fit_the_mapping w [a] a) as (Hk & Ht & _).
  - rewrite Hreq. apply list_elem_of_here.
  - apply list_elem_of_here.
  - split; [reflexivity|]. split; [exact Hk|exact Ht].
Defined.

(** ** A text file that cannot be read *)

(** A text file that cannot be opened: both scripts count it, log the
    error and a warning, add no action, call nothing and go on. *)
Theorem unreadable_text_file_is_skipped (w : World) (f : File) (e : exn) (s : state) :
  is_file f = true ->
  lower (suffix (name f)) = ".txt" \/ lower (suffix (name f)) = ".md" ->
  open_r f = Raise e ->
  let old := IndexOld.process_file w s f in
  all_actions old = all_actions s /\ trace old = trace s
  /\ file_count old = S (file_count s)
  /\ log old
     = log s
       ++ [(INFO, "Processing: " +:+ str_relative f);
           (ERROR, match e with
                   | FileNotFoundError _ => "File not found: " +:+ str_file_path f
                   | _ => "Error reading " +:+ name f +:+ ": " +:+ str_exn e
                   end);
           (WARNING, "  Skipping " +:+ name f +:+ " due to read error or unsupported type.")]
  /\ exists s',
       DeleteIndex.process_file w s f = DeleteIndex.Running s'
       /\ all_actions s' = all_actions s /\ trace s' = trace s
       /\ file_count s' = S (file_count s)
       /\ log s'
          = log s
            ++ [(INFO, "Processing file: " +:+ name f);
                (ERROR, "Error parsing text/markdown file " +:+ name f +:+ ": "
                        +:+ str_exn e);
                (WARNING, "No text extracted from " +:+ name f +:+ ". Skipping.")].
Proof.
  intros Hfile Hsuf Hopen old. subst old.
  unfold IndexOld.process_file, IndexOld.get_file_content_and_type,
    DeleteIndex.process_file, DeleteIndex.parse, DeleteIndex.parse_text_file.
  cbv zeta. rewrite Hfile, Hopen.
  destruct Hsuf as [-> | ->];
    cbn [negb andb orb existsb String.eqb Ascii.eqb Bool.eqb IndexOld.text_suffixes
         DeleteIndex.supported_suffixes blank truthy];
    (repeat apply conj;
     [destruct e; reflexivity
     |destruct e; reflexivity
     |destruct e; reflexivity
     |destruct e; cbn [IndexOld.read_error]; autorewrite with state;
      rewrite <- ?app_assoc; reflexivity
     |eexists; split; [reflexivity|];
      autorewrite with state; rewrite <- ?app_assoc; repeat apply conj; reflexivity]).
Qed.

Lemma unreadable_text_file_is_skipped_witness :
  let f := {| name := "notes.md"; parent := []; is_file := true;
              st_mtime := 1700000000.5%float;
              open_rb := Raise (Exception "Permission denied");
              open_r := Raise (Exception "Permission denied");
              docx_paragraphs := Sample.no_docx |} in
  let w := Sample.world [f] "2024-01-01T00:00:00Z" Sample.model_384 Sample.accepting in
  log (IndexOld.process_file w initial f)
  = [(INFO, "Processing: notes.md");
     (ERROR, "Error reading notes.md: Permission denied");
     (WARNING, "  Skipping notes.md due to read error or unsupported type.")]
  /\ file_count (IndexOld.process_file w initial f) = 1.
Proof.
  intros f w.
  destruct (unreadable_text_file_is_skipped w f (Exception "Permission denied") initial
              eq_refl (or_intror eq_refl) eq_refl) as (_ & _ & Hc & Hl & _).
  split; [exact Hl|exact Hc].
Defined.

(** ** The order of the calls *)

Lemma ingests_same s s' : trace s' = trace s -> ingests s s'.
Proof. intros H. exists []. rewrite app_nil_r. split; [exact H|constructor]. Qed.

Lemma ingests_trans s1 s2 s3 : ingests s1 s2 -> ingests s2 s3 -> ingests s1 s3.
Proof.
  intros (c1 & H1 & F1) (c2 & H2 & F2). exists (c1 ++ c2).
  split; [rewrite H2, H1, app_assoc; reflexivity|apply Forall_app; auto].
Qed.

Lemma ingests_calls s s' calls :
  trace s' = trace s ++ calls -> Forall (fun c => is_ingest_call c = true) calls ->
  ingests s s'.
Proof. intros H F. exists calls. auto. Qed.

Lemma encode_calls_ingest ics :
  Forall (fun c => is_ingest_call c = true) (omap encode_call_of ics).
Proof.
  apply Forall_forall. intros c Hc. apply list_elem_of_omap in Hc as ([i chunk] & _ & Hc).
  rewrite encode_call_of_pair in Hc. destruct (blank chunk); [discriminate|].
  injection Hc as <-. reflexivity.
Qed.

Lemma old_index_final_batch_trace w s :
  trace (IndexOld.index_final_batch w s)
  = trace s ++ match all_actions s with [] => [] | acts => [EsBulk 120 acts] end.
Proof.
  unfold IndexOld.index_final_batch.
  destruct (all_actions s) as [|a acts] eqn:E; [rewrite app_nil_r; reflexivity|].
  rewrite <- E. cbv zeta.
  destruct (bulk w _ _) as [[success failed]|[]]; try reflexivity.
  unfold IndexOld.bulk_returned. destruct failed; reflexivity.
Qed.

Lemma doc_index_batch_trace w s :
  trace (DeleteIndex.index_batch w s) = trace s ++ [EsBulk 120 (all_actions s)].
Proof.
  unfold DeleteIndex.index_batch. cbv zeta. rewrite trace_logging, all_actions_logging.
  destruct (bulk w _ _) as [[success failed]|e]; [|reflexivity].
  unfold DeleteIndex.bulk_returned. destruct failed; reflexivity.
Qed.

Lemma doc_index_final_batch_trace w s :
  trace (DeleteIndex.index_final_batch w s)
  = trace s ++ match all_actions s with [] => [] | acts => [EsBulk 120 acts] end.
Proof.
  unfold DeleteIndex.index_final_batch.
  destruct (all_actions s) as [|a acts] eqn:E; [rewrite app_nil_r; reflexivity|].
  rewrite <- E. cbv zeta.
  destruct (bulk w _ _) as [[success failed]|e]; try reflexivity.
  unfold DeleteIndex.bulk_returned. destruct failed; reflexivity.
Qed.

Lemma old_chunk_and_index_ingests w f fc ct text s :
  ingests s (IndexOld.chunk_and_index w f fc ct text s).
Proof.
  unfold IndexOld.chunk_and_index. cbv zeta.
  destruct (blank text); [apply ingests_same; reflexivity|].
  assert (ingests s (calling (SplitText text) s)) as Hs
    by (eapply ingests_calls; [apply trace_calling|repeat constructor]).
  destruct (split_text w text) as [[|chunk chunks]|e]; [exact Hs| |exact Hs].
  eapply ingests_trans; [exact Hs|].
  set (s1 := logging INFO _ _).
  pose proof (old_embed_trace w f fc ct (enumerate (chunk :: chunks)) 0 s1) as Ht.
  destruct (IndexOld.embed_chunks _ _ _ _ _ _ _) as [k s2]. cbn [snd] in Ht.
  assert (ingests (calling (SplitText text) s) (add_total_chunks k s2)) as H2
    by (eapply ingests_calls; [exact Ht|apply encode_calls_ingest]).
  destruct (500 <=? _); [|exact H2].
  eapply ingests_trans; [exact H2|].
  eapply ingests_calls; [apply old_index_batch_trace|repeat constructor].
Qed.

Lemma old_process_file_ingests w s f : ingests s (IndexOld.process_file w s f).
Proof.
  destruct (old_prepared w f) as [[[fc ct] text]|] eqn:E.
  - destruct (old_process_file_prepared w s f fc ct text E) as (s1 & _ & Ht & ->).
    eapply ingests_trans; [apply ingests_same, Ht|apply old_chunk_and_index_ingests].
  - apply ingests_same, old_process_file_skipped, E.
Qed.

Lemma old_process_files_ingests w files s : ingests s (IndexOld.process_files w files s).
Proof.
  unfold IndexOld.process_files. revert s.
  induction files as [|f files IH]; intros s; [apply ingests_same; reflexivity|].
  cbn [foldl]. eapply ingests_trans; [apply old_process_file_ingests|apply IH].
Qed.

Lemma old_ingest_ingests w s : ingests s (IndexOld.ingest w s).
Proof.
  unfold IndexOld.ingest. cbv zeta.
  eapply ingests_trans; [apply ingests_same, trace_logging|].
  eapply ingests_trans; [apply (old_process_files_ingests w (rglob w))|].
  eapply ingests_calls; [rewrite !trace_logging; apply old_index_final_batch_trace|].
  destruct (all_actions _); repeat constructor.
Qed.

Lemma doc_process_file_ingests w s f :
  ingests s (DeleteIndex.state_of (DeleteIndex.process_file w s f)).
Proof.
  destruct (doc_cases w f) as [H|(text & Hsup & Hx & Hb)].
  - destruct (doc_process_file_no_text w s f H) as (s' & -> & _ & Ht & _).
    apply ingests_same, Ht.
  - destruct (doc_process_file_text w s f text Hsup Hx Hb) as (s1 & _ & Ht & _ & _ & ->).
    assert (ingests s s1) as H1 by (eapply ingests_calls; [exact Ht|repeat constructor]).
    destruct (split_text w text) as [[|c cs]|e]; cbn [DeleteIndex.state_of];
      [apply H1| |apply H1].
    eapply ingests_trans; [exact H1|]. cbv zeta.
    set (s2 := DeleteIndex.embed_chunks _ _ _ _).
    assert (ingests s1 s2) as H2.
    { eapply ingests_calls; [|apply encode_calls_ingest].
      subst s2. rewrite doc_embed_trace. reflexivity. }
    destruct (1000 <=? _); [|exact H2].
    eapply ingests_trans; [exact H2|].
    eapply ingests_calls; [apply doc_index_batch_trace|repeat constructor].
Qed.

Lemma doc_process_files_ingests w files s :
  ingests s (DeleteIndex.state_of (DeleteIndex.process_files w files s)).
Proof.
  revert s; induction files as [|f files IH]; intros s; [apply ingests_same; reflexivity|].
  cbn [DeleteIndex.process_files].
  pose proof (doc_process_file_ingests w s f) as Hf.
  destruct (DeleteIndex.process_file w s f) as [s1|s1 e]; cbn [DeleteIndex.state_of] in Hf.
  - eapply ingests_trans; [exact Hf|apply IH].
  - exact Hf.
Qed.

(** The order of the calls of a run.  The old script, when it ends with
    status 0, has pinged the cluster, loaded the model, asked for the
    index and created it when it was not there, in this order and before
    any split, embedding or bulk request.  [delete_index.py], once the
    services are up, has pinged and loaded the model before any of them,
    and never asks for the index nor creates it. *)
Theorem calls_in_order (w : World) :
  ((IndexOld.main w).2 = 0 ->
   exists calls, trace (IndexOld.main w).1 = old_startup_calls w ++ calls
                 /\ Forall (fun c => is_ingest_call c = true) calls)
  /\ (services_up w = true ->
      exists calls,
        trace (DeleteIndex.main w).1
        = [EsPing; LoadModel DeleteIndex.EMBEDDING_MODEL_NAME] ++ calls
        /\ Forall (fun c => is_ingest_call c = true) calls).
Proof.
  split.
  - unfold IndexOld.main, IndexOld.prepare_index, old_startup_calls. cbv zeta.
    destruct (_ || _); [discriminate|].
    destruct (negb (docs_is_dir w)); [discriminate|].
    destruct (Elasticsearch w); [|discriminate].
    destruct (ping w) as [[|]|e]; [|discriminate..].
    destruct (SentenceTransformer w); [|discriminate].
    destruct (indices_exists w) as [[|]|e]; [| |discriminate].
    + intros _. cbn [fst].
      match goal with |- context [IndexOld.ingest w ?s] =>
        destruct (old_ingest_ingests w s) as (calls & -> & Hc) end.
      exists calls. split; [reflexivity|exact Hc].
    + destruct (indices_create w); [|discriminate]. intros _. cbn [fst].
      match goal with |- context [IndexOld.ingest w ?s] =>
        destruct (old_ingest_ingests w s) as (calls & -> & Hc) end.
      exists calls. split; [reflexivity|exact Hc].
  - unfold DeleteIndex.main, services_up. cbv zeta.
    destruct (env_truthy (ELASTIC_CLOUD_ID w)); [|discriminate].
    destruct (env_truthy (ELASTIC_API_KEY w)); [|discriminate].
    destruct (docs_is_dir w); [|discriminate]. cbn [negb orb andb].
    destruct (Elasticsearch w); [|discriminate].
    destruct (ping w) as [[|]|e]; [|discriminate..].
    destruct (SentenceTransformer w); [|discriminate]. intros _.
    set (s0 := logging INFO ("Scanning documents in '" +:+ _) _).
    pose proof (doc_process_files_ingests w (rglob w) s0) as (calls & Ht & Hc).
    destruct (DeleteIndex.process_files w (rglob w) s0) as [s1|s1 e];
      cbn [fst DeleteIndex.state_of] in *.
    + exists (calls ++ match all_actions s1 with [] => [] | acts => [EsBulk 120 acts] end).
      rewrite !trace_logging, doc_index_final_batch_trace, Ht, <- app_assoc.
      split; [reflexivity|]. apply Forall_app. split; [exact Hc|].
      destruct (all_actions s1); repeat constructor.
    + exists calls. split; [exact Ht|exact Hc].
Qed.
